(** * Uncertainty quantification pipeline: parameters, node evaluation, alignment

    A shallow embedding of the Python 2 sources

      - [uncertainpy/parameters.py]      (classes [Parameter], [Parameters])
      - [src/evaluateNodeFunction.py]    (function [evaluateNodeFunction])
      - [uncertainty.py]                 (class [UncertaintyEstimation])

    All three modules are Python 2 (they use the [print] statement), so
    the builtin [dict] is CPython 2.7's open-addressing hash table, whose
    iteration order is the order of its slots and not the order of
    insertion.  The external libraries (chaospy, scipy, numpy, the
    simulator) are kept symbolic or taken as an explicit environment. *)

From Stdlib Require Import List String Ascii ZArith QArith Bool Arith Lia.
Import ListNotations.
Set Warnings "-register-all".
Local Open Scope string_scope.
Local Open Scope list_scope.
Local Open Scope Z_scope.

(* ===================================================================== *)
(** ** The Python 2 runtime: exceptions, values, [str] hashing, [dict]   *)
(* ===================================================================== *)

Module Py.

(** Exceptions the modelled code can raise or let through. *)
Inductive exn : Type :=
| TypeError (msg : string)
| IndexError (msg : string)
| KeyError (key : string)
| ValueError (msg : string)
| IOError (path : string)
| AttributeError (name : string)
| SystemExit (code : Z)
| MemoryError
| External (what : string).

Inductive result (A : Type) : Type :=
| Return (a : A)
| Raise (e : exn).
Arguments Return {A} a.
Arguments Raise {A} e.

Definition bind {A B} (m : result A) (k : A -> result B) : result B :=
  match m with
  | Return a => k a
  | Raise e => Raise e
  end.

Definition is_return {A} (m : result A) : bool :=
  match m with Return _ => true | Raise _ => false end.

(** [hash(s)] of a byte string in CPython 2.7 on a 64-bit platform
    (Objects/stringobject.c, [string_hash], hash randomisation off, which
    is the default): a C [long] with two's complement wrap-around. *)
Definition LONG_BIT : Z := 64.
Definition wrap (x : Z) : Z := x mod 2 ^ LONG_BIT.
Definition to_long (x : Z) : Z :=
  if x <? 2 ^ (LONG_BIT - 1) then x else x - 2 ^ LONG_BIT.
Definition ord (c : ascii) : Z := Z.of_nat (nat_of_ascii c).

Fixpoint hash_loop (s : string) (x : Z) : Z :=
  match s with
  | EmptyString => x
  | String c s' => hash_loop s' (wrap (Z.lxor (wrap (1000003 * x)) (ord c)))
  end.

Definition string_hash (s : string) : Z :=
  match s with
  | EmptyString => 0
  | String c _ =>
      let x := hash_loop s (Z.shiftl (ord c) 7) in
      let x := to_long (Z.lxor x (Z.of_nat (String.length s))) in
      if x =? -1 then -2 else x
  end.

(** The slot table of a CPython 2.7 dict (Objects/dictobject.c).  Only
    the keys and their hashes are kept here: the order of the occupied
    slots is what iteration over the dict follows. *)
Definition PyDict_MINSIZE : Z := 8.
Definition PERTURB_SHIFT : Z := 5.

Definition slot : Type := option (Z * string).

Record PyDictObject : Type := mkDictObject {
  ma_fill : Z;
  ma_used : Z;
  ma_mask : Z;
  ma_table : list slot
}.

Definition empty_table : PyDictObject :=
  mkDictObject 0 0 (PyDict_MINSIZE - 1) (repeat None (Z.to_nat PyDict_MINSIZE)).

Definition get_slot (tbl : list slot) (i : Z) : slot :=
  nth (Z.to_nat i) tbl None.

Fixpoint set_slot (tbl : list slot) (i : nat) (e : Z * string) : list slot :=
  match tbl, i with
  | [], _ => []
  | _ :: tl, O => Some e :: tl
  | hd :: tl, S i' => hd :: set_slot tl i' e
  end.

(** The collision loop of [lookdict_string]:
    [for (perturb = hash; ; perturb >>= PERTURB_SHIFT) { i = (i << 2) + i + perturb + 1; ... }].
    [clean = true] is [insertdict_clean], which only looks for a free
    slot.  The recursion is bounded by [fuel]; the table always has a free
    slot and the probe sequence reaches every slot once [perturb] is 0. *)
Fixpoint probe (fuel : nat) (clean : bool) (tbl : list slot) (mask : Z)
  (key : string) (hash i perturb : Z) : option Z :=
  match fuel with
  | O => None
  | S fuel' =>
      let i := wrap (Z.shiftl i 2 + i + perturb + 1) in
      let ix := Z.land i mask in
      match get_slot tbl ix with
      | None => Some ix
      | Some (h, k) =>
          if negb clean && (h =? hash) && String.eqb k key then Some ix
          else probe fuel' clean tbl mask key hash i (Z.shiftr perturb PERTURB_SHIFT)
      end
  end.

Definition lookdict (clean : bool) (mp : PyDictObject) (key : string) (hash : Z)
  : option Z :=
  let uhash := wrap hash in
  let i := Z.land uhash (ma_mask mp) in
  match get_slot (ma_table mp) i with
  | None => Some i
  | Some (h, k) =>
      if negb clean && (h =? hash) && String.eqb k key then Some i
      else probe (14 + List.length (ma_table mp)) clean (ma_table mp) (ma_mask mp)
             key hash i uhash
  end.

Definition insertdict (clean : bool) (mp : PyDictObject) (key : string) (hash : Z)
  : PyDictObject :=
  match lookdict clean mp key hash with
  | None => mp
  | Some i =>
      match get_slot (ma_table mp) i with
      | Some _ => mp
      | None =>
          mkDictObject (ma_fill mp + 1) (ma_used mp + 1) (ma_mask mp)
            (set_slot (ma_table mp) (Z.to_nat i) (hash, key))
      end
  end.

(** [for (newsize = PyDict_MINSIZE; newsize <= minused && newsize > 0; newsize <<= 1);] *)
Fixpoint grow (fuel : nat) (newsize minused : Z) : Z :=
  match fuel with
  | O => newsize
  | S fuel' => if newsize <=? minused then grow fuel' (Z.shiftl newsize 1) minused
               else newsize
  end.

Fixpoint active (tbl : list slot) : list (Z * string) :=
  match tbl with
  | [] => []
  | None :: tl => active tl
  | Some e :: tl => e :: active tl
  end.

Definition dictresize (mp : PyDictObject) (minused : Z) : PyDictObject :=
  let newsize := grow 64 PyDict_MINSIZE minused in
  let fresh := mkDictObject 0 0 (newsize - 1) (repeat None (Z.to_nat newsize)) in
  fold_left (fun m e => insertdict true m (snd e) (fst e)) (active (ma_table mp)) fresh.

(** [PyDict_SetItem], restricted to what it does to the slots. *)
Definition table_setitem (mp : PyDictObject) (key : string) : PyDictObject :=
  let n_used := ma_used mp in
  let mp' := insertdict false mp key (string_hash key) in
  if (ma_used mp' >? n_used) && (ma_fill mp' * 3 >=? (ma_mask mp' + 1) * 2)
  then dictresize mp' ((if ma_used mp' >? 50000 then 2 else 4) * ma_used mp')
  else mp'.

Definition slot_order (keys : list string) : list string :=
  map snd (active (ma_table (fold_left table_setitem keys empty_table))).

(** A Python 2 [dict] with string keys.  The list holds the entries in
    the order their keys were first inserted (an assignment to a key
    already present replaces the value in place) and answers lookups;
    iteration, [keys()] and [values()] follow the occupied slots of the
    hash table the same insertions build, not the insertion order.  The
    modelled code never deletes a key. *)
Definition dict (V : Type) : Type := list (string * V).

Definition dict_empty {V} : dict V := [].

Fixpoint dict_getitem {V} (d : dict V) (key : string) : option V :=
  match d with
  | [] => None
  | (k, v) :: tl => if String.eqb k key then Some v else dict_getitem tl key
  end.

Fixpoint dict_setitem {V} (d : dict V) (key : string) (v : V) : dict V :=
  match d with
  | [] => [(key, v)]
  | (k, v0) :: tl =>
      if String.eqb k key then (k, v) :: tl else (k, v0) :: dict_setitem tl key v
  end.

Definition dict_keys {V} (d : dict V) : list string :=
  slot_order (map fst d).

Definition dict_iteritems {V} (d : dict V) : list (string * V) :=
  flat_map (fun k => match dict_getitem d k with
                     | Some v => [(k, v)]
                     | None => []
                     end) (dict_keys d).

Definition dict_values {V} (d : dict V) : list V :=
  map snd (dict_iteritems d).

(** chaospy distributions, kept symbolic: the pipeline only builds them,
    passes them on and asks for their number of axes. *)
Inductive Dist : Type :=
| Uniform (lo hi : Q)
| Normal (mu sigma : Q)
| MvNormal (mu : list Q) (C : list (list Q))
| J (args : list Dist).

(** [len(dist)]: the number of axes; the axes of [J(d_1, ..., d_k)] are
    those of its arguments, in argument order. *)
Fixpoint len_Dist (d : Dist) : nat :=
  match d with
  | Uniform _ _ => 1%nat
  | Normal _ _ => 1%nat
  | MvNormal mu _ => List.length mu
  | J args => list_sum (map len_Dist args)
  end.

Definition ndarray : Type := list Q.

(** The Python objects the modelled code handles. *)
Inductive pyobj : Type :=
| PyNone
| PyFloat (x : Q)
| PyInt (n : Z)
| PyStr (s : string)
| PyArray (a : ndarray)
| PyList (l : list pyobj)
| PyDist (d : Dist)
| PySpline (t U : ndarray) (k : Z).

Definition is_None (o : pyobj) : bool :=
  match o with PyNone => true | _ => false end.

(** [isinstance(o, cp.Dist)] *)
Definition is_Dist (o : pyobj) : bool :=
  match o with PyDist _ => true | _ => false end.

(** [isinstance(o, float) or isinstance(o, int)] *)
Definition is_float_or_int (o : pyobj) : bool :=
  match o with PyFloat _ | PyInt _ => true | _ => false end.

(** [hasattr(o, "__iter__")]: true of lists, tuples and arrays; a Python 2
    [str] has no [__iter__]. *)
Definition has_iter (o : pyobj) : bool :=
  match o with PyArray _ | PyList _ => true | _ => false end.

(** [o[j]] *)
Definition getitem (o : pyobj) (j : nat) : result pyobj :=
  match o with
  | PyList l =>
      match nth_error l j with
      | Some v => Return v
      | None => Raise (IndexError "list index out of range")
      end
  | PyArray a =>
      match nth_error a j with
      | Some x => Return (PyFloat x)
      | None => Raise (IndexError "index out of bounds")
      end
  | PyStr s =>
      match String.get j s with
      | Some c => Return (PyStr (String c EmptyString))
      | None => Raise (IndexError "string index out of range")
      end
  | _ => Raise (TypeError "object has no attribute __getitem__")
  end.

(** [len(o)] *)
Definition len (o : pyobj) : result nat :=
  match o with
  | PyList l => Return (List.length l)
  | PyArray a => Return (List.length a)
  | PyStr s => Return (String.length s)
  | _ => Raise (TypeError "object has no len()")
  end.

End Py.

Import Py.

(* ===================================================================== *)
(** ** uncertainpy/parameters.py                                         *)
(* ===================================================================== *)

Module parameters.

(** What a caller may pass as [distribution]: [None], a chaospy
    distribution, a callable (invoked on the nominal value), or any other
    object. *)
Inductive distribution_arg : Type :=
| ArgNone
| ArgDist (d : Dist)
| ArgCallable (f : pyobj -> result pyobj)
| ArgOther (o : pyobj).

(** class Parameter.  The Rocq name carries a prime because the bare word
    is reserved. *)
Record Parameter' : Type := mkParameter {
  name : string;
  value : pyobj;
  parameter_space : pyobj
}.

(** [Parameter.setDistribution]: the updated object and how the call
    ended.  In the callable branch the attribute is assigned before it is
    checked, so it keeps the returned object when [TypeError] is raised. *)
Definition setDistribution (self : Parameter') (distribution : distribution_arg)
  : Parameter' * result unit :=
  match distribution with
  | ArgNone =>
      (mkParameter (name self) (value self) PyNone, Return tt)
  | ArgDist d =>
      (mkParameter (name self) (value self) (PyDist d), Return tt)
  | ArgCallable f =>
      match f (value self) with
      | Raise e => (self, Raise e)
      | Return o =>
          let self' := mkParameter (name self) (value self) o in
          if negb (is_Dist o)
          then (self', Raise (TypeError "Function does not return a Chaospy distribution"))
          else (self', Return tt)
      end
  | ArgOther _ =>
      (self, Raise (TypeError "Argument is neither a function nor a Chaospy distribution"))
  end.

(** [Parameter.__init__(name, value, distribution=None)] *)
Definition Parameter_init (name : string) (value : pyobj) (distribution : distribution_arg)
  : result Parameter' :=
  let (self, r) := setDistribution (mkParameter name value PyNone) distribution in
  bind r (fun _ => Return self).

(** An element of [parameterlist]: a [Parameter] object or a
    [[name, value, distribution]] list. *)
Inductive parameterlist_item : Type :=
| ParameterObject (p : Parameter')
| ParameterRow (name : string) (value : pyobj) (distribution : distribution_arg).

(** class Parameters.  [parameters] is the dict built by [__init__].
    [uncertain_parameters] and [distribution] are instance attributes that
    this class does not set: uncertainty.py reads the first, and the
    callers under examples/ assign the second
    ([parameters.distribution = dist]). *)
Record Parameters' : Type := mkParameters {
  parameters : dict Parameter';
  uncertain_parameters : list string;
  distribution : pyobj
}.

(** The loop of [Parameters.__init__]. *)
Fixpoint init_loop (d : dict Parameter') (parameterlist : list parameterlist_item)
  : result (dict Parameter') :=
  match parameterlist with
  | [] => Return d
  | ParameterObject i :: rest => init_loop (dict_setitem d (name i) i) rest
  | ParameterRow i0 i1 i2 :: rest =>
      bind (Parameter_init i0 i1 i2)
           (fun p => init_loop (dict_setitem d i0 p) rest)
  end.

Definition Parameters_init (parameterlist : list parameterlist_item)
  : result Parameters' :=
  bind (init_loop dict_empty parameterlist)
       (fun d => Return (mkParameters d [] PyNone)).

(** [getattr(parameter, item)] *)
Definition getattr (parameter : Parameter') (item : string) : result pyobj :=
  if String.eqb item "name" then Return (PyStr (name parameter))
  else if String.eqb item "value" then Return (value parameter)
  else if String.eqb item "parameter_space" then Return (parameter_space parameter)
  else Raise (AttributeError item).

Fixpoint collect (ps : list Parameter') (item : string) : result (list pyobj) :=
  match ps with
  | [] => Return []
  | p :: rest =>
      bind (getattr p item) (fun v =>
      bind (collect rest item) (fun vs => Return (v :: vs)))
  end.

(** The parameters [getUncertain] goes through: those whose
    [parameter_space] is not [None], in the order [values()] yields them. *)
Definition uncertain_in_dict_order (ps : Parameters') : list Parameter' :=
  filter (fun parameter => negb (is_None (parameter_space parameter)))
         (dict_values (parameters ps)).

(** [Parameters.getUncertain(item="name")] *)
Definition getUncertain (self : Parameters') (item : string) : result (list pyobj) :=
  collect (uncertain_in_dict_order self) item.

(** [Parameters.get(item="name")] returns the Parameter stored under
    [item] when [item] is a key, and the list of that attribute otherwise. *)
Inductive get_result : Type :=
| GetParameter (p : Parameter')
| GetList (l : list pyobj).

Definition get (self : Parameters') (item : string) : result get_result :=
  match dict_getitem (parameters self) item with
  | Some p => Return (GetParameter p)
  | None => bind (collect (dict_values (parameters self)) item)
                 (fun l => Return (GetList l))
  end.

(** The registration order the specification speaks of: the parameters
    in the order [parameterlist] gives them, and the uncertain ones among
    them.  This follows the specification's words, not the dict. *)
Fixpoint registered (parameterlist : list parameterlist_item) : list Parameter' :=
  match parameterlist with
  | [] => []
  | ParameterObject p :: rest => p :: registered rest
  | ParameterRow i0 i1 i2 :: rest =>
      match Parameter_init i0 i1 i2 with
      | Return p => p :: registered rest
      | Raise _ => registered rest
      end
  end.

Definition registered_uncertain (parameterlist : list parameterlist_item)
  : list Parameter' :=
  filter (fun parameter => negb (is_None (parameter_space parameter)))
         (registered parameterlist).

(** [Parameters.setDistribution(parameter, distribution)] *)
Definition Parameters_setDistribution (self : Parameters') (parameter : string)
  (distribution : distribution_arg) : Parameters' * result unit :=
  match dict_getitem (parameters self) parameter with
  | None => (self, Raise (KeyError parameter))
  | Some p =>
      let (p', r) := setDistribution p distribution in
      (mkParameters (dict_setitem (parameters self) parameter p')
                    (uncertain_parameters self) (parameters.distribution self), r)
  end.

(** [Parameters.__getitem__(i)] *)
Definition Parameters_getitem (self : Parameters') (i : string) : result Parameter' :=
  match dict_getitem (parameters self) i with
  | Some p => Return p
  | None => Raise (KeyError i)
  end.

(** The loop of [Parameters.setAllDistributions]:
    [for parameter in self.parameters: self.parameters[parameter].setDistribution(distribution)].
    The first exception ends it; the parameters met before keep their new
    distribution. *)
Fixpoint setAllDistributions_loop (keys : list string) (self : Parameters')
  (distribution : distribution_arg) : Parameters' * result unit :=
  match keys with
  | [] => (self, Return tt)
  | parameter :: rest =>
      match Parameters_setDistribution self parameter distribution with
      | (self', Return _) => setAllDistributions_loop rest self' distribution
      | (self', Raise e) => (self', Raise e)
      end
  end.

(** [Parameters.setAllDistributions(distribution)] *)
Definition setAllDistributions (self : Parameters') (distribution : distribution_arg)
  : Parameters' * result unit :=
  setAllDistributions_loop (dict_keys (parameters self)) self distribution.

(** Whether a row of [parameterlist] gives a Parameter. *)
Definition item_ok (item : parameterlist_item) : bool :=
  match item with
  | ParameterObject _ => true
  | ParameterRow i0 i1 i2 => is_return (Parameter_init i0 i1 i2)
  end.

(** Every parameter of the set is stored under its own name. *)
Definition keyed_by_name (self : Parameters') : Prop :=
  forall key p, dict_getitem (parameters self) key = Some p -> name p = key.

End parameters.

(* ===================================================================== *)
(** ** src/evaluateNodeFunction.py                                       *)
(* ===================================================================== *)

Module evaluateNodeFunction.

(** What the function reaches outside itself: the worker process it runs
    in, the module constant [filedir], the simulator subprocess, numpy's
    [.npy] files, the feature class loaded by name, [str()] of a number
    and scipy's validation of spline input. *)
Record process : Type := mkProcess {
  ut : string;
  err : string;
  returncode : Z;
  files : string -> option ndarray
}.

Record Runtime : Type := mkRuntime {
  str : pyobj -> string;
  current_process_name : string;
  filedir : string;
  Popen : list string -> process;
  calculateFeatures :
    string * string * string -> ndarray -> ndarray -> dict pyobj -> pyobj ->
    result (dict pyobj);
  spline_accepts : ndarray -> ndarray -> Z -> bool
}.

(** [data], the tuple the function unpacks. *)
Record data : Type := mkData {
  cmd : list string;
  supress_model_output : bool;
  node : pyobj;
  tmp_parameter_names : list string;
  feature_list : pyobj;
  feature_cmd : string * string * string;
  kwargs : dict pyobj
}.

(** [s.split(sep)] for a one-character separator. *)
Fixpoint split (sep : ascii) (s : string) : list string :=
  match s with
  | EmptyString => [EmptyString]
  | String c s' =>
      if Ascii.eqb c sep then EmptyString :: split sep s'
      else match split sep s' with
           | [] => [String c EmptyString]
           | hd :: tl => String c hd :: tl
           end
  end.

(** [os.path.join(a, b)] for a relative [b]. *)
Definition path_join (a b : string) : string :=
  match a with
  | EmptyString => b
  | _ => match String.get (String.length a - 1) a with
         | Some "/"%char => a ++ b
         | _ => a ++ "/" ++ b
         end
  end.

(** [if isinstance(node, float) or isinstance(node, int): node = [node]] *)
Definition wrap_node (node : pyobj) : pyobj :=
  if is_float_or_int node then PyList [node] else node.

(** The loop [for parameter in tmp_parameter_names: tmp_parameters[parameter] = node[j]; j += 1]. *)
Fixpoint set_parameters (names : list string) (node : pyobj) (j : nat)
  (tmp_parameters : dict pyobj) : result (dict pyobj) :=
  match names with
  | [] => Return tmp_parameters
  | parameter :: rest =>
      bind (getitem node j) (fun v =>
      set_parameters rest node (S j) (dict_setitem tmp_parameters parameter v))
  end.

(** [InterpolatedUnivariateSpline(t, U, k=3)]: the interpolant is kept as
    the symbolic object built from its arguments. *)
Definition InterpolatedUnivariateSpline (accepts : ndarray -> ndarray -> Z -> bool)
  (t U : ndarray) (k : Z) : result pyobj :=
  if accepts t U k then Return (PySpline t U k)
  else Raise (External "scipy.interpolate.InterpolatedUnivariateSpline").

Definition np_load (p : process) (path : string) : result ndarray :=
  match files p path with
  | Some a => Return a
  | None => Raise (IOError path)
  end.

Definition entry : Type := pyobj * pyobj * pyobj.

Section WithRuntime.
Variable rt : Runtime.

(** The body of [for feature in feature_results: ...]. *)
Definition store_feature (t U : ndarray) (results : dict entry)
  (feature : string) (tmp_result : pyobj) : result (dict entry) :=
  if has_iter tmp_result then
    bind (len tmp_result) (fun n =>
    if (n =? 2)%nat then
      bind (getitem tmp_result 0) (fun r0 =>
      if has_iter r0 then
        bind (getitem tmp_result 1) (fun r1 =>
        if has_iter r1 then
          bind (InterpolatedUnivariateSpline (spline_accepts rt) t U 3) (fun interpolation =>
          Return (dict_setitem results feature (r0, r1, interpolation)))
        else Return (dict_setitem results feature (PyNone, tmp_result, PyNone)))
      else Return (dict_setitem results feature (PyNone, tmp_result, PyNone)))
    else Return (dict_setitem results feature (PyNone, tmp_result, PyNone)))
  else Return (dict_setitem results feature (PyNone, tmp_result, PyNone)).

Fixpoint store_features (t U : ndarray) (results : dict entry)
  (feature_results : list (string * pyobj)) : result (dict entry) :=
  match feature_results with
  | [] => Return results
  | (feature, tmp_result) :: rest =>
      bind (store_feature t U results feature tmp_result) (fun results' =>
      store_features t U results' rest)
  end.

(** The worker tag: ["PoolWorker-3"] gives ["3"], any other process name ["0"]. *)
Definition current_process : string :=
  let parts := split "-"%char (current_process_name rt) in
  if String.eqb (hd EmptyString parts) "PoolWorker"
  then last parts EmptyString
  else "0".

Definition command (d : data) (tmp_parameters : dict pyobj) : list string :=
  (cmd d ++ ["--CPU"; current_process; "--save_path"; filedir rt; "--parameters"])
  ++ flat_map (fun kv => [fst kv; str rt (snd kv)]) (dict_iteritems tmp_parameters).

(** What follows a simulation that exited with code 0. *)
Definition collect_results (d : data) (simulation : process) : result (dict entry) :=
  bind (np_load simulation (path_join (filedir rt) (".tmp_U_" ++ current_process ++ ".npy"))) (fun U =>
  bind (np_load simulation (path_join (filedir rt) (".tmp_t_" ++ current_process ++ ".npy"))) (fun t =>
  bind (calculateFeatures rt (feature_cmd d) t U (kwargs d) (feature_list d)) (fun feature_results =>
  bind (store_features t U dict_empty (dict_iteritems feature_results)) (fun results =>
  bind (InterpolatedUnivariateSpline (spline_accepts rt) t U 3) (fun interpolation =>
  Return (dict_setitem results "directComparison" (PyArray t, PyArray U, interpolation))))))).

(** [evaluateNodeFunction(data)]: the lines written to stdout and how the
    call ended; [sys.exit(1)] is the exception [SystemExit 1].  The two
    [os.remove] calls delete files nothing reads afterwards. *)
Definition evaluateNodeFunction (d : data) : list string * result (dict entry) :=
  let node := wrap_node (node d) in
  match set_parameters (tmp_parameter_names d) node 0 dict_empty with
  | Raise e => ([], Raise e)
  | Return tmp_parameters =>
      let simulation := Popen rt (command d tmp_parameters) in
      let out := if negb (supress_model_output d) then [ut simulation] else [] in
      if negb (returncode simulation =? 0)
      then (out ++ [ut simulation; "Error when running simulation:"; err simulation],
            Raise (SystemExit 1))
      else (out, collect_results d simulation)
  end.

End WithRuntime.

(** A string without the character "-". *)
Fixpoint no_dash (s : string) : bool :=
  match s with
  | EmptyString => true
  | String c s' => negb (Ascii.eqb c "-"%char) && no_dash s'
  end.

(** How the feature loop can store a feature value: as it is, between two
    [None], or as its two components with the spline of the model output. *)
Definition stored_as (t U : ndarray) (tmp_result : pyobj) (e : entry) : Prop :=
  e = (PyNone, tmp_result, PyNone)
  \/ exists r0 r1,
       getitem tmp_result 0 = Return r0 /\ getitem tmp_result 1 = Return r1
       /\ has_iter r0 = true /\ has_iter r1 = true
       /\ e = (r0, r1, PySpline t U 3).

End evaluateNodeFunction.

(* ===================================================================== *)
(** ** uncertainty.py                                                    *)
(* ===================================================================== *)

Module uncertainty.

(** [nodes = distribution.sample(n, "M")]: a one-dimensional array for a
    single axis, otherwise one row per axis and one column per node. *)
Inductive nodes_t : Type :=
| Nodes1 (a : ndarray)
| Nodes2 (rows : list ndarray).

Definition ncols (rows : list ndarray) : nat := List.length (hd [] rows).

(** [for node in nodes.T]: the scalars of a one-dimensional array, the
    columns of a two-dimensional one. *)
Definition T_iter (nodes : nodes_t) : list pyobj :=
  match nodes with
  | Nodes1 a => map PyFloat a
  | Nodes2 rows =>
      map (fun j => PyArray (map (fun r => nth j r 0%Q) rows)) (seq 0 (ncols rows))
  end.

(** chaospy and numpy as the methods use them; [Poly] is chaospy's
    polynomial type (both the basis [P] and the fitted [U_hat]). *)
Record Chaospy (Poly : Type) : Type := mkChaospy {
  orth_ttr : Z -> Dist -> result Poly;
  Poly_len : Poly -> nat;
  sample : Dist -> nat -> string -> result nodes_t;
  fit_regression : Poly -> nodes_t -> list ndarray -> string -> result Poly;
  cp_E : Poly -> Dist -> result ndarray;
  cp_Var : Poly -> Dist -> result ndarray;
  cp_Sens_t : Poly -> Dist -> result (list ndarray);
  cp_Corr : Poly -> Dist -> result (list ndarray);
  Poly_call : Poly -> nodes_t -> result (list ndarray);
  percentile : list ndarray -> Z -> Z -> result ndarray
}.
Arguments orth_ttr {Poly} _ _ _.
Arguments Poly_len {Poly} _ _.
Arguments sample {Poly} _ _ _ _.
Arguments fit_regression {Poly} _ _ _ _ _.
Arguments cp_E {Poly} _ _ _.
Arguments cp_Var {Poly} _ _ _.
Arguments cp_Sens_t {Poly} _ _ _.
Arguments cp_Corr {Poly} _ _ _.
Arguments Poly_call {Poly} _ _ _.
Arguments percentile {Poly} _ _ _ _.

(** The simulator behind [Simulation(modelfile, modelpath)]: [set],
    [runSimulation], [getV], [getT] as one call returning [(V, t)]; the
    module globals [modelfile] and [modelpath]; scipy's spline
    evaluation at a point and its validation of the input. *)
Record Simulator : Type := mkSimulator {
  modelfile : string;
  modelpath : string;
  Simulation : string -> string -> dict pyobj -> result (ndarray * ndarray);
  splev : ndarray -> ndarray -> Z -> Q -> Q;
  spline_accepts : ndarray -> ndarray -> Z -> bool
}.

(** [cp.J] applied to the unpacked list [parameter_space], refused when an argument is no distribution. *)
Fixpoint as_dists (l : list pyobj) : option (list Dist) :=
  match l with
  | [] => Some []
  | PyDist d :: rest =>
      match as_dists rest with Some ds => Some (d :: ds) | None => None end
  | _ :: _ => None
  end.

Definition cp_J (parameter_space : list pyobj) : result Dist :=
  match as_dists parameter_space with
  | Some ds => Return (J ds)
  | None => Raise (External "chaospy.J")
  end.

(** The names [getUncertain("name")] returns, as the dict keys they are. *)
Fixpoint as_names (l : list pyobj) : list string :=
  match l with
  | [] => []
  | PyStr s :: rest => s :: as_names rest
  | _ :: rest => as_names rest
  end.

(** [np.argmax]: the index of the first maximum. *)
Fixpoint argmax_from (l : list nat) (i best_i best : nat) : nat :=
  match l with
  | [] => best_i
  | x :: rest =>
      if (best <? x)%nat then argmax_from rest (S i) i x
      else argmax_from rest (S i) best_i best
  end.

Definition argmax (l : list nat) : result nat :=
  match l with
  | [] => Raise (ValueError "attempt to get argmax of an empty sequence")
  | x :: rest => Return (argmax_from rest 1 0 x)
  end.

Definition solve : Type := ndarray * ndarray * pyobj.

Section WithSimulator.
Variable sim : Simulator.

(** [inter(x)]: a spline called on an array is evaluated at each point. *)
Definition call_spline (inter : pyobj) (x : ndarray) : result ndarray :=
  match inter with
  | PySpline t U k => Return (map (splev sim t U k) x)
  | _ => Raise (TypeError "object is not callable")
  end.

Fixpoint interpolate_all (inters : list pyobj) (x : ndarray) : result (list ndarray) :=
  match inters with
  | [] => Return []
  | inter :: rest =>
      bind (call_spline inter x) (fun y =>
      bind (interpolate_all rest x) (fun ys => Return (y :: ys)))
  end.

(** The alignment step shared by [createPCExpansion] (lines 248-258) and
    [pseudoMC]: the time vector with the most samples becomes [self.t]
    and every interpolant is evaluated on it. *)
Definition align (solves : list solve) : result (ndarray * list ndarray) :=
  let lengths := map (fun s : solve => List.length (fst (fst s))) solves in
  bind (match solves with
        | [] => Raise (IndexError "too many indices for array")
        | _ => argmax lengths
        end) (fun index_max_len =>
  let t := nth index_max_len (map (fun s : solve => fst (fst s)) solves) [] in
  bind (interpolate_all (map (fun s : solve => snd s) solves) t) (fun interpolated_solves =>
  Return (t, interpolated_solves))).

(** The inner function [runParallelFunction(all_data)]; the assignment it
    hands to the simulator is the first component of the result. *)
Definition runParallelFunction (node : pyobj) (tmp_parameter_name : list string)
  (features : list (ndarray -> ndarray)) : option (dict pyobj) * result solve :=
  let node := evaluateNodeFunction.wrap_node node in
  match evaluateNodeFunction.set_parameters tmp_parameter_name node 0 dict_empty with
  | Raise e => (None, Raise e)
  | Return tmp_parameters =>
      (Some tmp_parameters,
       bind (Simulation sim (modelfile sim) (modelpath sim) tmp_parameters) (fun Vt =>
       let V := fold_left (fun V feature => feature V) features (fst Vt) in
       let t := snd Vt in
       bind (evaluateNodeFunction.InterpolatedUnivariateSpline (spline_accepts sim) t V 3)
            (fun interpolation => Return (t, V, interpolation))))
  end.

(** The loop [for data in all_data: solves.append(runParallelFunction(data))]:
    the assignments dispatched, in order, and the solves or the first
    exception. *)
Fixpoint run_all (all_data : list pyobj) (tmp_parameter_name : list string)
  (features : list (ndarray -> ndarray)) : list (dict pyobj) * result (list solve) :=
  match all_data with
  | [] => ([], Return [])
  | node :: rest =>
      match runParallelFunction node tmp_parameter_name features with
      | (sent, Raise e) => (match sent with Some a => [a] | None => [] end, Raise e)
      | (sent, Return s) =>
          let (log, r) := run_all rest tmp_parameter_name features in
          ((match sent with Some a => [a] | None => [] end) ++ log,
           bind r (fun ss => Return (s :: ss)))
      end
  end.

End WithSimulator.

(** class UncertaintyEstimation: the attributes the methods below read or
    assign.  An attribute that is [None] or not yet assigned is [None]
    here.  The plotting methods and the diagnostic [print] statements
    only write figures and text and are left out. *)
Record UncertaintyEstimation (Poly : Type) : Type := mkUncertaintyEstimation {
  parameters : parameters.Parameters';
  features : list (ndarray -> ndarray);
  M : Z;
  mc_samples : nat;
  tmp_parameter_name : list string;
  distribution : option Dist;
  P : option Poly;
  t : option ndarray;
  U_hat : option Poly;
  E : option ndarray;
  Var : option ndarray;
  sensitivity : option (list ndarray);
  U_mc : option (list ndarray);
  p_05 : option ndarray;
  p_95 : option ndarray;
  Corr : option (list ndarray)
}.
Arguments mkUncertaintyEstimation {Poly}.
Arguments parameters {Poly} _.
Arguments features {Poly} _.
Arguments M {Poly} _.
Arguments mc_samples {Poly} _.
Arguments tmp_parameter_name {Poly} _.
Arguments distribution {Poly} _.
Arguments P {Poly} _.
Arguments t {Poly} _.
Arguments U_hat {Poly} _.
Arguments E {Poly} _.
Arguments Var {Poly} _.
Arguments sensitivity {Poly} _.
Arguments U_mc {Poly} _.
Arguments p_05 {Poly} _.
Arguments p_95 {Poly} _.
Arguments Corr {Poly} _.

(** [UncertaintyEstimation.__init__(model, parameters, ...)] *)
Definition UncertaintyEstimation_init {Poly} (ps : parameters.Parameters')
  : UncertaintyEstimation Poly :=
  mkUncertaintyEstimation ps [] 3 (10 ^ 3) [] None None None None
    None None None None None None None.

(** The results of a run: the fitted expansion and what is derived from it. *)
Definition statistics {Poly} (s : UncertaintyEstimation Poly) :=
  (U_hat s, E s, Var s, sensitivity s, U_mc s, p_05 s, p_95 s, Corr s).


Section Methods.
Variable Poly : Type.
Variable cp : Chaospy Poly.
Variable sim : Simulator.

Let UE : Type := UncertaintyEstimation Poly.

(** A method runs on the object and on the record of the parameter
    assignments handed to the simulator so far; both survive an
    exception. *)
Definition state : Type := UE * list (dict pyobj).
Definition method (A : Type) : Type := state -> state * result A.

Definition ret {A} (a : A) : method A := fun st => (st, Return a).
Definition raise {A} (e : exn) : method A := fun st => (st, Raise e).
Definition lift {A} (r : result A) : method A := fun st => (st, r).
Definition get_self : method UE := fun st => (st, Return (fst st)).
Definition assign (f : UE -> UE) : method unit :=
  fun st => ((f (fst st), snd st), Return tt).
Definition seq_m {A B} (m : method A) (k : A -> method B) : method B :=
  fun st => match m st with
            | (st', Return a) => k a st'
            | (st', Raise e) => (st', Raise e)
            end.

Notation "x <- m ;; k" := (seq_m m (fun x => k))
  (at level 61, m at next level, right associativity).
Notation "m ;;; k" := (seq_m m (fun _ => k))
  (at level 61, right associativity).

(** [try: body except MemoryError: handler] *)
Definition except_MemoryError {A} (body handler : method A) : method A :=
  fun st => match body st with
            | (st', Raise MemoryError) => handler st'
            | other => other
            end.

Definition set_tmp_parameter_name (v : list string) (s : UE) : UE :=
  mkUncertaintyEstimation (parameters s) (features s) (M s) (mc_samples s) v
    (distribution s) (P s) (t s) (U_hat s) (E s) (Var s) (sensitivity s)
    (U_mc s) (p_05 s) (p_95 s) (Corr s).
Definition set_distribution (v : Dist) (s : UE) : UE :=
  mkUncertaintyEstimation (parameters s) (features s) (M s) (mc_samples s)
    (tmp_parameter_name s) (Some v) (P s) (t s) (U_hat s) (E s) (Var s)
    (sensitivity s) (U_mc s) (p_05 s) (p_95 s) (Corr s).
Definition set_P (v : Poly) (s : UE) : UE :=
  mkUncertaintyEstimation (parameters s) (features s) (M s) (mc_samples s)
    (tmp_parameter_name s) (distribution s) (Some v) (t s) (U_hat s) (E s) (Var s)
    (sensitivity s) (U_mc s) (p_05 s) (p_95 s) (Corr s).
Definition set_t (v : ndarray) (s : UE) : UE :=
  mkUncertaintyEstimation (parameters s) (features s) (M s) (mc_samples s)
    (tmp_parameter_name s) (distribution s) (P s) (Some v) (U_hat s) (E s) (Var s)
    (sensitivity s) (U_mc s) (p_05 s) (p_95 s) (Corr s).
Definition set_U_hat (v : Poly) (s : UE) : UE :=
  mkUncertaintyEstimation (parameters s) (features s) (M s) (mc_samples s)
    (tmp_parameter_name s) (distribution s) (P s) (t s) (Some v) (E s) (Var s)
    (sensitivity s) (U_mc s) (p_05 s) (p_95 s) (Corr s).
Definition set_E (v : ndarray) (s : UE) : UE :=
  mkUncertaintyEstimation (parameters s) (features s) (M s) (mc_samples s)
    (tmp_parameter_name s) (distribution s) (P s) (t s) (U_hat s) (Some v) (Var s)
    (sensitivity s) (U_mc s) (p_05 s) (p_95 s) (Corr s).
Definition set_Var (v : ndarray) (s : UE) : UE :=
  mkUncertaintyEstimation (parameters s) (features s) (M s) (mc_samples s)
    (tmp_parameter_name s) (distribution s) (P s) (t s) (U_hat s) (E s) (Some v)
    (sensitivity s) (U_mc s) (p_05 s) (p_95 s) (Corr s).
Definition set_sensitivity (v : list ndarray) (s : UE) : UE :=
  mkUncertaintyEstimation (parameters s) (features s) (M s) (mc_samples s)
    (tmp_parameter_name s) (distribution s) (P s) (t s) (U_hat s) (E s) (Var s)
    (Some v) (U_mc s) (p_05 s) (p_95 s) (Corr s).
Definition set_U_mc (v : list ndarray) (s : UE) : UE :=
  mkUncertaintyEstimation (parameters s) (features s) (M s) (mc_samples s)
    (tmp_parameter_name s) (distribution s) (P s) (t s) (U_hat s) (E s) (Var s)
    (sensitivity s) (Some v) (p_05 s) (p_95 s) (Corr s).
Definition set_p_05 (v : ndarray) (s : UE) : UE :=
  mkUncertaintyEstimation (parameters s) (features s) (M s) (mc_samples s)
    (tmp_parameter_name s) (distribution s) (P s) (t s) (U_hat s) (E s) (Var s)
    (sensitivity s) (U_mc s) (Some v) (p_95 s) (Corr s).
Definition set_p_95 (v : ndarray) (s : UE) : UE :=
  mkUncertaintyEstimation (parameters s) (features s) (M s) (mc_samples s)
    (tmp_parameter_name s) (distribution s) (P s) (t s) (U_hat s) (E s) (Var s)
    (sensitivity s) (U_mc s) (p_05 s) (Some v) (Corr s).
Definition set_Corr (v : list ndarray) (s : UE) : UE :=
  mkUncertaintyEstimation (parameters s) (features s) (M s) (mc_samples s)
    (tmp_parameter_name s) (distribution s) (P s) (t s) (U_hat s) (E s) (Var s)
    (sensitivity s) (U_mc s) (p_05 s) (p_95 s) (Some v).

(** Reading an attribute that holds [None] where an object is needed. *)
Definition read {A} (what : string) (o : option A) : method A :=
  match o with
  | Some a => ret a
  | None => raise (AttributeError what)
  end.

(** Lines 164-169: the marginals and the names, from the same dict. *)
Definition choose_parameter_space (parameter_name : option string)
  : method (list pyobj) :=
  self <- get_self ;;
  match parameter_name with
  | None =>
      parameter_space <- lift (parameters.getUncertain (parameters self) "parameter_space") ;;
      names <- lift (parameters.getUncertain (parameters self) "name") ;;
      assign (set_tmp_parameter_name (as_names names)) ;;;
      ret parameter_space
  | Some parameter_name =>
      got <- lift (parameters.get (parameters self) parameter_name) ;;
      match got with
      | parameters.GetParameter p =>
          assign (set_tmp_parameter_name [parameter_name]) ;;;
          ret [parameters.parameter_space p]
      | parameters.GetList _ => raise (AttributeError "parameter_space")
      end
  end.

(** The evaluation loop, run as a method: it appends what it dispatched. *)
Definition evaluate_nodes (all_data : list pyobj) : method (list solve) :=
  fun st =>
    let (log, r) := run_all sim all_data (tmp_parameter_name (fst st)) (features (fst st)) in
    ((fst st, snd st ++ log), r).

(** [createPCExpansion(self, parameter_name=None)]; it has no [return]
    statement, so a call that ends normally returns [None]. *)
Definition createPCExpansion (parameter_name : option string) : method pyobj :=
  parameter_space <- choose_parameter_space parameter_name ;;
  joint <- lift (cp_J parameter_space) ;;
  assign (set_distribution joint) ;;;
  self <- get_self ;;
  basis <- lift (orth_ttr cp (M self) joint) ;;
  assign (set_P basis) ;;;
  nodes <- lift (sample cp joint (2 * Poly_len cp basis) "M") ;;
  let all_data := T_iter nodes in
  match all_data with
  | [] => raise (IndexError "list index out of range")
  | _ :: _ =>
      solves <- evaluate_nodes all_data ;;
      aligned <- lift (align sim solves) ;;
      assign (set_t (fst aligned)) ;;;
      fitted <- lift (fit_regression cp basis nodes (snd aligned) "T") ;;
      assign (set_U_hat fitted) ;;;
      ret PyNone
  end.

(** [r == -1] *)
Definition is_minus_one (r : pyobj) : bool :=
  match r with PyInt n => n =? -1 | _ => false end.

(** The [try] block of [singleParameters]. *)
Definition single_statistics : method pyobj :=
  self <- get_self ;;
  fitted <- read "U_hat" (U_hat self) ;;
  joint <- read "distribution" (distribution self) ;;
  e <- lift (cp_E cp fitted joint) ;;
  assign (set_E e) ;;;
  v <- lift (cp_Var cp fitted joint) ;;
  assign (set_Var v) ;;;
  samples <- lift (sample cp joint (mc_samples self) "M") ;;
  mc <- lift (Poly_call cp fitted samples) ;;
  assign (set_U_mc mc) ;;;
  lo <- lift (percentile cp mc 5 1) ;;
  assign (set_p_05 lo) ;;;
  hi <- lift (percentile cp mc 95 1) ;;
  assign (set_p_95 hi) ;;;
  ret PyNone.

Fixpoint singleParameters_loop (uncertain_parameters : list string) : method pyobj :=
  match uncertain_parameters with
  | [] => ret PyNone
  | uncertain_parameter :: rest =>
      r <- createPCExpansion (Some uncertain_parameter) ;;
      if is_minus_one r then ret (PyInt (-1))
      else
        r' <- except_MemoryError single_statistics (ret (PyInt (-1))) ;;
        if is_minus_one r' then ret (PyInt (-1))
        else singleParameters_loop rest
  end.

(** [singleParameters(self)] *)
Definition singleParameters : method pyobj :=
  self <- get_self ;;
  singleParameters_loop (parameters.uncertain_parameters (parameters self)).

(** The [try] block of [allParameters]. *)
Definition all_statistics : method pyobj :=
  self <- get_self ;;
  fitted <- read "U_hat" (U_hat self) ;;
  joint <- read "distribution" (distribution self) ;;
  e <- lift (cp_E cp fitted joint) ;;
  assign (set_E e) ;;;
  v <- lift (cp_Var cp fitted joint) ;;
  assign (set_Var v) ;;;
  sens <- lift (cp_Sens_t cp fitted joint) ;;
  assign (set_sensitivity sens) ;;;
  samples <- lift (sample cp joint (mc_samples self) "M") ;;
  mc <- lift (Poly_call cp fitted samples) ;;
  assign (set_U_mc mc) ;;;
  lo <- lift (percentile cp mc 5 1) ;;
  assign (set_p_05 lo) ;;;
  hi <- lift (percentile cp mc 95 1) ;;
  assign (set_p_95 hi) ;;;
  basis <- read "P" (P self) ;;
  c <- lift (cp_Corr cp basis joint) ;;
  assign (set_Corr c) ;;;
  ret PyNone.

(** [allParameters(self)] *)
Definition allParameters : method pyobj :=
  self <- get_self ;;
  if (List.length (parameters.uncertain_parameters (parameters self)) <=? 1)%nat
  then
    match U_hat self with
    | None => singleParameters ;;; ret PyNone
    | Some _ => ret PyNone
    end
  else
    r <- createPCExpansion None ;;
    if is_minus_one r then ret (PyInt (-1))
    else except_MemoryError all_statistics (ret PyNone).

End Methods.

(** The number of axes of a node array: its rows, or one for a
    one-dimensional array. *)
Definition n_axes (nodes : nodes_t) : nat :=
  match nodes with
  | Nodes1 _ => 1%nat
  | Nodes2 rows => List.length rows
  end.

(** The model object of [pseudoMC]: [saveParameters(tmp_parameters)]
    followed by [run()], giving what [run()] returns and the files
    tmp_U.npy and tmp_t.npy it leaves behind. *)
Record Model : Type := mkModel {
  saveParameters_run : dict pyobj -> pyobj * (string -> option ndarray)
}.

Definition load (files : string -> option ndarray) (path : string) : result ndarray :=
  match files path with
  | Some a => Return a
  | None => Raise (IOError path)
  end.

Definition sum_list (l : list Q) : Q := fold_right Qplus 0%Q l.

(** [np.sum(rows, 0)]: the sums of the columns. *)
Definition sum_axis0 (rows : list ndarray) : ndarray :=
  map (fun j => sum_list (map (fun r => nth j r 0%Q) rows)) (seq 0 (ncols rows)).

(** [(np.sum(interpolated_solves, 0).T/self.mc_samples).T] *)
Definition mc_mean (interpolated_solves : list ndarray) (mc_samples : nat) : ndarray :=
  map (fun x => (x / inject_Z (Z.of_nat mc_samples))%Q) (sum_axis0 interpolated_solves).

(** [(np.sum((interpolated_solves - self.E)**2, 0).T/self.mc_samples).T] *)
Definition mc_variance (interpolated_solves : list ndarray) (mean : ndarray)
  (mc_samples : nat) : ndarray :=
  map (fun x => (x / inject_Z (Z.of_nat mc_samples))%Q)
      (sum_axis0 (map (fun r => map (fun xe => ((fst xe - snd xe) ^ 2)%Q) (combine r mean))
                      interpolated_solves)).

Section MonteCarlo.
Variable Poly : Type.
Variable cp : Chaospy Poly.
Variable sim : Simulator.
Variable model : Model.

Local Notation "x <- m ;; k" := (seq_m Poly m (fun x => k))
  (at level 61, m at next level, right associativity).
Local Notation "m ;;; k" := (seq_m Poly m (fun _ => k))
  (at level 61, right associativity).

(** Lines 266-271 of [pseudoMC]: the marginals and the names, kept in
    local variables. *)
Definition pseudoMC_choose (parameter_name : option string)
  : method Poly (list pyobj * list string) :=
  self <- get_self Poly ;;
  match parameter_name with
  | None =>
      parameter_space <- lift Poly (parameters.getUncertain (parameters self)
                                      "parameter_space") ;;
      names <- lift Poly (parameters.getUncertain (parameters self) "name") ;;
      ret Poly (parameter_space, as_names names)
  | Some parameter_name =>
      got <- lift Poly (parameters.get (parameters self) parameter_name) ;;
      match got with
      | parameters.GetParameter p =>
          ret Poly ([parameters.parameter_space p], [parameter_name])
      | parameters.GetList _ => raise Poly (AttributeError "parameter_space")
      end
  end.

(** One pass of the loop [for s in samples.T]: the assignment saved to
    the model, if the pass got that far, and the solve it appends;
    [None] stands for the [return -1] taken when [self.model.run()]
    returns -1. *)
Definition pseudoMC_step (s : pyobj) (parameter_name : list string)
  (feature : option (ndarray -> ndarray))
  : option (dict pyobj) * result (option solve) :=
  let s := evaluateNodeFunction.wrap_node s in
  match evaluateNodeFunction.set_parameters parameter_name s 0 dict_empty with
  | Raise e => (None, Raise e)
  | Return tmp_parameters =>
      let (status, files) := saveParameters_run model tmp_parameters in
      if is_minus_one status then (Some tmp_parameters, Return None)
      else
        (Some tmp_parameters,
         bind (load files "tmp_U.npy") (fun V =>
         bind (load files "tmp_t.npy") (fun t =>
         let V := match feature with Some f => f V | None => V end in
         bind (evaluateNodeFunction.InterpolatedUnivariateSpline
                 (spline_accepts sim) t V 3)
              (fun interpolation => Return (Some (t, V, interpolation))))))
  end.

Fixpoint pseudoMC_loop (samples : list pyobj) (parameter_name : list string)
  (feature : option (ndarray -> ndarray))
  : list (dict pyobj) * result (option (list solve)) :=
  match samples with
  | [] => ([], Return (Some []))
  | s :: rest =>
      match pseudoMC_step s parameter_name feature with
      | (sent, Raise e) => (match sent with Some a => [a] | None => [] end, Raise e)
      | (sent, Return None) =>
          (match sent with Some a => [a] | None => [] end, Return None)
      | (sent, Return (Some solve)) =>
          let (log, r) := pseudoMC_loop rest parameter_name feature in
          ((match sent with Some a => [a] | None => [] end) ++ log,
           bind r (fun solves =>
                     Return (match solves with
                             | Some ss => Some (solve :: ss)
                             | None => None
                             end)))
      end
  end.

Definition pseudoMC_evaluate (samples : list pyobj) (parameter_name : list string)
  (feature : option (ndarray -> ndarray)) : method Poly (option (list solve)) :=
  fun st =>
    let (log, r) := pseudoMC_loop samples parameter_name feature in
    ((fst st, snd st ++ log), r).

(** [pseudoMC(self, parameter_name=None, feature=None)].  The progress
    line printed after the loop divides by [len(samples.T)], which is a
    ZeroDivisionError for an empty sample. *)
Definition pseudoMC (parameter_name : option string)
  (feature : option (ndarray -> ndarray)) : method Poly pyobj :=
  chosen <- pseudoMC_choose parameter_name ;;
  joint <- lift Poly (cp_J (fst chosen)) ;;
  assign Poly (set_distribution Poly joint) ;;;
  self <- get_self Poly ;;
  samples <- lift Poly (sample cp joint (mc_samples self) "M") ;;
  outcome <- pseudoMC_evaluate (T_iter samples) (snd chosen) feature ;;
  match outcome with
  | None => ret Poly (PyInt (-1))
  | Some solves =>
      match T_iter samples with
      | [] => raise Poly (External "ZeroDivisionError: float division by zero")
      | _ :: _ =>
          aligned <- lift Poly (align sim solves) ;;
          assign Poly (set_t Poly (fst aligned)) ;;;
          let mean := mc_mean (snd aligned) (mc_samples self) in
          assign Poly (set_E Poly mean) ;;;
          assign Poly (set_Var Poly (mc_variance (snd aligned) mean (mc_samples self))) ;;;
          ret Poly PyNone
      end
  end.

End MonteCarlo.

End uncertainty.

(* ===================================================================== *)
(** ** The surrogate and its moments (chaospy)                           *)
(* ===================================================================== *)

Module PCE.

(** Modelled from the spec: the index set of the orthogonal basis of
    total degree at most [M] in [k] variables (chaospy's [orth_ttr] is
    not part of the repository).  [compositions k n] lists the exponent
    vectors of length [k] whose sum is [n]. *)
Fixpoint compositions (k n : nat) : list (list nat) :=
  match k with
  | O => match n with O => [[]] | S _ => [] end
  | S k' => flat_map (fun i => map (cons i) (compositions k' (n - i))) (seq 0 (S n))
  end.

(** Modelled from the spec: the basis functions by graded degree, the
    constant function first. *)
Definition multi_indices (k M : nat) : list (list nat) :=
  flat_map (compositions k) (seq 0 (S M)).

(** Modelled from the spec: the PCEModel, a basis and one coefficient
    vector per time step of the reference grid. *)
Record expansion : Type := mkExpansion {
  basis : list (list nat);
  coeffs : list (list Q)
}.

(** Modelled from the spec: the time columns of the aligned output
    matrix (one row per node), which section 4.4 fits one by one. *)
Definition columns (outputs : list ndarray) : list ndarray :=
  map (fun j => map (fun r => nth j r 0%Q) outputs) (seq 0 (uncertainty.ncols outputs)).

Definition Qsum (l : list Q) : Q := fold_right Qplus 0%Q l.

Section Spec.
(** The regression solver for one time column, the second moments
    [E[Phi_k^2]] of the basis functions, and the parts of chaospy and
    numpy the variance does not depend on.  What section 4.4 asks of the
    solver is [least_squares_solver] below; the statements about the
    fitted values assume it. *)
Variable lstsq : list (list nat) -> uncertainty.nodes_t -> ndarray -> list Q.
Variable norm : Dist -> list nat -> Q.
Variable sampler : Dist -> nat -> string -> result uncertainty.nodes_t.
Variable sens : expansion -> Dist -> result (list ndarray).
Variable corr : expansion -> Dist -> result (list ndarray).
Variable call : expansion -> uncertainty.nodes_t -> result (list ndarray).
Variable perc : list ndarray -> Z -> Z -> result ndarray.

(** Modelled from the spec: section 4.4, the basis of total degree at
    most [M] with respect to the joint distribution. *)
Definition spec_orth_ttr (M : Z) (d : Dist) : result expansion :=
  Return (mkExpansion (multi_indices (len_Dist d) (Z.to_nat M)) []).

(** Modelled from the spec: section 4.4, each time column is fitted
    independently. *)
Definition spec_fit_regression (P : expansion) (nodes : uncertainty.nodes_t)
  (outputs : list ndarray) (rule : string) : result expansion :=
  Return (mkExpansion (basis P) (map (lstsq (basis P) nodes) (columns outputs))).

(** Modelled from the spec: section 4.5, [Mean(t) = c_0(t)]. *)
Definition spec_E (U : expansion) (d : Dist) : result ndarray :=
  Return (map (fun c => nth 0 c 0%Q) (coeffs U)).

(** Modelled from the spec: section 4.5,
    [Variance(t) = sum over k <> 0 of c_k(t)^2 * E[Phi_k^2]]. *)
Definition spec_Var (U : expansion) (d : Dist) : result ndarray :=
  Return (map (fun c =>
            Qsum (map (fun k => (nth k c 0 * nth k c 0 * norm d (nth k (basis U) []))%Q)
                      (seq 1 (List.length (basis U) - 1))))
          (coeffs U)).

(** Modelled from the spec: chaospy as sections 4.4 and 4.5 describe it,
    for use by the methods of uncertainty.py. *)
Definition spec_chaospy : uncertainty.Chaospy expansion :=
  uncertainty.mkChaospy expansion
    spec_orth_ttr (fun P => List.length (basis P)) sampler spec_fit_regression
    spec_E spec_Var sens corr call perc.

End Spec.

(** Modelled from the spec: the evaluation nodes as points of the
    parameter space, one coordinate per axis of the joint distribution. *)
Definition points (nodes : uncertainty.nodes_t) : list (list Q) :=
  match nodes with
  | uncertainty.Nodes1 a => map (fun x => [x]) a
  | uncertainty.Nodes2 rows =>
      map (fun j => map (fun r => nth j r 0%Q) rows) (seq 0 (uncertainty.ncols rows))
  end.

(** Modelled from the spec: the sample mean of the observations of one
    time step over the nodes. *)
Definition sample_mean (column : ndarray) : Q :=
  (Qsum column / inject_Z (Z.of_nat (List.length column)))%Q.

(** Modelled from the spec: the residual of the constant surrogate [c],
    the sum of the squared deviations of the observations from [c]. *)
Definition squared_deviation (column : ndarray) (c : Q) : Q :=
  Qsum (map (fun y => ((y - c) * (y - c))%Q) column).

Section LeastSquares.
(** The value [Phi_k(xi)] of the basis function with exponent vector [k]
    at the point [xi]. *)
Variable phi : list nat -> list Q -> Q.

(** Modelled from the spec: section 4.4, the surrogate
    [U_hat(xi, t) = sum over k of c_k(t) * Phi_k(xi)] at one time step. *)
Definition surrogate (basis : list (list nat)) (c : list Q) (xi : list Q) : Q :=
  Qsum (map (fun kc => (snd kc * phi (fst kc) xi)%Q) (combine basis c)).

(** Modelled from the spec: the sum over the nodes of the squared
    difference between the observed output and the surrogate. *)
Definition residual (basis : list (list nat)) (xis : list (list Q)) (column : ndarray)
  (c : list Q) : Q :=
  Qsum (map (fun xy => ((snd xy - surrogate basis c (fst xy))
                        * (snd xy - surrogate basis c (fst xy)))%Q)
            (combine xis column)).

(** Modelled from the spec: section 4.4, a coefficient vector that
    solves the least-squares regression of one time column, that is, one
    coefficient per basis function and no other such vector has a smaller
    residual. *)
Definition least_squares (basis : list (list nat)) (nodes : uncertainty.nodes_t)
  (column : ndarray) (c : list Q) : Prop :=
  List.length c = List.length basis
  /\ forall c' : list Q,
       List.length c' = List.length basis ->
       (residual basis (points nodes) column c
        <= residual basis (points nodes) column c')%Q.

(** Modelled from the spec: a regression solver that returns a
    least-squares solution on the basis [basis], whenever it is given one
    observation per node. *)
Definition least_squares_solver
  (lstsq : list (list nat) -> uncertainty.nodes_t -> ndarray -> list Q)
  (basis : list (list nat)) : Prop :=
  forall (nodes : uncertainty.nodes_t) (column : ndarray),
    List.length column = List.length (points nodes) ->
    least_squares basis nodes column (lstsq basis nodes column).

(** Modelled from the spec: section 4.5, [Phi_0] is the constant 1. *)
Definition constant_is_one : Prop :=
  forall (k : nat) (xi : list Q), (phi (repeat 0%nat k) xi == 1)%Q.

End LeastSquares.

End PCE.

(* ===================================================================== *)
(** ** Concrete inputs and environments                                  *)
(* ===================================================================== *)

Module Examples.

Import parameters.

(** Three uncertain parameters registered in the order a, b, c. *)
Definition abc : list parameterlist_item :=
  [ParameterRow "a" (PyInt 1) (ArgDist (Uniform 0 1));
   ParameterRow "b" (PyInt 2) (ArgDist (Uniform 0 2));
   ParameterRow "c" (PyInt 3) (ArgDist (Uniform 0 3))].

(** The parameter list of examples/bahl/uq_bahl.py. *)
Definition bahl : list parameterlist_item :=
  [ParameterRow "e_pas" (PyInt (-80)) (ArgDist (Uniform (-60) (-85)));
   ParameterRow "apical Ra" (PyInt 261) (ArgDist (Uniform 150 300))].

(** Two uncertain parameters and a caller-supplied distribution on three
    axes, attached the way examples/coffee_dependent does. *)
Definition two_uncertain : dict Parameter' :=
  [("a", mkParameter "a" (PyInt 1) (PyDist (Uniform 0 1)));
   ("b", mkParameter "b" (PyInt 2) (PyDist (Uniform 0 2)))].

Definition three_axes : Dist :=
  MvNormal [20; -0.22; 0.22]%Q [[1; 0; 0]; [0; 0.001; 0.00099]; [0; 0.00099; 0.001]]%Q.

Definition mismatched : Parameters' :=
  mkParameters two_uncertain ["a"; "b"] (PyDist three_axes).

(** A simulator returning a fixed trace on a grid of five points. *)
Definition grid5 : ndarray := [0; 1; 2; 3; 4]%Q.

Definition steady : uncertainty.Simulator :=
  uncertainty.mkSimulator "INmodel.hoc" "neuron_models/dLGN_modelDB/"
    (fun _ _ _ => Return ([1; 1; 1; 1; 1]%Q, grid5))
    (fun _ U _ _ => hd 0%Q U)
    (fun _ _ _ => true).

(** A simulator that fails whenever parameter a is given the value [bad]. *)
Definition fragile (bad : Q) : uncertainty.Simulator :=
  uncertainty.mkSimulator "INmodel.hoc" "neuron_models/dLGN_modelDB/"
    (fun _ _ assignment =>
       match dict_getitem assignment "a" with
       | Some (PyFloat x) =>
           if Qeq_bool x bad then Raise (External "NEURON: simulation failed")
           else Return ([1; 1; 1; 1; 1]%Q, grid5)
       | _ => Return ([1; 1; 1; 1; 1]%Q, grid5)
       end)
    (fun _ U _ _ => hd 0%Q U)
    (fun _ _ _ => true).

(** A sampler with the shape chaospy gives: [n] scalars for one axis, one
    row of [n] entries per axis otherwise. *)
Definition ramp (n : nat) : ndarray := map (fun i => inject_Z (Z.of_nat i)) (seq 0 n).

Definition ramp_sampler (d : Dist) (n : nat) (rule : string)
  : result uncertainty.nodes_t :=
  if (len_Dist d <=? 1)%nat then Return (uncertainty.Nodes1 (ramp n))
  else Return (uncertainty.Nodes2 (repeat (ramp n) (len_Dist d))).

(** A stand-in regression (every coefficient is the first observation),
    unit second moments, and empty sensitivities, correlations, surrogate
    evaluations and percentiles. *)
Definition toy_lstsq (P : list (list nat)) (nodes : uncertainty.nodes_t) (column : ndarray)
  : list Q :=
  map (fun _ => hd 0%Q column) P.

Definition unit_norm (d : Dist) (index : list nat) : Q := 1%Q.

Definition no_rows (U : PCE.expansion) (d : Dist) : result (list ndarray) := Return [].

Definition no_values (U : PCE.expansion) (samples : uncertainty.nodes_t)
  : result (list ndarray) := Return [].

Definition no_percentile (U_mc : list ndarray) (q axis : Z) : result ndarray := Return [].

Definition toy_chaospy : uncertainty.Chaospy PCE.expansion :=
  PCE.spec_chaospy toy_lstsq unit_norm ramp_sampler no_rows no_rows no_values
    no_percentile.

Definition estimation (ps : Parameters') (degree : Z)
  : uncertainty.UncertaintyEstimation PCE.expansion :=
  uncertainty.mkUncertaintyEstimation ps [] degree 10 [] None None None None
    None None None None None None None.

(** A worker whose simulator subprocess crashes whatever it is given. *)
Definition crashing : evaluateNodeFunction.Runtime :=
  evaluateNodeFunction.mkRuntime
    (fun _ => "?") "PoolWorker-3" "/tmp/uncertainpy"
    (fun _ => evaluateNodeFunction.mkProcess "" "Segmentation fault" 139 (fun _ => None))
    (fun _ _ _ _ _ => Return dict_empty)
    (fun _ _ _ => true).

(** A worker whose simulator writes a trace of five points, with a
    feature class that reports a feature under the reserved name. *)
Definition working : evaluateNodeFunction.Runtime :=
  evaluateNodeFunction.mkRuntime
    (fun _ => "?") "PoolWorker-3" "/tmp/uncertainpy"
    (fun _ => evaluateNodeFunction.mkProcess "done" "" 0
                (fun path =>
                   if String.eqb path "/tmp/uncertainpy/.tmp_U_3.npy"
                   then Some [1; 2; 3; 4; 5]%Q
                   else if String.eqb path "/tmp/uncertainpy/.tmp_t_3.npy"
                   then Some grid5
                   else None))
    (fun _ _ _ _ _ =>
       Return [("nrSpikes", PyInt 4);
               ("directComparison", PyInt 0);
               ("spikeTrain", PyList [PyArray [1; 2]%Q; PyArray [3; 4]%Q])])
    (fun _ _ _ => true).

Definition node_data (node : pyobj) (names : list string) : evaluateNodeFunction.data :=
  evaluateNodeFunction.mkData ["python"; "run_model.py"] true node names
    (PyList []) ("features/", "features.py", "NeuronFeatures") dict_empty.

(** chaospy as above, except that [np.percentile] runs out of memory. *)
Definition exhausted_percentile (U_mc : list ndarray) (q axis : Z) : result ndarray :=
  Raise MemoryError.

Definition exhausted_chaospy : uncertainty.Chaospy PCE.expansion :=
  PCE.spec_chaospy toy_lstsq unit_norm ramp_sampler no_rows no_rows no_values
    exhausted_percentile.

(** A model whose [run()] returns 0 and leaves a trace that rises with
    parameter a, and one whose [run()] returns -1 when a is [bad]. *)
Definition trace_files (level : Q) (path : string) : option ndarray :=
  if String.eqb path "tmp_U.npy" then Some [level; level; level; level; level]
  else if String.eqb path "tmp_t.npy" then Some grid5
  else None.

Definition level_of (assignment : dict pyobj) : Q :=
  match dict_getitem assignment "a" with
  | Some (PyFloat x) => x
  | _ => 0%Q
  end.

Definition bench_model : uncertainty.Model :=
  uncertainty.mkModel (fun assignment => (PyInt 0, trace_files (level_of assignment))).

Definition failing_model (bad : Q) : uncertainty.Model :=
  uncertainty.mkModel
    (fun assignment =>
       if Qeq_bool (level_of assignment) bad
       then (PyInt (-1), fun _ => None)
       else (PyInt 0, trace_files (level_of assignment))).

(** A simulator whose trace sits at the value given to parameter a. *)
Definition rising : uncertainty.Simulator :=
  uncertainty.mkSimulator "INmodel.hoc" "neuron_models/dLGN_modelDB/"
    (fun _ _ assignment =>
       Return (map (fun _ => level_of assignment) grid5, grid5))
    (fun _ U _ _ => hd 0%Q U)
    (fun _ _ _ => true).

(** The monomials as basis functions, and the regression on the constant
    basis solved in closed form: the coefficient of the constant function
    is the mean of the observations. *)
Definition monomial (index : list nat) (xi : list Q) : Q :=
  fold_right Qmult 1%Q
    (map (fun xe => Qpower (fst xe) (Z.of_nat (snd xe))) (combine xi index)).

Definition mean_lstsq (P : list (list nat)) (nodes : uncertainty.nodes_t)
  (column : ndarray) : list Q :=
  match P with
  | [] => []
  | _ :: higher => PCE.sample_mean column :: map (fun _ => 0%Q) higher
  end.

Definition mean_chaospy : uncertainty.Chaospy PCE.expansion :=
  PCE.spec_chaospy mean_lstsq unit_norm ramp_sampler no_rows no_rows no_values
    no_percentile.

End Examples.

(* ===================================================================== *)
(** * Properties                                                         *)
(* ===================================================================== *)

(** ** The dict *)

(** The hashes and the slot order are those of CPython 2.7:
    [hash("a")], [hash("abc")], and the keys of [{"a": 1, "b": 2, "c": 3}],
    which Python 2 lists as a, c, b. *)
Example string_hash_values :
  map string_hash ["a"; "b"; "c"; "abc"]
  = [12416037344; 12544037731; 12672038114; 1453079729188098211].
Proof. vm_compute. reflexivity. Qed.

Example slot_order_abc : slot_order ["a"; "b"; "c"] = ["a"; "c"; "b"].
Proof. vm_compute. reflexivity. Qed.

Lemma dict_getitem_setitem_same (V : Type) (d : dict V) (key : string) (v : V) :
  dict_getitem (dict_setitem d key v) key = Some v.
Proof.
  induction d as [|[k v0] tl IH]; simpl.
  - now rewrite String.eqb_refl.
  - destruct (String.eqb k key) eqn:Hk; simpl; rewrite Hk; auto.
Qed.

Lemma dict_getitem_setitem_other (V : Type) (d : dict V) (key key' : string) (v : V) :
  key <> key' ->
  dict_getitem (dict_setitem d key v) key' = dict_getitem d key'.
Proof.
  intros Hne. induction d as [|[k v0] tl IH]; simpl.
  - destruct (String.eqb key key') eqn:Hk; auto.
    apply String.eqb_eq in Hk. contradiction.
  - destruct (String.eqb k key) eqn:Hk; simpl.
    + apply String.eqb_eq in Hk. subst k.
      destruct (String.eqb key key') eqn:Hk'; auto.
      apply String.eqb_eq in Hk'. contradiction.
    + destruct (String.eqb k key'); auto.
Qed.

Lemma bind_Return_inv (A B : Type) (m : result A) (k : A -> result B) (b : B) :
  bind m k = Return b -> exists a, m = Return a /\ k a = Return b.
Proof. destruct m as [a|e]; simpl; intros H; [eauto | discriminate]. Qed.

(** ** evaluateNodeFunction *)

Section NodeEvaluation.
Import evaluateNodeFunction.

(** Indexing into a list never fails for want of [__getitem__]. *)
Lemma set_parameters_list_no_TypeError (names : list string) (l : list pyobj) :
  forall (j : nat) (d : dict pyobj) (msg : string),
    set_parameters names (PyList l) j d <> Raise (TypeError msg).
Proof.
  induction names as [|n rest IH]; intros j d msg; simpl.
  - discriminate.
  - destruct (nth_error l j) as [v|]; simpl.
    + apply IH.
    + discriminate.
Qed.

(** C9. With one uncertain parameter the node is a bare float or int; it
    is wrapped into a one-element list before the loop indexes it, so the
    assignment maps the single name to the scalar.  Left bare, the same
    loop would raise TypeError; wrapped, no number of names makes it
    index a scalar. *)
Theorem scalar_node_is_wrapped (x : pyobj) (parameter : string) :
  is_float_or_int x = true ->
  set_parameters [parameter] (wrap_node x) 0 dict_empty = Return [(parameter, x)]
  /\ set_parameters [parameter] x 0 dict_empty
     = Raise (TypeError "object has no attribute __getitem__")
  /\ forall names msg,
       set_parameters names (wrap_node x) 0 dict_empty <> Raise (TypeError msg).
Proof.
  intros Hx. unfold wrap_node. rewrite Hx. repeat split.
  - destruct x; simpl in Hx; try discriminate; reflexivity.
  - intros names msg. apply set_parameters_list_no_TypeError.
Qed.

Lemma scalar_node_is_wrapped_witness :
  set_parameters ["Rm"] (wrap_node (PyFloat 22000)) 0 dict_empty
  = Return [("Rm", PyFloat 22000)].
Proof.
  exact (proj1 (scalar_node_is_wrapped (PyFloat 22000) "Rm" eq_refl)).
Defined.

(** C10. A call that returns has stored, under "directComparison", the
    time vector and the output vector loaded from the simulator's files
    and the cubic spline of that output over that time vector, whatever
    features were asked for and whatever names they were reported under. *)
Theorem directComparison_always_present (rt : Runtime) (d : data)
  (out : list string) (results : dict entry) :
  evaluateNodeFunction rt d = (out, Return results) ->
  exists tmp_parameters t U,
    set_parameters (tmp_parameter_names d) (wrap_node (node d)) 0 dict_empty
    = Return tmp_parameters
    /\ np_load (Popen rt (command rt d tmp_parameters))
         (path_join (filedir rt) (".tmp_U_" ++ current_process rt ++ ".npy")) = Return U
    /\ np_load (Popen rt (command rt d tmp_parameters))
         (path_join (filedir rt) (".tmp_t_" ++ current_process rt ++ ".npy")) = Return t
    /\ dict_getitem results "directComparison"
       = Some (PyArray t, PyArray U, PySpline t U 3).
Proof.
  unfold evaluateNodeFunction. intros H.
  destruct (set_parameters _ _ _ _) as [tmp|e] eqn:Htmp; [|discriminate].
  destruct (negb (returncode _ =? 0)) eqn:Hrc; [discriminate|].
  injection H as _ H. unfold collect_results in H.
  apply bind_Return_inv in H as (U & HU & H).
  apply bind_Return_inv in H as (t & Ht & H).
  apply bind_Return_inv in H as (fr & _ & H).
  apply bind_Return_inv in H as (res & _ & H).
  apply bind_Return_inv in H as (interp & Hi & H).
  exists tmp, t, U. repeat split; auto.
  unfold InterpolatedUnivariateSpline in Hi.
  destruct (spline_accepts rt t U 3); [|discriminate].
  injection Hi as <-. injection H as <-.
  apply dict_getitem_setitem_same.
Qed.

Lemma directComparison_always_present_witness :
  exists tmp_parameters t U,
    set_parameters ["Rm"] (wrap_node (PyFloat 22000)) 0 dict_empty = Return tmp_parameters
    /\ np_load (Popen Examples.working
                 (command Examples.working (Examples.node_data (PyFloat 22000) ["Rm"])
                    tmp_parameters))
         (path_join (filedir Examples.working)
            (".tmp_U_" ++ current_process Examples.working ++ ".npy")) = Return U
    /\ np_load (Popen Examples.working
                 (command Examples.working (Examples.node_data (PyFloat 22000) ["Rm"])
                    tmp_parameters))
         (path_join (filedir Examples.working)
            (".tmp_t_" ++ current_process Examples.working ++ ".npy")) = Return t
    /\ dict_getitem
         [("directComparison",
           (PyArray Examples.grid5, PyArray [1; 2; 3; 4; 5]%Q,
            PySpline Examples.grid5 [1; 2; 3; 4; 5]%Q 3));
          ("nrSpikes", (PyNone, PyInt 4, PyNone));
          ("spikeTrain",
           (PyArray [1; 2]%Q, PyArray [3; 4]%Q,
            PySpline Examples.grid5 [1; 2; 3; 4; 5]%Q 3))]
         "directComparison"
       = Some (PyArray t, PyArray U, PySpline t U 3).
Proof.
  apply (directComparison_always_present Examples.working
           (Examples.node_data (PyFloat 22000) ["Rm"]) []).
  vm_compute. reflexivity.
Defined.

End NodeEvaluation.

(** ** Parameter.setDistribution *)

Section Distributions.
Import parameters.

(** C5. A generator function is called on the parameter's nominal value.
    When what it returns is no chaospy distribution the call fails with
    the code's invalid-distribution error, TypeError "Function does not
    return a Chaospy distribution", and so do [Parameter(...)] and
    [Parameters(...)] built with such a function; when it returns a
    distribution, that distribution becomes the parameter's
    [parameter_space]. *)
Theorem generator_function_is_validated (self : Parameter')
  (f : pyobj -> result pyobj) (returned : pyobj) :
  f (value self) = Return returned ->
  setDistribution self (ArgCallable f)
  = (mkParameter (name self) (value self) returned,
     if is_Dist returned then Return tt
     else Raise (TypeError "Function does not return a Chaospy distribution"))
  /\ Parameter_init (name self) (value self) (ArgCallable f)
     = (if is_Dist returned
        then Return (mkParameter (name self) (value self) returned)
        else Raise (TypeError "Function does not return a Chaospy distribution"))
  /\ (is_Dist returned = false ->
      forall before after,
        Parameters_init
          (map ParameterObject before
           ++ ParameterRow (name self) (value self) (ArgCallable f) :: after)
        = Raise (TypeError "Function does not return a Chaospy distribution")).
Proof.
  intros Hf.
  assert (Hinit : Parameter_init (name self) (value self) (ArgCallable f)
           = (if is_Dist returned
              then Return (mkParameter (name self) (value self) returned)
              else Raise (TypeError "Function does not return a Chaospy distribution"))).
  { unfold Parameter_init, setDistribution. simpl. rewrite Hf.
    destruct (is_Dist returned); reflexivity. }
  repeat split.
  - unfold setDistribution. rewrite Hf. destruct (is_Dist returned); reflexivity.
  - exact Hinit.
  - intros Hd before after. rewrite Hd in Hinit. unfold Parameters_init.
    generalize (@dict_empty Parameter').
    induction before as [|p before IH]; intros d0; simpl.
    + rewrite Hinit. reflexivity.
    + apply IH.
Qed.

Lemma generator_function_is_validated_witness :
  snd (setDistribution (mkParameter "cap" (PyFloat 1.1) PyNone)
         (ArgCallable (fun nominal => Return nominal)))
  = Raise (TypeError "Function does not return a Chaospy distribution")
  /\ setDistribution (mkParameter "cap" (PyFloat 1.1) PyNone)
       (ArgCallable (fun nominal => Return (PyDist (Uniform 0 1))))
     = (mkParameter "cap" (PyFloat 1.1) (PyDist (Uniform 0 1)), Return tt).
Proof.
  split.
  - exact (f_equal snd
             (proj1 (generator_function_is_validated
                       (mkParameter "cap" (PyFloat 1.1) PyNone)
                       (fun nominal => Return nominal) (PyFloat 1.1) eq_refl))).
  - exact (proj1 (generator_function_is_validated
                    (mkParameter "cap" (PyFloat 1.1) PyNone)
                    (fun nominal => Return (PyDist (Uniform 0 1)))
                    (PyDist (Uniform 0 1)) eq_refl)).
Defined.

End Distributions.

(** ** Alignment on the reference grid *)

Section Alignment.
Import uncertainty.
Local Open Scope nat_scope.

(** The scan of [np.argmax] keeps the first position holding the largest
    value seen so far. *)
Lemma argmax_from_first_max (L : list nat) :
  forall (l pre : list nat) (bi : nat),
    L = pre ++ l ->
    bi < List.length pre ->
    (forall j, j < List.length pre -> nth j L 0 <= nth bi L 0) ->
    (forall j, j < bi -> nth j L 0 < nth bi L 0) ->
    let r := argmax_from l (List.length pre) bi (nth bi L 0) in
    r < List.length L
    /\ (forall j, j < List.length L -> nth j L 0 <= nth r L 0)
    /\ (forall j, j < r -> nth j L 0 < nth r L 0).
Proof.
  induction l as [|x rest IH]; intros pre bi HL Hbi Hmax Hfirst; simpl.
  - rewrite app_nil_r in HL. subst L. auto.
  - assert (Hx : nth (List.length pre) L 0 = x).
    { subst L. rewrite app_nth2, Nat.sub_diag; auto. }
    assert (HL' : L = (pre ++ [x]) ++ rest) by (rewrite <- app_assoc; exact HL).
    assert (Hlen : List.length (pre ++ [x]) = S (List.length pre))
      by (rewrite length_app; simpl; lia).
    destruct (nth bi L 0 <? x) eqn:Hlt.
    + apply Nat.ltb_lt in Hlt.
      specialize (IH (pre ++ [x]) (List.length pre) HL').
      rewrite Hlen, Hx in IH. apply IH.
      * lia.
      * intros j Hj. destruct (Nat.eq_dec j (List.length pre)) as [->|Hne].
        -- rewrite Hx. lia.
        -- specialize (Hmax j). lia.
      * intros j Hj. specialize (Hmax j). lia.
    + apply Nat.ltb_ge in Hlt.
      specialize (IH (pre ++ [x]) bi HL').
      rewrite Hlen in IH. apply IH.
      * lia.
      * intros j Hj. destruct (Nat.eq_dec j (List.length pre)) as [->|Hne].
        -- rewrite Hx. lia.
        -- apply Hmax. lia.
      * exact Hfirst.
Qed.

Lemma argmax_first_max (x : nat) (rest : list nat) :
  let r := argmax_from rest 1 0 x in
  r < List.length (x :: rest)
  /\ (forall j, j < List.length (x :: rest) -> nth j (x :: rest) 0 <= nth r (x :: rest) 0)
  /\ (forall j, j < r -> nth j (x :: rest) 0 < nth r (x :: rest) 0).
Proof.
  apply (argmax_from_first_max (x :: rest) rest [x] 0); simpl; auto.
  - intros j Hj. assert (j = 0) by lia. subst j. simpl. lia.
  - intros j Hj. lia.
Qed.

Lemma interpolate_all_Return (sim : Simulator) (x : ndarray) :
  forall (inters : list pyobj) (ys : list ndarray),
    interpolate_all sim inters x = Return ys ->
    List.length ys = List.length inters
    /\ Forall (fun y => List.length y = List.length x) ys.
Proof.
  induction inters as [|inter rest IH]; intros ys H; simpl in H.
  - injection H as <-. auto.
  - apply bind_Return_inv in H as (y & Hy & H).
    apply bind_Return_inv in H as (ys' & Hys & H).
    injection H as <-. destruct (IH _ Hys) as [Hl Hf].
    destruct inter; simpl in Hy; try discriminate.
    injection Hy as <-. simpl. split; [lia|].
    constructor; [apply length_map | exact Hf].
Qed.

Lemma interpolate_all_Raise (sim : Simulator) (x : ndarray) :
  forall (inters : list pyobj) (e : exn),
    interpolate_all sim inters x = Raise e ->
    exists inter, In inter inters /\ call_spline sim inter x = Raise e.
Proof.
  induction inters as [|inter rest IH]; intros e H; simpl in H.
  - discriminate.
  - destruct (call_spline sim inter x) as [y|e'] eqn:Hy; simpl in H.
    + destruct (interpolate_all sim rest x) as [ys|e''] eqn:Hys; simpl in H;
        [discriminate|].
      injection H as <-. destruct (IH _ eq_refl) as (i & Hin & Hi).
      exists i. split; [now right | exact Hi].
    + injection H as <-. exists inter. split; [now left | exact Hy].
Qed.

Lemma align_lengths (sim : Simulator) (solves : list solve)
  (grid : ndarray) (aligned : list ndarray) :
  align sim solves = Return (grid, aligned) ->
  List.length aligned = List.length solves
  /\ Forall (fun a => List.length a = List.length grid) aligned.
Proof.
  unfold align. intros H.
  apply bind_Return_inv in H as (i & _ & H).
  apply bind_Return_inv in H as (ys & Hys & H).
  injection H as <- <-.
  apply interpolate_all_Return in Hys as [Hl Hf].
  rewrite length_map in Hl. auto.
Qed.

(** C3. On every batch, the alignment step takes as reference grid the
    time vector of the first solve among those with the most samples, and
    returns one aligned output per solve, each exactly as long as the
    reference grid.  It raises only on an empty batch or on a solve whose
    third component is no spline (which [runParallelFunction] never
    produces). *)
Theorem align_reference_grid (sim : Simulator) (solves : list solve) :
  match align sim solves with
  | Return (grid, aligned) =>
      exists i s,
        nth_error solves i = Some s
        /\ grid = fst (fst s)
        /\ (forall j s', nth_error solves j = Some s' ->
              List.length (fst (fst s')) <= List.length grid)
        /\ (forall j s', j < i -> nth_error solves j = Some s' ->
              List.length (fst (fst s')) < List.length grid)
        /\ List.length aligned = List.length solves
        /\ Forall (fun a => List.length a = List.length grid) aligned
  | Raise e =>
      solves = []
      \/ exists s s0, In s solves /\ In s0 solves
                      /\ call_spline sim (snd s) (fst (fst s0)) = Raise e
  end.
Proof.
  destruct solves as [|s0 rest]; [simpl; auto|].
  unfold align. set (solves := s0 :: rest).
  set (times := map (fun s : solve => fst (fst s)) solves).
  set (lengths := map (fun s : solve => List.length (fst (fst s))) solves).
  assert (Hlengths : lengths = map (@List.length Q) times).
  { unfold lengths, times. rewrite map_map. reflexivity. }
  change (match solves with [] => _ | _ :: _ => argmax lengths end) with (argmax lengths).
  change (argmax lengths)
    with (@Return nat (argmax_from (map (fun s : solve => List.length (fst (fst s))) rest)
                         1 0 (List.length (fst (fst s0))))).
  cbn [bind].
  set (r := argmax_from _ 1 0 _).
  pose proof (argmax_first_max (List.length (fst (fst s0)))
                (map (fun s : solve => List.length (fst (fst s))) rest)) as Hspec.
  cbv zeta in Hspec. destruct Hspec as (Hr & Hmax & Hfirst).
  fold r in Hr, Hmax, Hfirst.
  change (List.length (fst (fst s0)) :: map _ rest) with lengths in Hr, Hmax, Hfirst.
  assert (Hlen : List.length lengths = List.length solves) by apply length_map.
  assert (Hnth : forall j s', nth_error solves j = Some s' ->
            nth j lengths 0 = List.length (fst (fst s')) /\ j < List.length solves).
  { intros j s' Hj. split.
    - unfold lengths.
      rewrite (nth_indep _ 0 (List.length (fst (fst s')))).
      + change (List.length (fst (fst s')))
          with ((fun s : solve => List.length (fst (fst s))) s') at 1.
        rewrite map_nth. f_equal. f_equal. f_equal.
        apply nth_error_nth. exact Hj.
      + rewrite length_map. apply nth_error_Some. congruence.
    - apply nth_error_Some. congruence. }
  destruct (nth_error solves r) as [sr|] eqn:Hsr;
    [|apply nth_error_None in Hsr; lia].
  assert (Hgrid : nth r times [] = fst (fst sr)).
  { unfold times.
    change (@nil Q) with (fst (fst (@nil Q, @nil Q, PyNone))).
    change (fun s : solve => fst (fst s))
      with (fun s : ndarray * ndarray * pyobj => fst (fst s)).
    rewrite (map_nth (fun s : ndarray * ndarray * pyobj => fst (fst s))).
    f_equal. f_equal. apply nth_error_nth. exact Hsr. }
  rewrite Hgrid.
  destruct (interpolate_all sim (map (fun s : solve => snd s) solves) (fst (fst sr)))
    as [aligned|e] eqn:Hint; cbn [bind]; cbv beta iota zeta.
  - exists r, sr. apply interpolate_all_Return in Hint as [Hl Hf].
    rewrite length_map in Hl.
    destruct (Hnth _ _ Hsr) as [Hrlen _].
    repeat split; auto.
    + intros j s' Hj. destruct (Hnth _ _ Hj) as [Hjl Hjb].
      rewrite <- Hjl, <- Hrlen. apply Hmax. lia.
    + intros j s' Hji Hj. destruct (Hnth _ _ Hj) as [Hjl Hjb].
      rewrite <- Hjl, <- Hrlen. apply Hfirst. exact Hji.
  - right. apply interpolate_all_Raise in Hint as (inter & Hin & Hcall).
    apply in_map_iff in Hin as (s & <- & Hs).
    exists s, sr. repeat split; auto.
    eapply nth_error_In. exact Hsr.
Qed.

(** Two solves on grids of 50 and 80 points: the grid of 80 points is the
    reference and both aligned outputs have 80 entries. *)
Example align_50_and_80 :
  match align Examples.steady
          [(repeat 0%Q 50, repeat 1%Q 50, PySpline (repeat 0%Q 50) (repeat 1%Q 50) 3);
           (repeat 0%Q 80, repeat 2%Q 80, PySpline (repeat 0%Q 80) (repeat 2%Q 80) 3)]
  with
  | Return (grid, aligned) =>
      (List.length grid, map (@List.length Q) aligned) = (80, [80; 80])
  | Raise _ => False
  end.
Proof. vm_compute. reflexivity. Qed.

End Alignment.

(** ** The joint distribution and the order of its axes *)

Section JointDistribution.
Import parameters uncertainty.
Local Open Scope nat_scope.

Lemma collect_name (ps : list Parameter') :
  collect ps "name" = Return (map (fun p => PyStr (name p)) ps).
Proof.
  induction ps as [|p rest IH]; simpl; [reflexivity|].
  rewrite IH. reflexivity.
Qed.

Lemma collect_parameter_space (ps : list Parameter') :
  collect ps "parameter_space" = Return (map parameter_space ps).
Proof.
  induction ps as [|p rest IH]; simpl; [reflexivity|].
  rewrite IH. reflexivity.
Qed.

Lemma as_names_names (ps : list Parameter') :
  as_names (map (fun p => PyStr (name p)) ps) = map name ps.
Proof.
  induction ps as [|p rest IH]; simpl; [reflexivity|]. now rewrite IH.
Qed.

Lemma as_dists_Some (l : list pyobj) :
  Forall (fun o => is_Dist o = true) l ->
  exists ds, as_dists l = Some ds /\ map PyDist ds = l.
Proof.
  induction 1 as [|o rest Ho _ IH]; simpl.
  - exists []. auto.
  - destruct IH as (ds & -> & Hds).
    destruct o; simpl in Ho; try discriminate.
    exists (d :: ds). simpl. now rewrite Hds.
Qed.

(** Whatever happens after the joint distribution is assigned, the
    attributes [distribution] and [tmp_parameter_name] keep their value. *)
Lemma createPCExpansion_keeps_joint (Poly : Type) (cp : Chaospy Poly) (sim : Simulator)
  (parameter_name : option string) (st st1 : state Poly)
  (parameter_space : list pyobj) (joint : Dist) :
  choose_parameter_space Poly parameter_name st = (st1, Return parameter_space) ->
  cp_J parameter_space = Return joint ->
  (fun s => (distribution s, tmp_parameter_name s))
    (fst (fst (createPCExpansion Poly cp sim parameter_name st)))
  = (Some joint, tmp_parameter_name (fst st1)).
Proof.
  intros Hc HJ. unfold createPCExpansion.
  cbv [seq_m lift assign get_self ret raise evaluate_nodes].
  rewrite Hc, HJ. cbn [fst snd].
  destruct (orth_ttr cp _ _) as [basis|e]; [|reflexivity].
  destruct (sample cp _ _ _) as [nodes|e]; [|reflexivity].
  destruct (T_iter nodes) as [|n0 ns]; [reflexivity|].
  cbn [fst snd].
  destruct (run_all sim _ _ _) as [sent [solves|e]]; [|reflexivity].
  destruct (align sim solves) as [[g aligned]|e]; [|reflexivity].
  cbn [fst snd].
  destruct (fit_regression cp _ _ _ _) as [fitted|e]; reflexivity.
Qed.

(** C1, as the code has it.  For a parameter set with k uncertain
    parameters, [createPCExpansion()] builds the joint distribution from
    exactly those k marginals (so it has k axes when the marginals are
    univariate), and its axis order is the order in which
    [getUncertain("name")] lists the uncertain parameters: axis i is the
    distribution of the i-th name in [tmp_parameter_name].  That order is
    the iteration order of the parameters dict. *)
Theorem joint_axes_follow_dict_order (Poly : Type) (cp : Chaospy Poly) (sim : Simulator)
  (self : UncertaintyEstimation Poly) (log : list (dict pyobj)) :
  Forall (fun p => is_Dist (parameter_space p) = true)
         (uncertain_in_dict_order (parameters self)) ->
  exists marginals,
    distribution (fst (fst (createPCExpansion Poly cp sim None (self, log))))
    = Some (J marginals)
    /\ List.length marginals = List.length (uncertain_in_dict_order (parameters self))
    /\ tmp_parameter_name (fst (fst (createPCExpansion Poly cp sim None (self, log))))
       = map name (uncertain_in_dict_order (parameters self))
    /\ getUncertain (parameters self) "name"
       = Return (map (fun p => PyStr (name p)) (uncertain_in_dict_order (parameters self)))
    /\ map PyDist marginals
       = map parameter_space (uncertain_in_dict_order (parameters self))
    /\ (Forall (fun d => len_Dist d = 1) marginals ->
        len_Dist (J marginals) = List.length (uncertain_in_dict_order (parameters self))).
Proof.
  intros Hd.
  set (uncertain := uncertain_in_dict_order (parameters self)) in *.
  destruct (as_dists_Some (map parameter_space uncertain)) as (ds & Hds & Hmap).
  { apply Forall_map. exact Hd. }
  assert (Hlen : List.length ds = List.length uncertain).
  { rewrite <- (length_map PyDist ds), Hmap. apply length_map. }
  assert (Hc : choose_parameter_space Poly None (self, log)
               = ((set_tmp_parameter_name Poly (map name uncertain) self, log),
                  Return (map parameter_space uncertain))).
  { unfold choose_parameter_space, seq_m, get_self, lift, assign, getUncertain.
    cbn [fst snd]. fold uncertain.
    rewrite collect_parameter_space, collect_name, as_names_names. reflexivity. }
  assert (HJ : cp_J (map parameter_space uncertain) = Return (J ds)).
  { unfold cp_J. rewrite Hds. reflexivity. }
  pose proof (createPCExpansion_keeps_joint Poly cp sim None _ _ _ _ Hc HJ) as Hk.
  cbv beta in Hk. injection Hk as H1 H2.
  exists ds. repeat split; auto.
  - unfold getUncertain. apply collect_name.
  - intros Huni. simpl. rewrite <- Hlen. clear - Huni.
    induction Huni as [|d rest Hd1 _ IH]; simpl; [reflexivity|].
    rewrite Hd1, IH. reflexivity.
Qed.

Lemma joint_axes_follow_dict_order_witness :
  exists marginals,
    distribution (fst (fst (createPCExpansion _ Examples.toy_chaospy Examples.steady None
                              (Examples.estimation Examples.mismatched 1, []))))
    = Some (J marginals)
    /\ List.length marginals
       = List.length (uncertain_in_dict_order
                        (parameters (Examples.estimation Examples.mismatched 1)))
    /\ tmp_parameter_name
         (fst (fst (createPCExpansion _ Examples.toy_chaospy Examples.steady None
                      (Examples.estimation Examples.mismatched 1, []))))
       = map name (uncertain_in_dict_order
                     (parameters (Examples.estimation Examples.mismatched 1)))
    /\ getUncertain (parameters (Examples.estimation Examples.mismatched 1)) "name"
       = Return (map (fun p => PyStr (name p))
                   (uncertain_in_dict_order
                      (parameters (Examples.estimation Examples.mismatched 1))))
    /\ map PyDist marginals
       = map parameter_space
           (uncertain_in_dict_order
              (parameters (Examples.estimation Examples.mismatched 1)))
    /\ (Forall (fun d => len_Dist d = 1) marginals ->
        len_Dist (J marginals)
        = List.length (uncertain_in_dict_order
                         (parameters (Examples.estimation Examples.mismatched 1)))).
Proof.
  apply (joint_axes_follow_dict_order _ Examples.toy_chaospy Examples.steady
           (Examples.estimation Examples.mismatched 1) []).
  vm_compute. repeat constructor.
Defined.

(** C1 as stated fails.  Three uncertain parameters registered as a, b, c
    are listed by [getUncertain] as a, c, b (the slots their hashes fall
    into), and the joint distribution has its axes in that order, not in
    the order of registration. *)
Lemma registration_order_counterexample :
  exists ps,
    Parameters_init Examples.abc = Return ps
    /\ map name (registered_uncertain Examples.abc) = ["a"; "b"; "c"]%string
    /\ map parameter_space (registered_uncertain Examples.abc)
       = [PyDist (Uniform 0 1); PyDist (Uniform 0 2); PyDist (Uniform 0 3)]
    /\ getUncertain ps "name" = Return [PyStr "a"; PyStr "c"; PyStr "b"]
    /\ distribution (fst (fst (createPCExpansion _ Examples.toy_chaospy Examples.steady None
                                 (Examples.estimation ps 1, []))))
       = Some (J [Uniform 0 1; Uniform 0 3; Uniform 0 2])
    /\ J [Uniform 0 1; Uniform 0 3; Uniform 0 2] <> J [Uniform 0 1; Uniform 0 2; Uniform 0 3].
Proof.
  eexists. split; [vm_compute; reflexivity|].
  repeat split; try (vm_compute; reflexivity).
  intros H. injection H as H. discriminate.
Qed.

(** The parameter list of examples/bahl/uq_bahl.py meets the same fate:
    registered as e_pas, apical Ra, listed as apical Ra, e_pas. *)
Example bahl_order :
  bind (Parameters_init Examples.bahl) (fun ps => getUncertain ps "name")
  = Return [PyStr "apical Ra"; PyStr "e_pas"].
Proof. vm_compute. reflexivity. Qed.

End JointDistribution.

(** ** The evaluation loop and its failures *)

Section Failures.
Import uncertainty.
Local Open Scope nat_scope.

(** A loop that returns has evaluated every node, once each and in order. *)
Lemma run_all_Return (sim : Simulator) (names : list string)
  (features : list (ndarray -> ndarray)) :
  forall (all_data : list pyobj) (sent : list (dict pyobj)) (solves : list solve),
    run_all sim all_data names features = (sent, Return solves) ->
    List.length solves = List.length all_data
    /\ List.length sent = List.length all_data.
Proof.
  induction all_data as [|node rest IH]; intros sent solves H; simpl in H.
  - injection H as <- <-. auto.
  - destruct (runParallelFunction sim node names features) as [a [s|e]] eqn:Hrun;
      [|discriminate].
    destruct (run_all sim rest names features) as [sent' r] eqn:Hrest.
    destruct r as [ss|e]; simpl in H; [|discriminate].
    injection H as <- <-.
    destruct (IH _ _ eq_refl) as (H1 & H2).
    unfold runParallelFunction in Hrun.
    destruct (evaluateNodeFunction.set_parameters _ _ _ _) as [tmp|e]; [|discriminate].
    injection Hrun as <- _.
    simpl. auto.
Qed.

(** The first node whose evaluation raises ends the loop with that
    exception; the nodes after it are not handed to the simulator. *)
Lemma run_all_first_failure (sim : Simulator) (names : list string)
  (features : list (ndarray -> ndarray)) (node : pyobj) (after : list pyobj) (e : exn) :
  snd (runParallelFunction sim node names features) = Raise e ->
  forall before : list pyobj,
    Forall (fun n => is_return (snd (runParallelFunction sim n names features)) = true)
           before ->
    snd (run_all sim (before ++ node :: after) names features) = Raise e
    /\ List.length (fst (run_all sim (before ++ node :: after) names features))
       <= List.length before + 1.
Proof.
  intros Hnode. induction 1 as [|n before Hn _ IH]; simpl.
  - destruct (runParallelFunction sim node names features) as [a r].
    simpl in Hnode. subst r. simpl. split; [reflexivity|]. destruct a; simpl; lia.
  - destruct (runParallelFunction sim n names features) as [a [s|e']];
      [|discriminate].
    destruct (run_all sim (before ++ node :: after) names features) as [sent r].
    simpl in IH. destruct IH as [-> Hlen]. simpl. split; [reflexivity|].
    rewrite length_app. destruct a; simpl; lia.
Qed.

(** Lines 164-169 either raise, leaving the object as it was, or assign
    [tmp_parameter_name] and nothing else. *)
Lemma choose_parameter_space_cases (Poly : Type) (parameter_name : option string)
  (st : state Poly) :
  (exists e, choose_parameter_space Poly parameter_name st = (st, Raise e))
  \/ (exists names parameter_space,
        choose_parameter_space Poly parameter_name st
        = ((set_tmp_parameter_name Poly names (fst st), snd st), Return parameter_space)).
Proof.
  unfold choose_parameter_space. cbv [seq_m lift assign get_self ret raise].
  cbn [fst snd]. destruct st as [self sent]. cbn [fst snd].
  destruct parameter_name as [pn|].
  - destruct (parameters.get _ pn) as [[p|l]|e0]; eauto.
  - destruct (parameters.getUncertain _ "parameter_space") as [ps|e0]; eauto.
    destruct (parameters.getUncertain _ "name") as [names|e0]; eauto.
Qed.

(** What a call of [createPCExpansion] that returns has gone through. *)
Lemma createPCExpansion_Return (Poly : Type) (cp : Chaospy Poly) (sim : Simulator)
  (parameter_name : option string) (st st' : state Poly) (r : pyobj) :
  createPCExpansion Poly cp sim parameter_name st = (st', Return r) ->
  exists names parameter_space joint basis nodes sent solves grid aligned fitted,
    choose_parameter_space Poly parameter_name st
    = ((set_tmp_parameter_name Poly names (fst st), snd st), Return parameter_space)
    /\ cp_J parameter_space = Return joint
    /\ orth_ttr cp (M (fst st)) joint = Return basis
    /\ sample cp joint (2 * Poly_len cp basis) "M" = Return nodes
    /\ run_all sim (T_iter nodes) names (features (fst st)) = (sent, Return solves)
    /\ T_iter nodes <> []
    /\ align sim solves = Return (grid, aligned)
    /\ fit_regression cp basis nodes aligned "T" = Return fitted
    /\ st' = (set_U_hat Poly fitted
               (set_t Poly grid
                  (set_P Poly basis
                     (set_distribution Poly joint
                        (set_tmp_parameter_name Poly names (fst st))))),
              snd st ++ sent)
    /\ r = PyNone.
Proof.
  unfold createPCExpansion. cbv [seq_m lift assign get_self ret raise evaluate_nodes].
  destruct (choose_parameter_space_cases Poly parameter_name st)
    as [(e0 & Hc) | (names & ps & Hc)]; rewrite Hc; [discriminate|].
  cbn [fst snd].
  destruct (cp_J ps) as [joint|e0] eqn:HJ; [|discriminate].
  destruct (orth_ttr cp _ joint) as [basis|e0] eqn:Hb; [|discriminate].
  destruct (sample cp joint _ _) as [nodes|e0] eqn:Hn; [|discriminate].
  destruct (T_iter nodes) as [|n0 ns] eqn:HT; [discriminate|].
  cbn [fst snd].
  destruct (run_all sim _ _ _) as [sent [solves|e0]] eqn:Hrun; [|discriminate].
  destruct (align sim solves) as [[g aligned]|e0] eqn:Ha; [|discriminate].
  cbn [fst snd].
  destruct (fit_regression cp _ _ _ _) as [fitted|e0] eqn:Hf; [|discriminate].
  intros H. injection H as <- <-.
  exists names, ps, joint, basis, nodes, sent, solves, g, aligned, fitted.
  repeat split; auto.
  - rewrite HT. exact Hrun.
  - rewrite HT. discriminate.
Qed.

(** An exception inside [createPCExpansion] leaves every result
    attribute as it was. *)
Lemma createPCExpansion_Raise (Poly : Type) (cp : Chaospy Poly) (sim : Simulator)
  (parameter_name : option string) (st st' : state Poly) (e : exn) :
  createPCExpansion Poly cp sim parameter_name st = (st', Raise e) ->
  statistics (fst st') = statistics (fst st).
Proof.
  unfold createPCExpansion. cbv [seq_m lift assign get_self ret raise evaluate_nodes].
  destruct (choose_parameter_space_cases Poly parameter_name st)
    as [(e0 & Hc) | (names & ps & Hc)]; rewrite Hc;
    [intros H; injection H as <- _; reflexivity|].
  cbn [fst snd].
  destruct (cp_J ps) as [joint|e0]; [|intros H; injection H as <- _; reflexivity].
  destruct (orth_ttr cp _ joint) as [basis|e0];
    [|intros H; injection H as <- _; reflexivity].
  destruct (sample cp joint _ _) as [nodes|e0];
    [|intros H; injection H as <- _; reflexivity].
  destruct (T_iter nodes) as [|n0 ns]; [intros H; injection H as <- _; reflexivity|].
  cbn [fst snd].
  destruct (run_all sim _ _ _) as [sent [solves|e0]];
    [|intros H; injection H as <- _; reflexivity].
  destruct (align sim solves) as [[g aligned]|e0];
    [|intros H; injection H as <- _; reflexivity].
  cbn [fst snd].
  destruct (fit_regression cp _ _ _ _) as [fitted|e0];
    [discriminate|intros H; injection H as <- _; reflexivity].
Qed.

(** The exception of the first failing node is the exception of
    [createPCExpansion]. *)
Lemma createPCExpansion_node_failure (Poly : Type) (cp : Chaospy Poly) (sim : Simulator)
  (parameter_name : option string) (st : state Poly) (names : list string)
  (parameter_space : list pyobj) (joint : Dist) (basis : Poly) (nodes : nodes_t)
  (before : list pyobj) (node : pyobj) (after : list pyobj) (e : exn) :
  choose_parameter_space Poly parameter_name st
  = ((set_tmp_parameter_name Poly names (fst st), snd st), Return parameter_space) ->
  cp_J parameter_space = Return joint ->
  orth_ttr cp (M (fst st)) joint = Return basis ->
  sample cp joint (2 * Poly_len cp basis) "M" = Return nodes ->
  T_iter nodes = before ++ node :: after ->
  Forall (fun n => is_return (snd (runParallelFunction sim n names (features (fst st))))
                   = true) before ->
  snd (runParallelFunction sim node names (features (fst st))) = Raise e ->
  exists st',
    createPCExpansion Poly cp sim parameter_name st = (st', Raise e)
    /\ List.length (snd st') <= List.length (snd st) + List.length before + 1.
Proof.
  intros Hc HJ Hb Hn HT Hbefore Hnode.
  destruct (run_all_first_failure sim names (features (fst st)) node after e Hnode
              before Hbefore) as [Hr Hlen].
  assert (Hcons : exists n0 ns, before ++ node :: after = n0 :: ns).
  { destruct before; simpl; eauto. }
  destruct Hcons as (n0 & ns & Hcons). rewrite Hcons in HT, Hr, Hlen.
  unfold createPCExpansion. cbv [seq_m lift assign get_self ret raise evaluate_nodes].
  rewrite Hc, HJ. cbn [fst snd M set_distribution set_tmp_parameter_name].
  rewrite Hb, Hn, HT.
  cbn [fst snd features tmp_parameter_name set_P set_distribution set_tmp_parameter_name].
  destruct (run_all sim (n0 :: ns) names (features (fst st))) as [sent r].
  cbn [fst snd] in Hr, Hlen. subst r.
  eexists. split; [reflexivity|]. cbn [snd]. rewrite length_app. lia.
Qed.

(** [allParameters] and [singleParameters] call [createPCExpansion]
    outside their [try] blocks: its exception is theirs. *)
Lemma allParameters_propagates (Poly : Type) (cp : Chaospy Poly) (sim : Simulator)
  (st st' : state Poly) (e : exn) :
  1 < List.length (parameters.uncertain_parameters (parameters (fst st))) ->
  createPCExpansion Poly cp sim None st = (st', Raise e) ->
  allParameters Poly cp sim st = (st', Raise e).
Proof.
  intros Hlen H. unfold allParameters. cbv [seq_m get_self]. cbn [fst].
  destruct (Nat.leb_spec (List.length (parameters.uncertain_parameters
                                         (parameters (fst st)))) 1) as [Hle|_];
    [lia|].
  rewrite H. reflexivity.
Qed.

Lemma singleParameters_loop_propagates (Poly : Type) (cp : Chaospy Poly) (sim : Simulator)
  (uncertain_parameter : string) (rest : list string) (st st' : state Poly) (e : exn) :
  createPCExpansion Poly cp sim (Some uncertain_parameter) st = (st', Raise e) ->
  singleParameters_loop Poly cp sim (uncertain_parameter :: rest) st = (st', Raise e).
Proof.
  intros H. cbn [singleParameters_loop]. unfold seq_m at 1. rewrite H. reflexivity.
Qed.

(** C2, as the code has it.  A failing model evaluation aborts the whole
    run and no statistics are produced.  In [evaluateNodeFunction] a
    non-zero exit status of the simulator writes the simulator's output,
    the line "Error when running simulation:" and the simulator's error
    text, and exits with status 1.  In [createPCExpansion] the exception
    of the first failing node ends the loop (no later node is evaluated)
    and propagates unchanged out of [createPCExpansion], [allParameters]
    and [singleParameters], with no result attribute assigned.  Nothing
    in either report names the node. *)
Theorem model_failure_aborts_run :
  (forall (rt : evaluateNodeFunction.Runtime) (d : evaluateNodeFunction.data)
          (tmp_parameters : dict pyobj),
     evaluateNodeFunction.set_parameters (evaluateNodeFunction.tmp_parameter_names d)
       (evaluateNodeFunction.wrap_node (evaluateNodeFunction.node d)) 0 dict_empty
     = Return tmp_parameters ->
     evaluateNodeFunction.returncode
       (evaluateNodeFunction.Popen rt (evaluateNodeFunction.command rt d tmp_parameters))
     <> 0%Z ->
     evaluateNodeFunction.evaluateNodeFunction rt d
     = ((if evaluateNodeFunction.supress_model_output d then []
         else [evaluateNodeFunction.ut
                 (evaluateNodeFunction.Popen rt
                    (evaluateNodeFunction.command rt d tmp_parameters))])
        ++ [evaluateNodeFunction.ut
              (evaluateNodeFunction.Popen rt
                 (evaluateNodeFunction.command rt d tmp_parameters));
            "Error when running simulation:"%string;
            evaluateNodeFunction.err
              (evaluateNodeFunction.Popen rt
                 (evaluateNodeFunction.command rt d tmp_parameters))],
        Raise (SystemExit 1)))
  /\ (forall (Poly : Type) (cp : Chaospy Poly) (sim : Simulator)
             (parameter_name : option string) (st : state Poly) (names : list string)
             (parameter_space : list pyobj) (joint : Dist) (basis : Poly)
             (nodes : nodes_t) (before : list pyobj) (node : pyobj)
             (after : list pyobj) (e : exn),
        choose_parameter_space Poly parameter_name st
        = ((set_tmp_parameter_name Poly names (fst st), snd st), Return parameter_space) ->
        cp_J parameter_space = Return joint ->
        orth_ttr cp (M (fst st)) joint = Return basis ->
        sample cp joint (2 * Poly_len cp basis) "M" = Return nodes ->
        T_iter nodes = before ++ node :: after ->
        Forall (fun n => is_return (snd (runParallelFunction sim n names
                                           (features (fst st)))) = true) before ->
        snd (runParallelFunction sim node names (features (fst st))) = Raise e ->
        exists st',
          createPCExpansion Poly cp sim parameter_name st = (st', Raise e)
          /\ statistics (fst st') = statistics (fst st)
          /\ List.length (snd st') <= List.length (snd st) + List.length before + 1
          /\ (parameter_name = None ->
              1 < List.length (parameters.uncertain_parameters (parameters (fst st))) ->
              allParameters Poly cp sim st = (st', Raise e))
          /\ (forall uncertain_parameter rest,
                parameter_name = Some uncertain_parameter ->
                singleParameters_loop Poly cp sim (uncertain_parameter :: rest) st
                = (st', Raise e))).
Proof.
  split.
  - intros rt d tmp Htmp Hrc. unfold evaluateNodeFunction.evaluateNodeFunction.
    rewrite Htmp. apply Z.eqb_neq in Hrc. rewrite Hrc. cbn [negb].
    destruct (evaluateNodeFunction.supress_model_output d); reflexivity.
  - intros Poly cp sim pn st names ps joint basis nodes before node after e
           Hc HJ Hb Hn HT Hbefore Hnode.
    destruct (createPCExpansion_node_failure Poly cp sim pn st names ps joint basis
                nodes before node after e Hc HJ Hb Hn HT Hbefore Hnode)
      as (st' & Hrun & Hlen).
    exists st'. repeat split; auto.
    + eapply createPCExpansion_Raise. exact Hrun.
    + intros -> Hmany. apply allParameters_propagates; assumption.
    + intros up rest ->. apply singleParameters_loop_propagates. exact Hrun.
Qed.

Lemma model_failure_aborts_run_witness :
  evaluateNodeFunction.evaluateNodeFunction Examples.crashing
    (Examples.node_data (PyArray [1; 2]%Q) ["a"; "b"]%string)
  = ([""; "Error when running simulation:"; "Segmentation fault"]%string,
     Raise (SystemExit 1))
  /\ exists st',
       allParameters _ Examples.toy_chaospy (Examples.fragile 1)
         (Examples.estimation Examples.mismatched 1, [])
       = (st', Raise (External "NEURON: simulation failed"))
       /\ statistics (fst st') = statistics (Examples.estimation Examples.mismatched 1)
       /\ List.length (snd st') <= 2.
Proof.
  destruct model_failure_aborts_run as [Hnode Hrun]. split.
  - refine (Hnode Examples.crashing
              (Examples.node_data (PyArray [1; 2]%Q) ["a"; "b"]%string)
              [("a"%string, PyFloat 1); ("b"%string, PyFloat 2)] _ _).
    + vm_compute. reflexivity.
    + vm_compute. discriminate.
  - destruct (Hrun _ Examples.toy_chaospy (Examples.fragile 1) None
                (Examples.estimation Examples.mismatched 1, [])
                ["a"; "b"]%string
                [PyDist (Uniform 0 1); PyDist (Uniform 0 2)]
                (J [Uniform 0 1; Uniform 0 2])
                (PCE.mkExpansion (PCE.multi_indices 2 1) [])
                (Nodes2 [Examples.ramp 6; Examples.ramp 6])
                [PyArray [0; 0]%Q] (PyArray [1; 1]%Q)
                [PyArray [2; 2]%Q; PyArray [3; 3]%Q; PyArray [4; 4]%Q; PyArray [5; 5]%Q]
                (External "NEURON: simulation failed"))
      as (st' & Hraise & Hstat & Hlen & Hall & _).
    + vm_compute. reflexivity.
    + vm_compute. reflexivity.
    + vm_compute. reflexivity.
    + vm_compute. reflexivity.
    + vm_compute. reflexivity.
    + repeat constructor.
    + vm_compute. reflexivity.
    + exists st'. repeat split.
      * apply Hall; [reflexivity | vm_compute; lia].
      * exact Hstat.
      * exact Hlen.
Defined.

(** C2 as stated fails where it says the failure is surfaced with the
    node's index and parameter vector.  Two evaluations at different
    parameter vectors whose simulator crashes end with the same output
    and the same [SystemExit]; and a batch whose node 1 fails and a batch
    whose node 2 fails end [createPCExpansion] with the same exception,
    which is the simulator's own. *)
Lemma failure_report_counterexample :
  evaluateNodeFunction.evaluateNodeFunction Examples.crashing
    (Examples.node_data (PyArray [1; 2]%Q) ["a"; "b"]%string)
  = evaluateNodeFunction.evaluateNodeFunction Examples.crashing
      (Examples.node_data (PyArray [3; 4]%Q) ["a"; "b"]%string)
  /\ evaluateNodeFunction.evaluateNodeFunction Examples.crashing
       (Examples.node_data (PyArray [1; 2]%Q) ["a"; "b"]%string)
     = ([""; "Error when running simulation:"; "Segmentation fault"]%string,
        Raise (SystemExit 1))
  /\ PyArray [1; 2]%Q <> PyArray [3; 4]%Q
  /\ snd (createPCExpansion _ Examples.toy_chaospy (Examples.fragile 1) None
            (Examples.estimation Examples.mismatched 1, []))
     = Raise (External "NEURON: simulation failed")
  /\ snd (createPCExpansion _ Examples.toy_chaospy (Examples.fragile 2) None
            (Examples.estimation Examples.mismatched 1, []))
     = Raise (External "NEURON: simulation failed")
  /\ snd (fst (createPCExpansion _ Examples.toy_chaospy (Examples.fragile 1) None
                 (Examples.estimation Examples.mismatched 1, [])))
     = [[("a", PyFloat 0); ("b", PyFloat 0)]; [("a", PyFloat 1); ("b", PyFloat 1)]]%string
  /\ snd (fst (createPCExpansion _ Examples.toy_chaospy (Examples.fragile 2) None
                 (Examples.estimation Examples.mismatched 1, [])))
     = [[("a", PyFloat 0); ("b", PyFloat 0)]; [("a", PyFloat 1); ("b", PyFloat 1)];
        [("a", PyFloat 2); ("b", PyFloat 2)]]%string.
Proof.
  repeat split; try (vm_compute; reflexivity).
  intros H. discriminate H.
Qed.

End Failures.

(** ** The size of the regression node set *)

Section Nodes.
Import uncertainty.
Local Open Scope nat_scope.

Lemma ramp_length (n : nat) : List.length (Examples.ramp n) = n.
Proof. unfold Examples.ramp. rewrite length_map. apply length_seq. Qed.

(** The example sampler returns as many nodes as it is asked for. *)
Lemma ramp_sampler_shape (d : Dist) (n : nat) (rule : string) (nodes : nodes_t) :
  Examples.ramp_sampler d n rule = Return nodes -> List.length (T_iter nodes) = n.
Proof.
  unfold Examples.ramp_sampler.
  destruct (Nat.leb_spec (len_Dist d) 1) as [Hle|Hgt]; intros H; injection H as <-.
  - simpl. rewrite length_map. apply ramp_length.
  - simpl. rewrite length_map, length_seq. unfold ncols.
    destruct (len_Dist d) as [|k]; [lia|]. simpl. apply ramp_length.
Qed.

(** C6. Given that chaospy's [sample(size, rule)] returns [size] nodes,
    every call of [createPCExpansion] that returns has drawn exactly
    twice as many nodes as the basis [self.P] for degree [self.M] has
    polynomials, and has run the simulator once on each. *)
Theorem regression_nodes_twice_basis (Poly : Type) (cp : Chaospy Poly) (sim : Simulator)
  (parameter_name : option string) (st st' : state Poly) (r : pyobj) :
  (forall d n rule nodes,
     sample cp d n rule = Return nodes -> List.length (T_iter nodes) = n) ->
  createPCExpansion Poly cp sim parameter_name st = (st', Return r) ->
  exists basis joint nodes,
    P (fst st') = Some basis
    /\ distribution (fst st') = Some joint
    /\ orth_ttr cp (M (fst st)) joint = Return basis
    /\ sample cp joint (2 * Poly_len cp basis) "M" = Return nodes
    /\ List.length (T_iter nodes) = 2 * Poly_len cp basis
    /\ List.length (snd st') = List.length (snd st) + 2 * Poly_len cp basis.
Proof.
  intros Hshape H.
  apply createPCExpansion_Return in H
    as (names & ps & joint & basis & nodes & sent & solves & g & aligned & fitted
        & Hc & HJ & Hb & Hn & Hrun & Hne & Ha & Hf & -> & ->).
  exists basis, joint, nodes. pose proof (Hshape _ _ _ _ Hn) as Hsize.
  apply run_all_Return in Hrun as [_ Hsent].
  repeat split; auto.
  cbn [snd]. rewrite length_app, Hsent, Hsize. reflexivity.
Qed.

Lemma regression_nodes_twice_basis_witness :
  exists basis joint nodes,
    P (fst (fst (createPCExpansion _ Examples.toy_chaospy Examples.steady None
                   (Examples.estimation Examples.mismatched 3, [])))) = Some basis
    /\ distribution (fst (fst (createPCExpansion _ Examples.toy_chaospy Examples.steady None
                                 (Examples.estimation Examples.mismatched 3, []))))
       = Some joint
    /\ orth_ttr Examples.toy_chaospy
         (M (fst (Examples.estimation Examples.mismatched 3, @nil (dict pyobj)))) joint
       = Return basis
    /\ sample Examples.toy_chaospy joint (2 * Poly_len Examples.toy_chaospy basis) "M"
       = Return nodes
    /\ List.length (T_iter nodes) = 2 * Poly_len Examples.toy_chaospy basis
    /\ List.length (snd (fst (createPCExpansion _ Examples.toy_chaospy Examples.steady None
                                (Examples.estimation Examples.mismatched 3, []))))
       = List.length (snd (Examples.estimation Examples.mismatched 3, @nil (dict pyobj)))
         + 2 * Poly_len Examples.toy_chaospy basis.
Proof.
  apply (regression_nodes_twice_basis _ Examples.toy_chaospy Examples.steady None
           (Examples.estimation Examples.mismatched 3, [])
           (fst (createPCExpansion _ Examples.toy_chaospy Examples.steady None
                   (Examples.estimation Examples.mismatched 3, [])))
           PyNone).
  - intros d n rule nodes. apply ramp_sampler_shape.
  - vm_compute. reflexivity.
Defined.

(** With two uncertain parameters and degree 3 the basis has 10
    polynomials and the simulator is run on 20 nodes. *)
Example twenty_nodes_for_degree_three :
  List.length (snd (fst (createPCExpansion _ Examples.toy_chaospy Examples.steady None
                           (Examples.estimation Examples.mismatched 3, [])))) = 20.
Proof. vm_compute. reflexivity. Qed.

End Nodes.

(** ** A distribution supplied by the caller *)

Section SuppliedDistribution.
Import uncertainty.
Local Open Scope nat_scope.




End SuppliedDistribution.

(** ** Degree zero *)

Section DegreeZero.
Import uncertainty PCE.
Local Open Scope nat_scope.

Lemma compositions_zero (k : nat) : compositions k 0 = [repeat 0 k].
Proof.
  induction k as [|k IH]; simpl; [reflexivity|].
  rewrite IH. reflexivity.
Qed.

(** The basis of total degree 0 is the constant function alone. *)
Lemma multi_indices_zero (k : nat) : multi_indices k 0 = [repeat 0 k].
Proof.
  unfold multi_indices. simpl. rewrite compositions_zero. reflexivity.
Qed.

Lemma columns_length (outputs : list ndarray) (n : nat) :
  outputs <> [] ->
  Forall (fun a => List.length a = n) outputs ->
  List.length (columns outputs) = n.
Proof.
  intros Hne Hall. unfold columns. rewrite length_map, length_seq.
  destruct outputs as [|a rest]; [contradiction|].
  unfold ncols. simpl. now inversion Hall.
Qed.

(** With the constant function as the only basis function, the sum over
    the other basis functions is empty at every time step. *)
Lemma spec_Var_constant_basis (norm : Dist -> list nat -> Q) (index : list nat)
  (cs : list (list Q)) (d : Dist) :
  exists variance,
    spec_Var norm (mkExpansion [index] cs) d = Return variance
    /\ List.length variance = List.length cs
    /\ Forall (fun v => v = 0%Q) variance.
Proof.
  unfold spec_Var. cbn [basis coeffs List.length Nat.sub seq map Qsum fold_right].
  eexists. split; [reflexivity|]. split; [apply length_map|].
  apply Forall_forall. intros v Hv. apply in_map_iff in Hv as (c & <- & _).
  reflexivity.
Qed.

Lemma points_length (nodes : nodes_t) :
  List.length (points nodes) = List.length (T_iter nodes).
Proof.
  destruct nodes; simpl; now rewrite !length_map.
Qed.

(** A time column holds one observation per aligned output. *)
Lemma columns_entries (outputs : list ndarray) (column : ndarray) :
  In column (columns outputs) -> List.length column = List.length outputs.
Proof.
  unfold columns. intros H. apply in_map_iff in H as (j & <- & _).
  apply length_map.
Qed.

Section SampleMean.
Local Open Scope Q_scope.

Lemma observations_positive (ys : ndarray) :
  ys <> [] -> 0 < inject_Z (Z.of_nat (List.length ys)).
Proof.
  intros Hne. destruct ys as [|y ys]; [contradiction|].
  unfold Qlt. cbn [Qnum Qden inject_Z List.length]. lia.
Qed.

Lemma squared_deviation_expand (ys : ndarray) (c : Q) :
  squared_deviation ys c
  == Qsum (map (fun y => y * y) ys) - 2 * c * Qsum ys
     + inject_Z (Z.of_nat (List.length ys)) * (c * c).
Proof.
  induction ys as [|y ys IH].
  - unfold squared_deviation. simpl. ring.
  - change (squared_deviation (y :: ys) c)
      with ((y - c) * (y - c) + squared_deviation ys c).
    change (Qsum (map (fun y0 => y0 * y0) (y :: ys)))
      with (y * y + Qsum (map (fun y0 => y0 * y0) ys)).
    change (Qsum (y :: ys)) with (y + Qsum ys).
    rewrite IH.
    replace (Z.of_nat (List.length (y :: ys))) with (Z.of_nat (List.length ys) + 1)%Z
      by (cbn [List.length]; lia).
    rewrite inject_Z_plus. change (inject_Z 1) with 1. ring.
Qed.

(** The squared deviations from [c] are those from the sample mean plus
    [N * (c - mean)^2]. *)
Lemma squared_deviation_mean (ys : ndarray) (c : Q) :
  ys <> [] ->
  squared_deviation ys c
  == squared_deviation ys (sample_mean ys)
     + inject_Z (Z.of_nat (List.length ys))
       * ((c - sample_mean ys) * (c - sample_mean ys)).
Proof.
  intros Hne. pose proof (observations_positive ys Hne) as Hpos.
  rewrite (squared_deviation_expand ys c).
  rewrite (squared_deviation_expand ys (sample_mean ys)).
  assert (HS : Qsum ys == inject_Z (Z.of_nat (List.length ys)) * sample_mean ys).
  { unfold sample_mean. field. intros H0. rewrite H0 in Hpos.
    exact (Qlt_irrefl _ Hpos). }
  remember (sample_mean ys) as m eqn:Hm. clear Hm.
  rewrite HS. ring.
Qed.

Lemma square_is_nonnegative (q : Q) : 0 <= q * q.
Proof.
  destruct q as [n d]. unfold Qle, Qmult. simpl. nia.
Qed.

(** The sample mean is a least-squares constant. *)
Lemma sample_mean_minimises (ys : ndarray) (c : Q) :
  squared_deviation ys (sample_mean ys) <= squared_deviation ys c.
Proof.
  destruct ys as [|y ys].
  - apply Qle_refl.
  - rewrite (squared_deviation_mean (y :: ys) c) by discriminate.
    rewrite <- (Qplus_0_r (squared_deviation (y :: ys) (sample_mean (y :: ys)))) at 1.
    apply Qplus_le_r. apply Qmult_le_0_compat.
    + apply Qlt_le_weak, observations_positive. discriminate.
    + apply square_is_nonnegative.
Qed.

(** The sample mean is the only least-squares constant. *)
Lemma minimiser_is_sample_mean (ys : ndarray) (c : Q) :
  ys <> [] ->
  squared_deviation ys c <= squared_deviation ys (sample_mean ys) ->
  c == sample_mean ys.
Proof.
  intros Hne H. pose proof (observations_positive ys Hne) as Hpos.
  rewrite (squared_deviation_mean ys c Hne) in H.
  rewrite <- (Qplus_0_r (squared_deviation ys (sample_mean ys))) in H at 2.
  apply Qplus_le_r in H.
  set (d := c - sample_mean ys) in *.
  assert (Hd : d * d == 0).
  { apply Qle_antisym; [|apply square_is_nonnegative].
    destruct (Qlt_le_dec 0 (d * d)) as [Hlt|Hle]; [|exact Hle].
    exfalso. apply (Qlt_irrefl 0). eapply Qlt_le_trans; [|exact H].
    rewrite <- (Qmult_0_r (inject_Z (Z.of_nat (List.length ys)))).
    apply Qmult_lt_l; assumption. }
  assert (Hz : d == 0).
  { destruct (Qmult_integral _ _ Hd); assumption. }
  unfold d in Hz. rewrite <- (Qplus_0_l (sample_mean ys)), <- Hz. ring.
Qed.

Section WithBasis.
Variable phi : list nat -> list Q -> Q.

(** On a basis that is one constant function the surrogate is its
    coefficient and the residual is the sum of the squared deviations. *)
Lemma surrogate_constant (index : list nat) (c : Q) (xi : list Q) :
  phi index xi == 1 -> surrogate phi [index] [c] xi == c.
Proof.
  intros H. unfold surrogate. cbn [combine map Qsum fold_right fst snd].
  rewrite H. ring.
Qed.

Lemma residual_constant (index : list nat) (c : Q) :
  (forall xi, phi index xi == 1) ->
  forall (xis : list (list Q)) (ys : ndarray),
    List.length ys = List.length xis ->
    residual phi [index] xis ys [c] == squared_deviation ys c.
Proof.
  intros H1. induction xis as [|xi xis IH]; intros [|y ys] Hlen; try discriminate.
  - reflexivity.
  - change (residual phi [index] (xi :: xis) (y :: ys) [c])
      with ((y - surrogate phi [index] [c] xi) * (y - surrogate phi [index] [c] xi)
            + residual phi [index] xis ys [c]).
    change (squared_deviation (y :: ys) c)
      with ((y - c) * (y - c) + squared_deviation ys c).
    rewrite (IH ys) by (injection Hlen as Hlen; exact Hlen).
    rewrite (surrogate_constant index c xi (H1 xi)). reflexivity.
Qed.

(** A least-squares fit on the constant basis is the sample mean of the
    observations, and so is the surrogate at every point. *)
Lemma least_squares_constant (k : nat) (nodes : nodes_t) (column : ndarray)
  (cs : list Q) :
  constant_is_one phi ->
  List.length column = List.length (points nodes) ->
  column <> [] ->
  least_squares phi [repeat 0%nat k] nodes column cs ->
  nth 0 cs 0 == sample_mean column
  /\ forall xi, surrogate phi [repeat 0%nat k] cs xi == sample_mean column.
Proof.
  intros H1 Hlen Hne [Hcs Hmin].
  destruct cs as [|c0 [|c1 cs]]; try discriminate.
  specialize (Hmin [sample_mean column] eq_refl).
  rewrite !(residual_constant (repeat 0%nat k) _ (H1 k)) in Hmin by exact Hlen.
  apply (minimiser_is_sample_mean column c0 Hne) in Hmin.
  split; [exact Hmin|].
  intros xi. rewrite (surrogate_constant _ c0 xi (H1 k xi)). exact Hmin.
Qed.

Lemma least_squares_columns
  (lstsq : list (list nat) -> nodes_t -> ndarray -> list Q) (k : nat)
  (nodes : nodes_t) (cols : list ndarray) :
  constant_is_one phi ->
  least_squares_solver phi lstsq [repeat 0%nat k] ->
  (forall column, In column cols ->
                  List.length column = List.length (points nodes) /\ column <> []) ->
  Forall2 (fun c column => forall xi,
             surrogate phi [repeat 0%nat k] c xi == sample_mean column)
          (map (lstsq [repeat 0%nat k] nodes) cols) cols
  /\ Forall2 (fun m column => m == sample_mean column)
             (map (fun c => nth 0 c 0) (map (lstsq [repeat 0%nat k] nodes) cols)) cols.
Proof.
  intros H1 Hls. induction cols as [|column cols IH]; intros Hcols.
  - split; constructor.
  - destruct (Hcols column (or_introl eq_refl)) as [Hlen Hne].
    destruct (least_squares_constant k nodes column _ H1 Hlen Hne
                (Hls nodes column Hlen)) as [Hmean Hsurr].
    destruct IH as [IH1 IH2]; [intros c Hc; apply Hcols; now right|].
    split; constructor; assumption.
Qed.

End WithBasis.

End SampleMean.

Section WithSpec.
Variable phi : list nat -> list Q -> Q.
Variable lstsq : list (list nat) -> nodes_t -> ndarray -> list Q.
Variable norm : Dist -> list nat -> Q.
Variable sampler : Dist -> nat -> string -> result nodes_t.
Variable sens : expansion -> Dist -> result (list ndarray).
Variable corr : expansion -> Dist -> result (list ndarray).
Variable call : expansion -> nodes_t -> result (list ndarray).
Variable perc : list ndarray -> Z -> Z -> result ndarray.
Variable sim : Simulator.

Let cp : Chaospy expansion := spec_chaospy lstsq norm sampler sens corr call perc.

(** A fit of degree 0 that returns: the grid, the nodes and the aligned
    outputs it went through, the fitted expansion on the constant basis,
    and its variance. *)
Lemma degree_zero_fit (parameter_name : option string) (st st1 : state expansion)
  (r : pyobj) :
  M (fst st) = 0%Z ->
  createPCExpansion expansion cp sim parameter_name st = (st1, Return r) ->
  exists grid joint variance nodes sent solves aligned,
    t (fst st1) = Some grid
    /\ U_hat (fst st1)
       = Some (mkExpansion [repeat 0 (len_Dist joint)]
                 (map (lstsq [repeat 0 (len_Dist joint)] nodes) (columns aligned)))
    /\ distribution (fst st1) = Some joint
    /\ P (fst st1) = Some (mkExpansion [repeat 0 (len_Dist joint)] [])
    /\ cp_Var cp (mkExpansion [repeat 0 (len_Dist joint)]
                    (map (lstsq [repeat 0 (len_Dist joint)] nodes) (columns aligned)))
              joint
       = Return variance
    /\ List.length variance = List.length grid
    /\ Forall (fun v => v = 0%Q) variance
    /\ r = PyNone
    /\ sampler joint 2 "M" = Return nodes
    /\ run_all sim (T_iter nodes) (tmp_parameter_name (fst st1)) (features (fst st1))
       = (sent, Return solves)
    /\ align sim solves = Return (grid, aligned)
    /\ List.length (columns aligned) = List.length grid
    /\ (forall column, In column (columns aligned) ->
                       List.length column = List.length (points nodes) /\ column <> []).
Proof.
  intros HM H.
  apply createPCExpansion_Return in H
    as (names & ps & joint & basis0 & nodes & sent & solves & g & aligned & fitted
        & Hc & HJ & Hb & Hn & Hrun & Hne & Ha & Hf & -> & ->).
  cbn [cp spec_chaospy orth_ttr] in Hb. rewrite HM in Hb.
  unfold spec_orth_ttr in Hb. cbn [Z.to_nat] in Hb.
  rewrite multi_indices_zero in Hb. injection Hb as <-.
  cbn [cp spec_chaospy fit_regression] in Hf. unfold spec_fit_regression in Hf.
  cbn [basis] in Hf. injection Hf as <-.
  cbn [cp spec_chaospy sample Poly_len basis List.length Nat.mul Nat.add] in Hn.
  pose proof Hrun as Hrun'.
  apply run_all_Return in Hrun' as [Hsolves _].
  pose proof Ha as Ha'.
  apply align_lengths in Ha' as [Hlen Hall].
  assert (Hsome : aligned <> []).
  { intros ->. simpl in Hlen. rewrite Hsolves in Hlen.
    destruct (T_iter nodes); [contradiction|discriminate]. }
  assert (Hcols : List.length (columns aligned) = List.length g).
  { apply columns_length; assumption. }
  destruct (spec_Var_constant_basis norm (repeat 0 (len_Dist joint))
              (map (lstsq [repeat 0 (len_Dist joint)] nodes) (columns aligned)) joint)
    as (variance & Hvar & Hvlen & Hzero).
  exists g, joint, variance, nodes, sent, solves, aligned.
  cbn [fst].
  repeat match goal with |- _ /\ _ => split end; auto.
  - rewrite Hvlen, length_map. exact Hcols.
  - intros column Hin. apply columns_entries in Hin.
    rewrite points_length, <- Hsolves, <- Hlen. split; [exact Hin|].
    intros ->. destruct aligned; [contradiction|discriminate].
Qed.

(** C7.  With [self.M = 0] the basis is the single constant function.  A
    run of [allParameters] over several uncertain parameters that returns
    has stored a variance that is 0 at every time step of the reference
    grid [self.t]; and when the regression is the least-squares fit of
    section 4.4, with the constant function equal to 1, the fitted
    expansion is at every point, and the stored mean is at every time
    step, the sample mean over the nodes of the aligned outputs at that
    time step. *)
Theorem degree_zero_variance_vanishes (st st' : state expansion) (r : pyobj) :
  constant_is_one phi ->
  (forall k, least_squares_solver phi lstsq [repeat 0 k]) ->
  M (fst st) = 0%Z ->
  1 < List.length (parameters.uncertain_parameters (parameters (fst st))) ->
  allParameters expansion cp sim st = (st', Return r) ->
  exists grid joint variance nodes sent solves aligned fitted mean,
    t (fst st') = Some grid
    /\ distribution (fst st') = Some joint
    /\ P (fst st') = Some (mkExpansion [repeat 0 (len_Dist joint)] [])
    /\ Var (fst st') = Some variance
    /\ List.length variance = List.length grid
    /\ Forall (fun v => v = 0%Q) variance
    /\ sampler joint 2 "M" = Return nodes
    /\ run_all sim (T_iter nodes) (tmp_parameter_name (fst st')) (features (fst st'))
       = (sent, Return solves)
    /\ align sim solves = Return (grid, aligned)
    /\ U_hat (fst st') = Some fitted
    /\ basis fitted = [repeat 0 (len_Dist joint)]
    /\ Forall2 (fun c column => forall xi,
                  (surrogate phi (basis fitted) c xi == sample_mean column)%Q)
               (coeffs fitted) (columns aligned)
    /\ E (fst st') = Some mean
    /\ List.length mean = List.length grid
    /\ Forall2 (fun m column => (m == sample_mean column)%Q) mean (columns aligned).
Proof.
  intros Hone Hls HM Hmany. unfold allParameters. cbv [seq_m get_self]. cbn [fst].
  destruct (Nat.leb_spec (List.length (parameters.uncertain_parameters
                                         (parameters (fst st)))) 1) as [Hle|_];
    [lia|].
  destruct (createPCExpansion expansion cp sim None st) as [st1 [r1|e]] eqn:Hfit;
    [|discriminate].
  destruct (degree_zero_fit None st st1 r1 HM Hfit)
    as (grid & joint & variance & nodes & sent & solves & aligned
        & Ht & HU & HD & HP & HV & Hlen & Hzero & -> & Hn & Hrun & Ha & Hcols & Hcol).
  destruct (least_squares_columns phi lstsq (len_Dist joint) nodes (columns aligned)
              Hone (Hls (len_Dist joint)) Hcol) as [Hsurr Hmean].
  set (fitted := mkExpansion [repeat 0 (len_Dist joint)]
                   (map (lstsq [repeat 0 (len_Dist joint)] nodes) (columns aligned)))
    in *.
  cbn [is_minus_one].
  destruct st1 as [s1 sent1]. cbn [fst] in Ht, HU, HD, HP, Hrun.
  unfold except_MemoryError, all_statistics.
  cbv [seq_m lift assign get_self ret raise read]. cbn [fst snd].
  rewrite HU, HD, HV.
  cbn [fst snd cp spec_chaospy cp_E cp_Sens_t cp_Corr sample Poly_call percentile].
  unfold spec_E.
  assert (Hdone : forall s2 : UncertaintyEstimation expansion,
            t s2 = Some grid -> distribution s2 = Some joint ->
            P s2 = Some (mkExpansion [repeat 0 (len_Dist joint)] []) ->
            Var s2 = Some variance ->
            run_all sim (T_iter nodes) (tmp_parameter_name s2) (features s2)
            = (sent, Return solves) ->
            U_hat s2 = Some fitted ->
            E s2 = Some (map (fun c => nth 0 c 0%Q) (coeffs fitted)) ->
            forall sent2, (s2, sent2) = st' ->
            exists grid joint variance nodes sent solves aligned fitted mean,
              t (fst st') = Some grid
              /\ distribution (fst st') = Some joint
              /\ P (fst st') = Some (mkExpansion [repeat 0 (len_Dist joint)] [])
              /\ Var (fst st') = Some variance
              /\ List.length variance = List.length grid
              /\ Forall (fun v => v = 0%Q) variance
              /\ sampler joint 2 "M" = Return nodes
              /\ run_all sim (T_iter nodes) (tmp_parameter_name (fst st'))
                         (features (fst st'))
                 = (sent, Return solves)
              /\ align sim solves = Return (grid, aligned)
              /\ U_hat (fst st') = Some fitted
              /\ basis fitted = [repeat 0 (len_Dist joint)]
              /\ Forall2 (fun c column => forall xi,
                            (surrogate phi (basis fitted) c xi == sample_mean column)%Q)
                         (coeffs fitted) (columns aligned)
              /\ E (fst st') = Some mean
              /\ List.length mean = List.length grid
              /\ Forall2 (fun m column => (m == sample_mean column)%Q) mean
                         (columns aligned)).
  { intros s2 H1 H2 H3 H4 H5 H6 H7 sent2 <-.
    exists grid, joint, variance, nodes, sent, solves, aligned, fitted,
           (map (fun c => nth 0 c 0%Q) (coeffs fitted)).
    cbn [fst].
    repeat match goal with |- _ /\ _ => split end; auto.
    unfold fitted. cbn [coeffs]. rewrite !length_map. exact Hcols. }
  destruct (sens fitted joint) as [rows|e].
  2:{ destruct e; cbv beta iota; intros H; try discriminate. injection H as H _.
      eapply Hdone; [| | | | | | |exact H]; first [assumption | reflexivity]. }
  cbn [fst snd mc_samples set_sensitivity set_Var set_E sample].
  destruct (sampler joint (mc_samples s1) "M") as [samples|e].
  2:{ destruct e; cbv beta iota; intros H; try discriminate. injection H as H _.
      eapply Hdone; [| | | | | | |exact H]; first [assumption | reflexivity]. }
  cbn [Poly_call].
  destruct (call fitted samples) as [mc|e].
  2:{ destruct e; cbv beta iota; intros H; try discriminate. injection H as H _.
      eapply Hdone; [| | | | | | |exact H]; first [assumption | reflexivity]. }
  cbn [fst snd percentile].
  destruct (perc mc 5%Z 1%Z) as [lo|e].
  2:{ destruct e; cbv beta iota; intros H; try discriminate. injection H as H _.
      eapply Hdone; [| | | | | | |exact H]; first [assumption | reflexivity]. }
  cbn [fst snd].
  destruct (perc mc 95%Z 1%Z) as [hi|e].
  2:{ destruct e; cbv beta iota; intros H; try discriminate. injection H as H _.
      eapply Hdone; [| | | | | | |exact H]; first [assumption | reflexivity]. }
  cbn [fst snd P set_p_95 set_p_05 set_U_mc set_sensitivity set_Var set_E].
  rewrite HP. cbn [cp_Corr].
  destruct (corr _ joint) as [c|e].
  2:{ destruct e; cbv beta iota; intros H; try discriminate. injection H as H _.
      eapply Hdone; [| | | | | | |exact H]; first [assumption | reflexivity]. }
  intros H. injection H as H _.
  eapply Hdone; [| | | | | | |exact H]; first [assumption | reflexivity].
Qed.

End WithSpec.

(** The degree-0 monomial is the constant 1, and the closed-form solver
    of the examples is a least-squares solver on the constant basis. *)
Lemma monomial_constant : constant_is_one Examples.monomial.
Proof.
  intros k. induction k as [|k IH]; intros [|x xi]; try reflexivity.
  unfold Examples.monomial in *.
  cbn [repeat combine map fold_right fst snd Z.of_nat Qpower].
  rewrite (IH xi). reflexivity.
Qed.

Lemma mean_lstsq_least_squares (k : nat) :
  least_squares_solver Examples.monomial Examples.mean_lstsq [repeat 0 k].
Proof.
  intros nodes column Hlen. split; [reflexivity|].
  intros [|c [|c1 cs]] Hc; try discriminate.
  cbn [Examples.mean_lstsq map].
  rewrite !(residual_constant Examples.monomial (repeat 0 k) _ (monomial_constant k))
    by exact Hlen.
  apply sample_mean_minimises.
Qed.

Lemma degree_zero_variance_vanishes_witness :
  exists grid joint variance nodes sent solves aligned fitted mean,
    t (fst (fst (allParameters expansion Examples.mean_chaospy Examples.rising
                   (Examples.estimation Examples.mismatched 0, [])))) = Some grid
    /\ distribution (fst (fst (allParameters expansion Examples.mean_chaospy
                                 Examples.rising
                                 (Examples.estimation Examples.mismatched 0, []))))
       = Some joint
    /\ P (fst (fst (allParameters expansion Examples.mean_chaospy Examples.rising
                      (Examples.estimation Examples.mismatched 0, []))))
       = Some (mkExpansion [repeat 0 (len_Dist joint)] [])
    /\ Var (fst (fst (allParameters expansion Examples.mean_chaospy Examples.rising
                        (Examples.estimation Examples.mismatched 0, []))))
       = Some variance
    /\ List.length variance = List.length grid
    /\ Forall (fun v => v = 0%Q) variance
    /\ Examples.ramp_sampler joint 2 "M" = Return nodes
    /\ run_all Examples.rising (T_iter nodes)
         (tmp_parameter_name
            (fst (fst (allParameters expansion Examples.mean_chaospy Examples.rising
                         (Examples.estimation Examples.mismatched 0, [])))))
         (features
            (fst (fst (allParameters expansion Examples.mean_chaospy Examples.rising
                         (Examples.estimation Examples.mismatched 0, [])))))
       = (sent, Return solves)
    /\ align Examples.rising solves = Return (grid, aligned)
    /\ U_hat (fst (fst (allParameters expansion Examples.mean_chaospy Examples.rising
                          (Examples.estimation Examples.mismatched 0, []))))
       = Some fitted
    /\ basis fitted = [repeat 0 (len_Dist joint)]
    /\ Forall2 (fun c column => forall xi,
                  (surrogate Examples.monomial (basis fitted) c xi
                   == sample_mean column)%Q)
               (coeffs fitted) (columns aligned)
    /\ E (fst (fst (allParameters expansion Examples.mean_chaospy Examples.rising
                      (Examples.estimation Examples.mismatched 0, []))))
       = Some mean
    /\ List.length mean = List.length grid
    /\ Forall2 (fun m column => (m == sample_mean column)%Q) mean (columns aligned)
    /\ columns aligned = [[0; 1]; [0; 1]; [0; 1]; [0; 1]; [0; 1]]%Q
    /\ mean = [1 # 2; 1 # 2; 1 # 2; 1 # 2; 1 # 2]%Q.
Proof.
  pose proof (degree_zero_variance_vanishes Examples.monomial Examples.mean_lstsq
           Examples.unit_norm Examples.ramp_sampler Examples.no_rows Examples.no_rows
           Examples.no_values Examples.no_percentile Examples.rising
           (Examples.estimation Examples.mismatched 0, [])
           (fst (allParameters expansion Examples.mean_chaospy Examples.rising
                   (Examples.estimation Examples.mismatched 0, [])))
           PyNone) as run.
  destruct run
    as (grid & joint & variance & nodes & sent & solves & aligned & fitted & mean
        & Ht & HD & HP & HV & Hlen & Hzero & Hn & Hrun & Ha & HU & Hb & Hsurr
        & HE & Hmlen & Hmean).
  6:{ exists grid, joint, variance, nodes, sent, solves, aligned, fitted, mean.
      repeat match goal with |- _ /\ _ => split end; try assumption.
      - vm_compute in HD. injection HD as <-.
        vm_compute in Hn. injection Hn as <-.
        vm_compute in Hrun. injection Hrun as _ <-.
        vm_compute in Ha. injection Ha as _ <-.
        reflexivity.
      - vm_compute in HE. injection HE as <-. reflexivity. }
  - exact monomial_constant.
  - exact mean_lstsq_least_squares.
  - reflexivity.
  - vm_compute. lia.
  - vm_compute. reflexivity.
Defined.

(** On the example run the two nodes give the traces 0 and 1: the mean
    is 1/2 and the variance is 0 on the five points of the grid. *)
Example degree_zero_run :
  (fun s => (uncertainty.t s, E s, Var s))
    (fst (fst (allParameters expansion Examples.mean_chaospy Examples.rising
                 (Examples.estimation Examples.mismatched 0, []))))
  = (Some Examples.grid5,
     Some [1 # 2; 1 # 2; 1 # 2; 1 # 2; 1 # 2]%Q,
     Some [0; 0; 0; 0; 0]%Q).
Proof. vm_compute. reflexivity. Qed.

End DegreeZero.

(* ===================================================================== *)
(** * Further properties of the code                                     *)
(* ===================================================================== *)

(** ** Registration, lookup and the setters of parameters.py *)

Section Registration.
Import parameters.
Local Open Scope nat_scope.

Lemma Parameter_init_fields (n : string) (v : pyobj) (d : distribution_arg)
  (p : Parameter') :
  Parameter_init n v d = Return p -> name p = n /\ value p = v.
Proof.
  unfold Parameter_init, setDistribution. destruct d as [|d0|f|o]; simpl.
  - intros H. injection H as <-. auto.
  - intros H. injection H as <-. auto.
  - destruct (f v) as [o|e]; simpl; [|discriminate].
    destruct (is_Dist o); simpl; [|discriminate].
    intros H. injection H as <-. auto.
  - discriminate.
Qed.

Lemma find_last (A : Type) (f : A -> bool) (l : list A) (x : A) :
  find f (l ++ [x])
  = match find f l with
    | Some y => Some y
    | None => if f x then Some x else None
    end.
Proof.
  induction l as [|a l IH]; simpl; [reflexivity|].
  destruct (f a); [reflexivity | exact IH].
Qed.

Lemma dict_getitem_setitem (V : Type) (d : dict V) (key key' : string) (v : V) :
  dict_getitem (dict_setitem d key v) key'
  = if String.eqb key key' then Some v else dict_getitem d key'.
Proof.
  destruct (String.eqb key key') eqn:Hk.
  - apply String.eqb_eq in Hk. subst key'. apply dict_getitem_setitem_same.
  - apply String.eqb_neq in Hk. apply dict_getitem_setitem_other. exact Hk.
Qed.

Lemma init_loop_lookup (n : string) :
  forall (l : list parameterlist_item) (d d' : dict Parameter'),
    init_loop d l = Return d' ->
    dict_getitem d' n
    = match find (fun p => String.eqb (name p) n) (rev (registered l)) with
      | Some p => Some p
      | None => dict_getitem d n
      end.
Proof.
  induction l as [|[p|i0 i1 i2] rest IH]; intros d d' H; simpl in H.
  - injection H as <-. reflexivity.
  - rewrite (IH _ _ H). simpl. rewrite find_last.
    destruct (find _ (rev (registered rest))); [reflexivity|].
    rewrite dict_getitem_setitem. destruct (String.eqb (name p) n); reflexivity.
  - destruct (Parameter_init i0 i1 i2) as [p|e] eqn:Hp; simpl in H; [|discriminate].
    rewrite (IH _ _ H). simpl. rewrite Hp. simpl. rewrite find_last.
    destruct (find _ (rev (registered rest))); [reflexivity|].
    destruct (Parameter_init_fields _ _ _ _ Hp) as [Hn _].
    rewrite dict_getitem_setitem, Hn. destruct (String.eqb i0 n); reflexivity.
Qed.

(** X1. After [Parameters(parameterlist)], looking a name up gives the
    parameter registered last under that name (a later row replaces an
    earlier one of the same name), and raises KeyError when no row has
    that name. *)
Theorem lookup_gives_last_registered (parameterlist : list parameterlist_item)
  (ps : Parameters') (n : string) :
  Parameters_init parameterlist = Return ps ->
  Parameters_getitem ps n
  = match find (fun p => String.eqb (name p) n) (rev (registered parameterlist)) with
    | Some p => Return p
    | None => Raise (KeyError n)
    end.
Proof.
  unfold Parameters_init. intros H.
  apply bind_Return_inv in H as (d & Hd & H). injection H as <-.
  unfold Parameters_getitem. cbn [parameters].
  rewrite (init_loop_lookup n _ _ _ Hd).
  destruct (find _ _); reflexivity.
Qed.

Lemma lookup_gives_last_registered_witness :
  Parameters_getitem
    (mkParameters [("Rm", mkParameter "Rm" (PyInt 2) (PyDist (Uniform 0 2)));
                   ("cap", mkParameter "cap" (PyInt 5) PyNone)] [] PyNone) "Rm"
  = match find (fun p => String.eqb (name p) "Rm")
            (rev (registered
                    [ParameterRow "Rm" (PyInt 1) ArgNone;
                     ParameterRow "cap" (PyInt 5) ArgNone;
                     ParameterRow "Rm" (PyInt 2) (ArgDist (Uniform 0 2))])) with
    | Some p => Return p
    | None => Raise (KeyError "Rm")
    end.
Proof.
  exact (lookup_gives_last_registered
           [ParameterRow "Rm" (PyInt 1) ArgNone;
            ParameterRow "cap" (PyInt 5) ArgNone;
            ParameterRow "Rm" (PyInt 2) (ArgDist (Uniform 0 2))]
           (mkParameters [("Rm", mkParameter "Rm" (PyInt 2) (PyDist (Uniform 0 2)));
                          ("cap", mkParameter "cap" (PyInt 5) PyNone)] [] PyNone)
           "Rm" eq_refl).
Defined.

Lemma init_loop_outcome :
  forall (l : list parameterlist_item) (d : dict Parameter'),
    match init_loop d l with
    | Return _ => Forall (fun item => item_ok item = true) l
    | Raise e =>
        exists before i0 i1 i2 after,
          l = before ++ ParameterRow i0 i1 i2 :: after
          /\ Forall (fun item => item_ok item = true) before
          /\ Parameter_init i0 i1 i2 = Raise e
    end.
Proof.
  induction l as [|[p|i0 i1 i2] rest IH]; intros d; simpl.
  - constructor.
  - specialize (IH (dict_setitem d (name p) p)).
    destruct (init_loop _ rest) as [d'|e].
    + constructor; [reflexivity | exact IH].
    + destruct IH as (before & j0 & j1 & j2 & after & -> & Hb & He).
      exists (ParameterObject p :: before), j0, j1, j2, after.
      repeat split; auto.
  - destruct (Parameter_init i0 i1 i2) as [p|e] eqn:Hp; simpl.
    + specialize (IH (dict_setitem d i0 p)).
      destruct (init_loop _ rest) as [d'|e].
      * constructor; [simpl; rewrite Hp; reflexivity | exact IH].
      * destruct IH as (before & j0 & j1 & j2 & after & -> & Hb & He).
        exists (ParameterRow i0 i1 i2 :: before), j0, j1, j2, after.
        repeat split; auto. constructor; [simpl; rewrite Hp; reflexivity | exact Hb].
    + exists [], i0, i1, i2, rest. repeat split; auto.
Qed.

(** X2. [Parameters(parameterlist)] returns exactly when every row gives
    a Parameter; otherwise it raises the exception of the first row that
    does not, whatever follows that row. *)
Theorem registration_fails_at_first_bad_row (parameterlist : list parameterlist_item) :
  match Parameters_init parameterlist with
  | Return _ => Forall (fun item => item_ok item = true) parameterlist
  | Raise e =>
      exists before i0 i1 i2 after,
        parameterlist = before ++ ParameterRow i0 i1 i2 :: after
        /\ Forall (fun item => item_ok item = true) before
        /\ Parameter_init i0 i1 i2 = Raise e
  end.
Proof.
  unfold Parameters_init.
  pose proof (init_loop_outcome parameterlist dict_empty) as H.
  destruct (init_loop dict_empty parameterlist) as [d|e]; simpl; exact H.
Qed.

(** X3. [Parameters.setDistribution(parameter, distribution)] raises
    KeyError for a name that was never registered and changes nothing;
    for a registered name it stores what [Parameter.setDistribution]
    leaves in the object and ends as that call ends, and every other
    name still looks up as before. *)
Theorem setDistribution_updates_one_name (self : Parameters') (parameter : string)
  (distribution : distribution_arg) :
  match dict_getitem (parameters self) parameter with
  | None =>
      Parameters_setDistribution self parameter distribution
      = (self, Raise (KeyError parameter))
  | Some p =>
      Parameters_getitem (fst (Parameters_setDistribution self parameter distribution))
        parameter
      = Return (fst (setDistribution p distribution))
      /\ snd (Parameters_setDistribution self parameter distribution)
         = snd (setDistribution p distribution)
      /\ forall other,
           other <> parameter ->
           Parameters_getitem
             (fst (Parameters_setDistribution self parameter distribution)) other
           = Parameters_getitem self other
  end.
Proof.
  unfold Parameters_setDistribution.
  destruct (dict_getitem (parameters self) parameter) as [p|] eqn:Hp; [|reflexivity].
  destruct (setDistribution p distribution) as [p' r] eqn:Hs. cbn [fst snd].
  unfold Parameters_getitem. cbn [parameters]. repeat split.
  - rewrite dict_getitem_setitem_same. reflexivity.
  - intros other Hne. rewrite dict_getitem_setitem_other; auto.
Qed.

(** X4. A generator function that returns something other than a
    distribution makes [Parameters.setDistribution] raise TypeError, but
    the returned object has already replaced the parameter's
    distribution: the call is not undone by the error. *)
Theorem failed_generator_still_overwrites (self : Parameters') (parameter : string)
  (p : Parameter') (f : pyobj -> result pyobj) (returned : pyobj) :
  dict_getitem (parameters self) parameter = Some p ->
  f (value p) = Return returned ->
  is_Dist returned = false ->
  snd (Parameters_setDistribution self parameter (ArgCallable f))
  = Raise (TypeError "Function does not return a Chaospy distribution")
  /\ Parameters_getitem (fst (Parameters_setDistribution self parameter (ArgCallable f)))
       parameter
     = Return (mkParameter (name p) (value p) returned).
Proof.
  intros Hp Hf Hd. unfold Parameters_setDistribution. rewrite Hp.
  unfold setDistribution. rewrite Hf, Hd. cbn [negb fst snd].
  split; [reflexivity|]. unfold Parameters_getitem. cbn [parameters].
  rewrite dict_getitem_setitem_same. reflexivity.
Qed.

Lemma failed_generator_still_overwrites_witness :
  snd (Parameters_setDistribution
         (mkParameters Examples.two_uncertain [] PyNone) "a"
         (ArgCallable (fun nominal => Return nominal)))
  = Raise (TypeError "Function does not return a Chaospy distribution")
  /\ Parameters_getitem
       (fst (Parameters_setDistribution
               (mkParameters Examples.two_uncertain [] PyNone) "a"
               (ArgCallable (fun nominal => Return nominal)))) "a"
     = Return (mkParameter "a" (PyInt 1) (PyInt 1)).
Proof.
  exact (failed_generator_still_overwrites
           (mkParameters Examples.two_uncertain [] PyNone) "a"
           (mkParameter "a" (PyInt 1) (PyDist (Uniform 0 1)))
           (fun nominal => Return nominal) (PyInt 1) eq_refl eq_refl eq_refl).
Defined.

End Registration.

(** ** Setting every distribution at once *)

Section AllDistributions.
Import parameters.
Local Open Scope nat_scope.

(** Iteration over a dict only meets keys that were inserted. *)
Lemma active_set_slot (e e' : Z * string) :
  forall (tbl : list slot) (i : nat),
    In e' (active (set_slot tbl i e)) -> e' = e \/ In e' (active tbl).
Proof.
  induction tbl as [|s tl IH]; intros i H; simpl in H.
  - contradiction.
  - destruct i as [|i].
    + simpl in H. destruct H as [<-|H]; [now left|]. right.
      destruct s; simpl; auto.
    + destruct s as [e0|]; simpl in H.
      * destruct H as [<-|H]; [right; now left|].
        destruct (IH _ H); [now left | right; now right].
      * destruct (IH _ H); [now left | now right].
Qed.

Lemma active_insertdict (clean : bool) (mp : PyDictObject) (key : string) (hash : Z)
  (e : Z * string) :
  In e (active (ma_table (insertdict clean mp key hash))) ->
  e = (hash, key) \/ In e (active (ma_table mp)).
Proof.
  unfold insertdict. destruct (lookdict clean mp key hash) as [i|]; [|now right].
  destruct (get_slot (ma_table mp) i); [now right|].
  cbn [ma_table]. apply active_set_slot.
Qed.

Lemma active_repeat_None (n : nat) : active (repeat None n) = [].
Proof. induction n; simpl; auto. Qed.

Lemma fold_insertdict_incl (S : list (Z * string)) :
  forall (l : list (Z * string)) (m : PyDictObject),
    (forall x, In x (active (ma_table m)) -> In x S) ->
    (forall x, In x l -> In x S) ->
    forall e,
      In e (active (ma_table
                      (fold_left (fun m e => insertdict true m (snd e) (fst e)) l m))) ->
      In e S.
Proof.
  induction l as [|x l IH]; intros m Hm Hl e He; simpl in He.
  - apply Hm. exact He.
  - eapply IH; [| |exact He].
    + intros y Hy. apply active_insertdict in Hy as [->|Hy].
      * destruct x. apply Hl. now left.
      * apply Hm. exact Hy.
    + intros y Hy. apply Hl. now right.
Qed.

Lemma active_dictresize (mp : PyDictObject) (minused : Z) (e : Z * string) :
  In e (active (ma_table (dictresize mp minused))) -> In e (active (ma_table mp)).
Proof.
  unfold dictresize. apply fold_insertdict_incl; [|auto].
  intros x Hx. cbn [ma_table] in Hx. rewrite active_repeat_None in Hx. contradiction.
Qed.

Lemma active_table_setitem (mp : PyDictObject) (key : string) (e : Z * string) :
  In e (active (ma_table (table_setitem mp key))) ->
  snd e = key \/ In e (active (ma_table mp)).
Proof.
  unfold table_setitem.
  destruct (_ && _); intros H.
  - apply active_dictresize in H. apply active_insertdict in H as [->|H]; auto.
  - apply active_insertdict in H as [->|H]; auto.
Qed.

Lemma fold_table_setitem_incl (K : list string) :
  forall (l : list string) (m : PyDictObject),
    (forall x, In x (active (ma_table m)) -> In (snd x) K) ->
    (forall k, In k l -> In k K) ->
    forall e,
      In e (active (ma_table (fold_left table_setitem l m))) -> In (snd e) K.
Proof.
  induction l as [|x l IH]; intros m Hm Hl e He; simpl in He.
  - apply Hm. exact He.
  - eapply IH; [| |exact He].
    + intros y Hy. apply active_table_setitem in Hy as [->|Hy].
      * apply Hl. now left.
      * apply Hm. exact Hy.
    + intros y Hy. apply Hl. now right.
Qed.

Lemma slot_order_incl (keys : list string) (k : string) :
  In k (slot_order keys) -> In k keys.
Proof.
  unfold slot_order. intros H. apply in_map_iff in H as (e & <- & He).
  eapply fold_table_setitem_incl; [| |exact He]; [|auto].
  intros x Hx. vm_compute in Hx. contradiction.
Qed.

Lemma dict_getitem_In (V : Type) (d : dict V) (k : string) :
  In k (map fst d) -> exists v, dict_getitem d k = Some v.
Proof.
  induction d as [|[k0 v0] tl IH]; simpl; [contradiction|].
  intros [->|H].
  - rewrite String.eqb_refl. eauto.
  - destruct (String.eqb k0 k); eauto.
Qed.

Lemma dict_setitem_keys (V : Type) (d : dict V) (k : string) (v v0 : V) :
  dict_getitem d k = Some v0 -> map fst (dict_setitem d k v) = map fst d.
Proof.
  induction d as [|[k0 w] tl IH]; simpl; [discriminate|].
  destruct (String.eqb k0 k) eqn:Hk; simpl; [reflexivity|].
  intros H. now rewrite IH.
Qed.

(** What the loop does when [Parameter.setDistribution] cannot fail on
    the argument given and a second call changes nothing more. *)
Lemma setAllDistributions_loop_spec (distribution : distribution_arg) :
  (forall p, snd (setDistribution p distribution) = Return tt) ->
  (forall p, fst (setDistribution (fst (setDistribution p distribution)) distribution)
             = fst (setDistribution p distribution)) ->
  forall (keys : list string) (self : Parameters'),
    (forall k, In k keys -> In k (map fst (parameters self))) ->
    exists d',
      setAllDistributions_loop keys self distribution
      = (mkParameters d' (uncertain_parameters self) (parameters.distribution self),
         Return tt)
      /\ map fst d' = map fst (parameters self)
      /\ forall k,
           dict_getitem d' k
           = match dict_getitem (parameters self) k with
             | Some p =>
                 Some (if existsb (String.eqb k) keys
                       then fst (setDistribution p distribution) else p)
             | None => None
             end.
Proof.
  intros Hok Hidem. induction keys as [|key rest IH]; intros self Hin.
  - exists (parameters self). destruct self. simpl. repeat split; auto.
    intros k. destruct (dict_getitem _ k); reflexivity.
  - simpl. unfold Parameters_setDistribution.
    destruct (dict_getitem_In _ (parameters self) key (Hin key (or_introl eq_refl)))
      as (p & Hp).
    rewrite Hp. specialize (Hok p).
    destruct (setDistribution p distribution) as [p' r] eqn:Hs. cbn [snd] in Hok.
    subst r.
    set (self1 := mkParameters (dict_setitem (parameters self) key p')
                    (uncertain_parameters self) (parameters.distribution self)).
    assert (Hkeys1 : map fst (parameters self1) = map fst (parameters self)).
    { unfold self1. cbn [parameters]. eapply dict_setitem_keys. exact Hp. }
    destruct (IH self1) as (d' & Hrun & Hkeys & Hget).
    { intros k Hk. rewrite Hkeys1. apply Hin. now right. }
    exists d'. split; [exact Hrun|]. split; [congruence|].
    intros k. rewrite Hget. unfold self1. cbn [parameters].
    rewrite dict_getitem_setitem.
    destruct (String.eqb key k) eqn:Hkk.
    + apply String.eqb_eq in Hkk. subst k. rewrite Hp, String.eqb_refl. cbn [orb].
      assert (Hp' : p' = fst (setDistribution p distribution)) by now rewrite Hs.
      destruct (existsb (String.eqb key) rest); [|now rewrite Hp'].
      rewrite Hp'. f_equal. apply Hidem.
    + rewrite String.eqb_sym, Hkk. cbn [orb]. reflexivity.
Qed.

Lemma setAllDistributions_values (distribution : distribution_arg) (self : Parameters') :
  (forall p, snd (setDistribution p distribution) = Return tt) ->
  (forall p, fst (setDistribution (fst (setDistribution p distribution)) distribution)
             = fst (setDistribution p distribution)) ->
  exists self',
    setAllDistributions self distribution = (self', Return tt)
    /\ dict_values (parameters self')
       = map (fun p => fst (setDistribution p distribution))
             (dict_values (parameters self)).
Proof.
  intros Hok Hidem. unfold setAllDistributions.
  destruct (setAllDistributions_loop_spec distribution Hok Hidem
              (dict_keys (parameters self)) self) as (d' & Hrun & Hkeys & Hget).
  { intros k. apply slot_order_incl. }
  eexists. split; [exact Hrun|]. cbn [parameters].
  unfold dict_values, dict_iteritems, dict_keys. rewrite Hkeys.
  fold (dict_keys (parameters self)).
  assert (Hmem : forall k, In k (dict_keys (parameters self)) ->
                           existsb (String.eqb k) (dict_keys (parameters self)) = true).
  { intros k Hk. apply existsb_exists. exists k. split; [exact Hk|].
    apply String.eqb_refl. }
  revert Hmem. generalize (dict_keys (parameters self)) at 1 3 4.
  induction l as [|k ks IH]; intros Hmem; simpl; [reflexivity|].
  rewrite !map_app, IH by (intros k' Hk'; apply Hmem; now right).
  f_equal. rewrite Hget, (Hmem k (or_introl eq_refl)).
  destruct (dict_getitem (parameters self) k); reflexivity.
Qed.

(** X5. [setAllDistributions(d)] with a chaospy distribution [d] never
    fails and makes every parameter uncertain with that distribution:
    afterwards [getUncertain] lists every parameter of the set, each
    with [d] as its distribution, and names and values are unchanged. *)
Theorem setAllDistributions_makes_all_uncertain (self : Parameters') (d : Dist) :
  exists self',
    setAllDistributions self (ArgDist d) = (self', Return tt)
    /\ dict_values (parameters self')
       = map (fun p => mkParameter (name p) (value p) (PyDist d))
             (dict_values (parameters self))
    /\ getUncertain self' "parameter_space"
       = Return (map (fun _ => PyDist d) (dict_values (parameters self)))
    /\ getUncertain self' "name"
       = Return (map (fun p => PyStr (name p)) (dict_values (parameters self))).
Proof.
  destruct (setAllDistributions_values (ArgDist d) self) as (self' & Hrun & Hvals);
    try reflexivity.
  exists self'. split; [exact Hrun|]. split; [exact Hvals|].
  unfold getUncertain, uncertain_in_dict_order. rewrite Hvals.
  cbn [setDistribution fst].
  assert (Hfilter : forall l : list Parameter',
            filter (fun parameter => negb (is_None (parameter_space parameter)))
                   (map (fun p => mkParameter (name p) (value p) (PyDist d)) l)
            = map (fun p => mkParameter (name p) (value p) (PyDist d)) l).
  { induction l as [|p l IH]; simpl; [reflexivity|]. now rewrite IH. }
  rewrite Hfilter. split.
  - generalize (dict_values (parameters self)).
    induction l as [|p l IH]; simpl; [reflexivity|]. now rewrite IH.
  - generalize (dict_values (parameters self)).
    induction l as [|p l IH]; simpl; [reflexivity|]. now rewrite IH.
Qed.

(** X6. [setAllDistributions(None)] never fails and leaves no uncertain
    parameter: afterwards [getUncertain] returns the empty list, for any
    attribute name at all, while names and values are unchanged. *)
Theorem setAllDistributions_None_clears (self : Parameters') (item : string) :
  exists self',
    setAllDistributions self ArgNone = (self', Return tt)
    /\ dict_values (parameters self')
       = map (fun p => mkParameter (name p) (value p) PyNone)
             (dict_values (parameters self))
    /\ getUncertain self' item = Return [].
Proof.
  destruct (setAllDistributions_values ArgNone self) as (self' & Hrun & Hvals);
    try reflexivity.
  exists self'. split; [exact Hrun|]. split; [exact Hvals|].
  unfold getUncertain, uncertain_in_dict_order. rewrite Hvals.
  cbn [setDistribution fst].
  generalize (dict_values (parameters self)).
  induction l as [|p l IH]; simpl; [reflexivity | exact IH].
Qed.

End AllDistributions.

(** ** Unpacking a node and naming the worker in evaluateNodeFunction.py *)

Section NodeUnpacking.
Import evaluateNodeFunction.
Local Open Scope nat_scope.

Lemma dict_setitem_new_key (V : Type) (d : dict V) (k : string) (v : V) :
  dict_getitem d k = None -> map fst (dict_setitem d k v) = map fst d ++ [k].
Proof.
  induction d as [|[k0 w] tl IH]; simpl; [reflexivity|].
  destruct (String.eqb k0 k) eqn:Hk; [discriminate|].
  intros H. simpl. now rewrite IH.
Qed.

Lemma set_parameters_array (a : ndarray) :
  forall (names : list string) (j : nat) (d : dict pyobj),
    j + List.length names <= List.length a ->
    exists d',
      set_parameters names (PyArray a) j d = Return d'
      /\ (forall n, ~ In n names -> dict_getitem d' n = dict_getitem d n)
      /\ (NoDup names ->
          forall i n, nth_error names i = Some n ->
                      exists x, nth_error a (j + i) = Some x
                                /\ dict_getitem d' n = Some (PyFloat x))
      /\ (NoDup names ->
          (forall n, In n names -> dict_getitem d n = None) ->
          map fst d' = map fst d ++ names).
Proof.
  induction names as [|n0 rest IH]; intros j d Hlen.
  - exists d. simpl. repeat split; auto.
    + intros _ [|i] n H; discriminate.
    + intros _ _. now rewrite app_nil_r.
  - simpl in Hlen. cbn [set_parameters getitem].
    destruct (nth_error a j) as [x0|] eqn:Hx0;
      [|apply nth_error_None in Hx0; lia].
    cbn [bind].
    destruct (IH (S j) (dict_setitem d n0 (PyFloat x0))) as (d' & Hrun & Hout & Hin & Hkeys);
      [lia|].
    exists d'. split; [exact Hrun|]. repeat split.
    + intros n Hn. rewrite Hout by (intros H; apply Hn; now right).
      apply dict_getitem_setitem_other. intros ->. apply Hn. now left.
    + intros Hnd i n Hi. inversion Hnd as [|? ? Hnotin Hnd']; subst.
      destruct i as [|i]; simpl in Hi.
      * injection Hi as <-. exists x0. rewrite Nat.add_0_r. split; [exact Hx0|].
        rewrite (Hout n0 Hnotin). apply dict_getitem_setitem_same.
      * destruct (Hin Hnd' i n Hi) as (x & Hx & Hget).
        exists x. split; [|exact Hget].
        replace (j + S i) with (S j + i) by lia. exact Hx.
    + intros Hnd Hfresh. inversion Hnd as [|? ? Hnotin Hnd']; subst.
      rewrite Hkeys; auto.
      * rewrite dict_setitem_new_key by (apply Hfresh; now left).
        rewrite <- app_assoc. reflexivity.
      * intros n Hn. rewrite dict_getitem_setitem_other.
        -- apply Hfresh. now right.
        -- intros ->. contradiction.
Qed.

(** X7. For a node vector with at least as many entries as there are
    parameter names, the unpacking loop builds an assignment whose keys
    are exactly the names, in order, and that maps the j-th name to the
    j-th entry of the node; entries beyond the names are ignored.  The
    names must be distinct, as dict keys are. *)
Theorem node_entries_follow_names (names : list string) (a : ndarray) :
  NoDup names ->
  List.length names <= List.length a ->
  exists tmp_parameters,
    set_parameters names (wrap_node (PyArray a)) 0 dict_empty = Return tmp_parameters
    /\ map fst tmp_parameters = names
    /\ forall j n, nth_error names j = Some n ->
                   exists x, nth_error a j = Some x
                             /\ dict_getitem tmp_parameters n = Some (PyFloat x).
Proof.
  intros Hnd Hlen.
  destruct (set_parameters_array a names 0 dict_empty Hlen)
    as (d' & Hrun & _ & Hin & Hkeys).
  exists d'. split; [exact Hrun|]. split.
  - apply Hkeys; auto.
  - intros j n Hj. exact (Hin Hnd j n Hj).
Qed.

Lemma node_entries_follow_names_witness :
  exists tmp_parameters,
    set_parameters ["Rm"; "Epas"]%string (wrap_node (PyArray [22000; -67; 5]%Q)) 0 dict_empty
    = Return tmp_parameters
    /\ map fst tmp_parameters = ["Rm"; "Epas"]%string
    /\ forall j n, nth_error ["Rm"; "Epas"]%string j = Some n ->
                   exists x, nth_error [22000; -67; 5]%Q j = Some x
                             /\ dict_getitem tmp_parameters n = Some (PyFloat x).
Proof.
  apply (node_entries_follow_names ["Rm"; "Epas"]%string [22000; -67; 5]%Q).
  - repeat constructor; simpl; intuition discriminate.
  - simpl. lia.
Defined.

Lemma set_parameters_array_short (a : ndarray) :
  forall (names : list string) (j : nat) (d : dict pyobj),
    j <= List.length a ->
    List.length a < j + List.length names ->
    set_parameters names (PyArray a) j d = Raise (IndexError "index out of bounds").
Proof.
  induction names as [|n0 rest IH]; intros j d Hj Hlen; simpl in Hlen.
  - lia.
  - cbn [set_parameters getitem].
    destruct (nth_error a j) as [x0|] eqn:Hx0; [|reflexivity].
    cbn [bind].
    assert (Hlt : j < List.length a) by (apply nth_error_Some; congruence).
    apply IH; lia.
Qed.

(** X8. A node vector with fewer entries than there are parameter names
    makes the unpacking loop raise IndexError, so [evaluateNodeFunction]
    raises it too, having written nothing and before the simulator is
    started. *)
Theorem short_node_raises_IndexError (rt : Runtime) (d : data) (a : ndarray) :
  node d = PyArray a ->
  List.length a < List.length (tmp_parameter_names d) ->
  evaluateNodeFunction rt d = ([], Raise (IndexError "index out of bounds")).
Proof.
  intros Hnode Hlen. unfold evaluateNodeFunction. rewrite Hnode.
  cbn [wrap_node is_float_or_int].
  rewrite set_parameters_array_short; [reflexivity | lia | exact Hlen].
Qed.

Lemma short_node_raises_IndexError_witness :
  evaluateNodeFunction Examples.working
    (Examples.node_data (PyArray [22000]%Q) ["Rm"; "Epas"]%string)
  = ([], Raise (IndexError "index out of bounds")).
Proof.
  apply (short_node_raises_IndexError Examples.working
           (Examples.node_data (PyArray [22000]%Q) ["Rm"; "Epas"]%string) [22000]%Q).
  - reflexivity.
  - simpl. lia.
Defined.

Lemma split_no_dash (s : string) :
  no_dash s = true -> split "-"%char s = [s].
Proof.
  induction s as [|c s IH]; simpl; [reflexivity|].
  destruct (Ascii.eqb c "-"%char); simpl; [discriminate|].
  intros H. rewrite (IH H). reflexivity.
Qed.

Lemma split_prefix (a b : string) :
  no_dash a = true ->
  split "-"%char (a ++ String "-"%char b) = a :: split "-"%char b.
Proof.
  induction a as [|c a IH]; simpl.
  - reflexivity.
  - destruct (Ascii.eqb c "-"%char); simpl; [discriminate|].
    intros H. rewrite (IH H). reflexivity.
Qed.

(** X9. In a pool worker named "PoolWorker-N" the tag used for the
    [--CPU] argument and in the names of the two result files is N; in a
    process whose name has no dash and is not "PoolWorker" (such as
    "MainProcess") it is "0". *)
Theorem worker_tag_is_pool_number (rt : Runtime) (n : string) :
  no_dash n = true ->
  (current_process_name rt = ("PoolWorker-" ++ n)%string -> current_process rt = n)
  /\ (current_process_name rt = n -> n <> "PoolWorker"%string ->
      current_process rt = "0"%string).
Proof.
  intros Hn. unfold current_process. split.
  - intros ->.
    change ("PoolWorker-" ++ n)%string
      with ("PoolWorker" ++ String "-"%char n)%string.
    rewrite split_prefix by reflexivity.
    rewrite (split_no_dash n Hn). reflexivity.
  - intros -> Hne. rewrite (split_no_dash n Hn). cbn [hd].
    destruct (String.eqb n "PoolWorker") eqn:He; [|reflexivity].
    apply String.eqb_eq in He. contradiction.
Qed.

Lemma worker_tag_is_pool_number_witness :
  current_process Examples.working = "3"%string.
Proof.
  exact (proj1 (worker_tag_is_pool_number Examples.working "3" eq_refl) eq_refl).
Defined.

End NodeUnpacking.

(** ** The result mapping and the exceptions of evaluateNodeFunction.py *)

Section FeatureResults.
Import evaluateNodeFunction.
Local Open Scope nat_scope.

Lemma store_feature_outcome (rt : Runtime) (t U : ndarray) (results : dict entry)
  (feature : string) (tmp_result : pyobj) :
  match store_feature rt t U results feature tmp_result with
  | Return results' =>
      exists e, results' = dict_setitem results feature e /\ stored_as t U tmp_result e
  | Raise e => e = External "scipy.interpolate.InterpolatedUnivariateSpline"
  end.
Proof.
  unfold store_feature.
  assert (Hplain : exists e, dict_setitem results feature (PyNone, tmp_result, PyNone)
                             = dict_setitem results feature e
                             /\ stored_as t U tmp_result e).
  { eexists. split; [reflexivity|]. now left. }
  destruct (has_iter tmp_result) eqn:Hiter; [|exact Hplain].
  destruct tmp_result as [| | | |a|l| |]; try discriminate; cbn [len bind].
  - destruct (List.length a =? 2) eqn:Hlen; [|exact Hplain].
    destruct a as [|x [|y [|z a]]]; try discriminate.
    cbn [getitem nth_error bind has_iter]. exact Hplain.
  - destruct (List.length l =? 2) eqn:Hlen; [|exact Hplain].
    destruct l as [|r0 [|r1 [|z l]]]; try discriminate.
    cbn [getitem nth_error bind].
    destruct (has_iter r0) eqn:H0; [|exact Hplain].
    destruct (has_iter r1) eqn:H1; [|exact Hplain].
    unfold InterpolatedUnivariateSpline.
    destruct (spline_accepts rt t U 3); cbn [bind]; [|reflexivity].
    eexists. split; [reflexivity|]. right. exists r0, r1. repeat split; auto.
Qed.

(** A key of the result mapping stays once it is there. *)
Lemma store_features_keeps (rt : Runtime) (t U : ndarray) :
  forall (feature_results : list (string * pyobj)) (results results' : dict entry),
    store_features rt t U results feature_results = Return results' ->
    forall k, dict_getitem results k <> None -> dict_getitem results' k <> None.
Proof.
  induction feature_results as [|[f v] rest IH]; intros r r' Hrun k Hk; simpl in Hrun.
  - injection Hrun as <-. exact Hk.
  - pose proof (store_feature_outcome rt t U r f v) as H1.
    destruct (store_feature rt t U r f v) as [r1|]; [|discriminate].
    destruct H1 as (e & -> & _). cbn [bind] in Hrun.
    eapply IH; [exact Hrun|].
    rewrite dict_getitem_setitem. destruct (String.eqb f k); [discriminate | exact Hk].
Qed.

Lemma store_features_outcome (rt : Runtime) (t U : ndarray) :
  forall (feature_results : list (string * pyobj)) (results : dict entry),
    match store_features rt t U results feature_results with
    | Return results' =>
        (forall k v, In (k, v) feature_results -> dict_getitem results' k <> None)
        /\ (forall k e, dict_getitem results' k = Some e ->
                        dict_getitem results k = Some e
                        \/ exists v, In (k, v) feature_results /\ stored_as t U v e)
    | Raise e => e = External "scipy.interpolate.InterpolatedUnivariateSpline"
    end.
Proof.
  induction feature_results as [|[feature tmp] rest IH]; intros results; simpl.
  - split; [contradiction | auto].
  - pose proof (store_feature_outcome rt t U results feature tmp) as Hone.
    destruct (store_feature rt t U results feature tmp) as [results1|e];
      cbn [bind]; [|exact Hone].
    destruct Hone as (e1 & -> & Hshape).
    specialize (IH (dict_setitem results feature e1)).
    destruct (store_features rt t U _ rest) as [results'|e] eqn:Hrest; [|exact IH].
    destruct IH as [Hall Hfrom]. split.
    + intros k v [Hkv|Hkv].
      * injection Hkv as <- <-.
        eapply store_features_keeps; [exact Hrest|].
        rewrite dict_getitem_setitem_same. discriminate.
      * apply Hall with v. exact Hkv.
    + intros k e Hk. destruct (Hfrom k e Hk) as [Hold|(v & Hv & Hs)].
      * destruct (String.eqb feature k) eqn:Hfk.
        -- apply String.eqb_eq in Hfk. subst k.
           rewrite dict_getitem_setitem_same in Hold. injection Hold as <-.
           right. exists tmp. split; [now left | exact Hshape].
        -- apply String.eqb_neq in Hfk.
           rewrite dict_getitem_setitem_other in Hold by exact Hfk. now left.
      * right. exists v. split; [now right | exact Hs].
Qed.

(** X10. The mapping a successful call returns has a key for every
    feature the feature class reported and no key besides these and
    "directComparison".  A feature is stored either as it is, between
    two [None], or, when it is a pair of sequences, as its two
    components together with the cubic spline of the model output over
    the model's time vector: the same spline as under
    "directComparison", not a spline of the feature's own data. *)
Theorem results_hold_the_reported_features (rt : Runtime) (d : data)
  (out : list string) (results : dict entry) :
  evaluateNodeFunction rt d = (out, Return results) ->
  exists t U feature_results,
    calculateFeatures rt (feature_cmd d) t U (kwargs d) (feature_list d)
    = Return feature_results
    /\ dict_getitem results "directComparison"
       = Some (PyArray t, PyArray U, PySpline t U 3)
    /\ (forall k v, In (k, v) (dict_iteritems feature_results) ->
                    dict_getitem results k <> None)
    /\ (forall k e, dict_getitem results k = Some e ->
                    k <> "directComparison"%string ->
                    exists v, In (k, v) (dict_iteritems feature_results)
                              /\ stored_as t U v e).
Proof.
  unfold evaluateNodeFunction. intros H.
  destruct (set_parameters _ _ _ _) as [tmp|e]; [|discriminate].
  destruct (negb (returncode _ =? 0)%Z); [discriminate|].
  injection H as _ H. unfold collect_results in H.
  apply bind_Return_inv in H as (U & _ & H).
  apply bind_Return_inv in H as (t & _ & H).
  apply bind_Return_inv in H as (fr & Hfr & H).
  apply bind_Return_inv in H as (res & Hres & H).
  apply bind_Return_inv in H as (interp & Hi & H).
  unfold InterpolatedUnivariateSpline in Hi.
  destruct (spline_accepts rt t U 3); [|discriminate].
  injection Hi as <-. injection H as <-.
  pose proof (store_features_outcome rt t U (dict_iteritems fr) dict_empty) as Hout.
  rewrite Hres in Hout. destruct Hout as [Hall Hfrom].
  exists t, U, fr. split; [exact Hfr|]. split; [apply dict_getitem_setitem_same|].
  split.
  - intros k v Hkv. rewrite dict_getitem_setitem.
    destruct (String.eqb "directComparison" k); [discriminate|].
    apply Hall with v. exact Hkv.
  - intros k e Hk Hne.
    rewrite dict_getitem_setitem_other in Hk by congruence.
    destruct (Hfrom k e Hk) as [Hold|Hnew]; [discriminate | exact Hnew].
Qed.

Lemma results_hold_the_reported_features_witness :
  exists t U feature_results,
    calculateFeatures Examples.working
      (feature_cmd (Examples.node_data (PyFloat 22000) ["Rm"]%string)) t U
      (kwargs (Examples.node_data (PyFloat 22000) ["Rm"]%string))
      (feature_list (Examples.node_data (PyFloat 22000) ["Rm"]%string))
    = Return feature_results
    /\ dict_getitem
         (match snd (evaluateNodeFunction Examples.working
                       (Examples.node_data (PyFloat 22000) ["Rm"]%string)) with
          | Return results => results
          | Raise _ => []
          end) "directComparison"
       = Some (PyArray t, PyArray U, PySpline t U 3)
    /\ (forall k v, In (k, v) (dict_iteritems feature_results) ->
                    dict_getitem
                      (match snd (evaluateNodeFunction Examples.working
                                    (Examples.node_data (PyFloat 22000) ["Rm"]%string)) with
                       | Return results => results
                       | Raise _ => []
                       end) k <> None)
    /\ (forall k e,
          dict_getitem
            (match snd (evaluateNodeFunction Examples.working
                          (Examples.node_data (PyFloat 22000) ["Rm"]%string)) with
             | Return results => results
             | Raise _ => []
             end) k = Some e ->
          k <> "directComparison"%string ->
          exists v, In (k, v) (dict_iteritems feature_results) /\ stored_as t U v e).
Proof.
  apply (results_hold_the_reported_features Examples.working
           (Examples.node_data (PyFloat 22000) ["Rm"]%string) []).
  vm_compute. reflexivity.
Defined.

End FeatureResults.

(** ** What the methods of uncertainty.py return and assign *)

Section MethodOutcomes.
Import uncertainty.
Local Open Scope nat_scope.

Lemma seq_m_Return (Poly A B : Type) (m : method Poly A) (k : A -> method Poly B)
  (st st' : state Poly) (b : B) :
  seq_m Poly m k st = (st', Return b) ->
  exists a st1, m st = (st1, Return a) /\ k a st1 = (st', Return b).
Proof.
  unfold seq_m. destruct (m st) as [st1 [a|e]]; [eauto | discriminate].
Qed.

Lemma except_MemoryError_Return (Poly A : Type) (body handler : method Poly A)
  (st st' : state Poly) (a : A) :
  except_MemoryError Poly body handler st = (st', Return a) ->
  body st = (st', Return a)
  \/ exists st1, body st = (st1, Raise MemoryError) /\ handler st1 = (st', Return a).
Proof.
  unfold except_MemoryError. destruct (body st) as [st1 [x|e]].
  - intros H. now left.
  - destruct e; try discriminate. intros H. right. eauto.
Qed.

Ltac peel H :=
  let a := fresh "a" in
  let s := fresh "s" in
  let Hm := fresh "Hm" in
  apply seq_m_Return in H as (a & s & Hm & H).

Lemma single_statistics_Return (Poly : Type) (cp : Chaospy Poly)
  (st st' : state Poly) (r : pyobj) :
  single_statistics Poly cp st = (st', Return r) -> r = PyNone.
Proof.
  unfold single_statistics. intros H. repeat peel H.
  unfold ret in H. now injection H as _ <-.
Qed.

Lemma all_statistics_Return (Poly : Type) (cp : Chaospy Poly)
  (st st' : state Poly) (r : pyobj) :
  all_statistics Poly cp st = (st', Return r) -> r = PyNone.
Proof.
  unfold all_statistics. intros H. repeat peel H.
  unfold ret in H. now injection H as _ <-.
Qed.



(** X13. [allParameters] never returns -1: every call that returns gives
    [None], whether it ran the statistics, deferred to
    [singleParameters] (whose -1 it drops), found nothing to do, or ran
    out of memory in its [try] block. *)
Theorem allParameters_returns_None (Poly : Type) (cp : Chaospy Poly) (sim : Simulator)
  (st st' : state Poly) (r : pyobj) :
  allParameters Poly cp sim st = (st', Return r) -> r = PyNone.
Proof.
  unfold allParameters. intros H. peel H.
  destruct (List.length _ <=? 1).
  - destruct (U_hat a).
    + unfold ret in H. now injection H as _ <-.
    + peel H. unfold ret in H. now injection H as _ <-.
  - peel H.
    apply createPCExpansion_Return in Hm0
      as (? & ? & ? & ? & ? & ? & ? & ? & ? & ? & _ & _ & _ & _ & _ & _ & _ & _ & _ & ->).
    cbn [is_minus_one] in H.
    apply except_MemoryError_Return in H as [H|(st1 & _ & H)].
    + eapply all_statistics_Return. exact H.
    + unfold ret in H. now injection H as _ <-.
Qed.

Lemma allParameters_returns_None_witness :
  exists r,
    snd (allParameters _ Examples.toy_chaospy Examples.steady
           (Examples.estimation Examples.mismatched 1, [])) = Return r
    /\ r = PyNone.
Proof.
  exists PyNone. split.
  - vm_compute. reflexivity.
  - apply (allParameters_returns_None _ Examples.toy_chaospy Examples.steady
             (Examples.estimation Examples.mismatched 1, [])
             (fst (allParameters _ Examples.toy_chaospy Examples.steady
                     (Examples.estimation Examples.mismatched 1, [])))
             PyNone).
    vm_compute. reflexivity.
Defined.

(** X14. [singleParameters] returns [None] or -1, and -1 only when the
    statistics block of one of the uncertain parameters raised
    MemoryError; the branch that tests [createPCExpansion] for -1 is
    never taken, and a failing model evaluation raises instead. *)
Theorem singleParameters_minus_one_is_MemoryError (Poly : Type) (cp : Chaospy Poly)
  (sim : Simulator) :
  forall (uncertain_parameters : list string) (st st' : state Poly) (r : pyobj),
    singleParameters_loop Poly cp sim uncertain_parameters st = (st', Return r) ->
    r = PyNone
    \/ (r = PyInt (-1)
        /\ exists uncertain_parameter st1,
             In uncertain_parameter uncertain_parameters
             /\ single_statistics Poly cp st1 = (st', Raise MemoryError)).
Proof.
  induction uncertain_parameters as [|up rest IH]; intros st st' r H;
    cbn [singleParameters_loop] in H.
  - unfold ret in H. injection H as _ <-. now left.
  - peel H.
    apply createPCExpansion_Return in Hm
      as (? & ? & ? & ? & ? & ? & ? & ? & ? & ? & _ & _ & _ & _ & _ & _ & _ & _ & _ & ->).
    cbn [is_minus_one] in H. peel H.
    apply except_MemoryError_Return in Hm as [Hm|(st1 & Hm & Hh)].
    + apply single_statistics_Return in Hm as ->. cbn [is_minus_one] in H.
      destruct (IH _ _ _ H) as [->|(-> & up' & st1 & Hin & Hs)]; [now left|].
      right. split; [reflexivity|]. exists up', st1. split; [now right | exact Hs].
    + unfold ret in Hh. injection Hh as <- <-. cbn [is_minus_one Z.eqb] in H.
      unfold ret in H. injection H as <- <-.
      right. split; [reflexivity|]. exists up. eexists. split; [now left | exact Hm].
Qed.

Lemma singleParameters_minus_one_is_MemoryError_witness :
  singleParameters_loop _ Examples.exhausted_chaospy Examples.steady ["a"]%string
    (Examples.estimation Examples.mismatched 1, [])
  = (fst (singleParameters_loop _ Examples.exhausted_chaospy Examples.steady ["a"]%string
            (Examples.estimation Examples.mismatched 1, [])),
     Return (PyInt (-1)))
  /\ (PyInt (-1) = PyNone
      \/ (PyInt (-1) = PyInt (-1)
          /\ exists uncertain_parameter st1,
               In uncertain_parameter ["a"]%string
               /\ single_statistics _ Examples.exhausted_chaospy st1
                  = (fst (singleParameters_loop _ Examples.exhausted_chaospy Examples.steady
                            ["a"]%string (Examples.estimation Examples.mismatched 1, [])),
                     Raise MemoryError))).
Proof.
  split.
  - vm_compute. reflexivity.
  - apply (singleParameters_minus_one_is_MemoryError _ Examples.exhausted_chaospy
             Examples.steady ["a"]%string
             (Examples.estimation Examples.mismatched 1, [])).
    vm_compute. reflexivity.
Defined.

Lemma collect_Raise (ps : list parameters.Parameter') (item : string) (e : exn) :
  parameters.collect ps item = Raise e -> e = AttributeError item.
Proof.
  induction ps as [|p rest IH]; simpl; [discriminate|].
  unfold parameters.getattr.
  destruct (String.eqb item "name"); [|destruct (String.eqb item "value");
    [|destruct (String.eqb item "parameter_space")]]; cbn [bind];
    try (destruct (parameters.collect rest item); cbn [bind];
         [discriminate | intros H; injection H as <-; now apply IH]).
  intros H. now injection H as <-.
Qed.

(** X15. Asked for a parameter name that was never registered,
    [createPCExpansion] raises AttributeError (not KeyError: [get] falls
    back to listing an attribute of that name), before anything is
    assigned and before any model evaluation. *)
Theorem unknown_parameter_raises_AttributeError (Poly : Type) (cp : Chaospy Poly)
  (sim : Simulator) (parameter_name : string) (st : state Poly) :
  dict_getitem (parameters.parameters (parameters (fst st))) parameter_name = None ->
  exists what,
    createPCExpansion Poly cp sim (Some parameter_name) st
    = (st, Raise (AttributeError what)).
Proof.
  intros Hmiss. unfold createPCExpansion, choose_parameter_space.
  cbv [seq_m lift assign get_self ret raise]. cbn [fst snd].
  unfold parameters.get. rewrite Hmiss.
  destruct (parameters.collect _ parameter_name) as [l|e] eqn:Hc; cbn [bind].
  - eexists. reflexivity.
  - apply collect_Raise in Hc. subst e. eexists. reflexivity.
Qed.

Lemma unknown_parameter_raises_AttributeError_witness :
  exists what,
    createPCExpansion _ Examples.toy_chaospy Examples.steady (Some "gkdr"%string)
      (Examples.estimation Examples.mismatched 1, [])
    = ((Examples.estimation Examples.mismatched 1, []), Raise (AttributeError what)).
Proof.
  apply (unknown_parameter_raises_AttributeError _ Examples.toy_chaospy Examples.steady
           "gkdr" (Examples.estimation Examples.mismatched 1, [])).
  reflexivity.
Defined.

End MethodOutcomes.

(** ** Nodes, names and the assignments handed to the simulator *)

Section Dispatch.
Import uncertainty.
Local Open Scope nat_scope.

Lemma run_all_single (sim : Simulator) (n : string)
  (features : list (ndarray -> ndarray)) :
  forall (all_data : list pyobj) (sent : list (dict pyobj)) (r : result (list solve)),
    run_all sim all_data [n] features = (sent, r) ->
    Forall (fun a => exists v, a = [(n, v)]) sent.
Proof.
  induction all_data as [|node rest IH]; intros sent r H; simpl in H.
  - injection H as <- _. constructor.
  - unfold runParallelFunction in H. cbn [evaluateNodeFunction.set_parameters] in H.
    destruct (getitem (evaluateNodeFunction.wrap_node node) 0) as [v|e]; cbn [bind] in H.
    + destruct (bind (Simulation sim _ _ _) _) as [s|e].
      * destruct (run_all sim rest [n] features) as [log r'] eqn:Hrest.
        injection H as <- _. constructor; [eauto|]. eapply IH. reflexivity.
      * injection H as <- _. constructor; [eauto | constructor].
    + injection H as <- _. constructor.
Qed.

(** X16. When [createPCExpansion] is called for one named parameter and
    returns, [tmp_parameter_name] is that name alone and every parameter
    assignment handed to the simulator consists of that one name and a
    value: a single-parameter run never varies another parameter. *)
Theorem single_parameter_run_sets_one_name (Poly : Type) (cp : Chaospy Poly)
  (sim : Simulator) (parameter_name : string) (st st' : state Poly) (r : pyobj) :
  createPCExpansion Poly cp sim (Some parameter_name) st = (st', Return r) ->
  tmp_parameter_name (fst st') = [parameter_name]
  /\ exists sent,
       snd st' = snd st ++ sent
       /\ Forall (fun a => exists v, a = [(parameter_name, v)]) sent.
Proof.
  intros H.
  apply createPCExpansion_Return in H
    as (names & ps & joint & basis & nodes & sent & solves & g & aligned & fitted
        & Hc & _ & _ & _ & Hrun & _ & _ & _ & -> & _).
  assert (Hnames : names = [parameter_name]).
  { unfold choose_parameter_space in Hc.
    cbv [seq_m lift assign get_self ret raise] in Hc. cbn [fst snd] in Hc.
    destruct (parameters.get _ parameter_name) as [[p|l]|e]; try discriminate.
    unfold set_tmp_parameter_name in Hc. congruence. }
  subst names. cbn [fst snd]. split; [reflexivity|].
  exists sent. split; [reflexivity|]. eapply run_all_single. exact Hrun.
Qed.

Lemma single_parameter_run_sets_one_name_witness :
  tmp_parameter_name
    (fst (fst (createPCExpansion _ Examples.toy_chaospy Examples.steady (Some "a"%string)
                 (Examples.estimation Examples.mismatched 1, []))))
  = ["a"]%string
  /\ exists sent,
       snd (fst (createPCExpansion _ Examples.toy_chaospy Examples.steady (Some "a"%string)
                   (Examples.estimation Examples.mismatched 1, [])))
       = snd (Examples.estimation Examples.mismatched 1, @nil (dict pyobj)) ++ sent
       /\ Forall (fun a => exists v, a = [("a"%string, v)]) sent.
Proof.
  apply (single_parameter_run_sets_one_name _ Examples.toy_chaospy Examples.steady "a"
           (Examples.estimation Examples.mismatched 1, [])
           (fst (createPCExpansion _ Examples.toy_chaospy Examples.steady (Some "a"%string)
                   (Examples.estimation Examples.mismatched 1, [])))
           PyNone).
  vm_compute. reflexivity.
Defined.

(** X17. A node array with at least one axis per parameter name (one row
    per name, or a one-dimensional array for at most one name) is
    unpacked without error: every node that iteration over [nodes.T]
    yields gives a parameter assignment. *)
Theorem nodes_with_an_axis_per_name_unpack (nodes : nodes_t) (names : list string) :
  List.length names <= n_axes nodes ->
  Forall (fun node =>
            exists tmp_parameters,
              evaluateNodeFunction.set_parameters names
                (evaluateNodeFunction.wrap_node node) 0 dict_empty
              = Return tmp_parameters)
         (T_iter nodes).
Proof.
  intros Hlen. apply Forall_forall. intros node Hnode.
  destruct nodes as [a|rows]; simpl in Hnode, Hlen.
  - apply in_map_iff in Hnode as (x & <- & _).
    destruct names as [|n [|n' rest]]; simpl in Hlen; try lia; simpl; eauto.
  - apply in_map_iff in Hnode as (j & <- & _).
    cbn [evaluateNodeFunction.wrap_node is_float_or_int].
    destruct (set_parameters_array (map (fun r => nth j r 0%Q) rows) names 0 dict_empty)
      as (d' & Hrun & _).
    + rewrite length_map. simpl. exact Hlen.
    + eauto.
Qed.

Lemma nodes_with_an_axis_per_name_unpack_witness :
  Forall (fun node =>
            exists tmp_parameters,
              evaluateNodeFunction.set_parameters ["a"; "b"]%string
                (evaluateNodeFunction.wrap_node node) 0 dict_empty
              = Return tmp_parameters)
         (T_iter (Nodes2 [Examples.ramp 3; Examples.ramp 3])).
Proof.
  apply (nodes_with_an_axis_per_name_unpack
           (Nodes2 [Examples.ramp 3; Examples.ramp 3]) ["a"; "b"]%string).
  simpl. lia.
Defined.

End Dispatch.

(** ** The Monte Carlo run of uncertainty.py *)

Section MonteCarloRun.
Import uncertainty.
Local Open Scope nat_scope.

Lemma pseudoMC_choose_state (Poly : Type) (parameter_name : option string)
  (st : state Poly) :
  fst (pseudoMC_choose Poly parameter_name st) = st.
Proof.
  unfold pseudoMC_choose. cbv [seq_m lift get_self ret raise]. cbn [fst snd].
  destruct parameter_name as [pn|].
  - destruct (parameters.get _ pn) as [[p|l]|e]; reflexivity.
  - destruct (parameters.getUncertain _ "parameter_space") as [ps|e]; [|reflexivity].
    destruct (parameters.getUncertain _ "name") as [names|e]; reflexivity.
Qed.

Lemma pseudoMC_loop_Some (sim : Simulator) (model : Model) (names : list string)
  (feature : option (ndarray -> ndarray)) :
  forall (samples : list pyobj) (sent : list (dict pyobj)) (solves : list solve),
    pseudoMC_loop sim model samples names feature = (sent, Return (Some solves)) ->
    List.length solves = List.length samples.
Proof.
  induction samples as [|s rest IH]; intros sent solves H; simpl in H.
  - injection H as _ <-. reflexivity.
  - destruct (pseudoMC_step sim model s names feature) as [a [[solve|]|e]];
      try discriminate.
    destruct (pseudoMC_loop sim model rest names feature) as [log [[ss|]|e]];
      simpl in H; try discriminate.
    injection H as _ <-. simpl. f_equal. eapply IH. reflexivity.
Qed.

(** The first sample for which [run()] returns -1 ends the loop. *)
Lemma pseudoMC_loop_first_minus_one (sim : Simulator) (model : Model)
  (names : list string) (feature : option (ndarray -> ndarray))
  (s : pyobj) (after : list pyobj) :
  snd (pseudoMC_step sim model s names feature) = Return None ->
  forall before : list pyobj,
    Forall (fun x => exists solve,
                       snd (pseudoMC_step sim model x names feature)
                       = Return (Some solve)) before ->
    snd (pseudoMC_loop sim model (before ++ s :: after) names feature) = Return None
    /\ List.length (fst (pseudoMC_loop sim model (before ++ s :: after) names feature))
       <= List.length before + 1.
Proof.
  intros Hs. induction 1 as [|x before (solve & Hx) _ IH]; simpl.
  - destruct (pseudoMC_step sim model s names feature) as [a r].
    simpl in Hs. subst r. simpl. split; [reflexivity|]. destruct a; simpl; lia.
  - destruct (pseudoMC_step sim model x names feature) as [a r].
    simpl in Hx. subst r.
    destruct (pseudoMC_loop sim model (before ++ s :: after) names feature) as [log r].
    simpl in IH. destruct IH as [-> Hlen]. simpl. split; [reflexivity|].
    rewrite length_app. destruct a; simpl; lia.
Qed.

(** X18. When [self.model.run()] returns -1 for some sample, [pseudoMC]
    returns -1 at once: the samples after it are not run, and [t], [E]
    and [Var] keep the values they had, while [distribution] has already
    been replaced. *)
Theorem pseudoMC_stops_at_first_failed_run (Poly : Type) (cp : Chaospy Poly)
  (sim : Simulator) (model : Model) (parameter_name : option string)
  (feature : option (ndarray -> ndarray)) (st : state Poly)
  (chosen : list pyobj * list string) (joint : Dist) (samples : nodes_t)
  (before : list pyobj) (s : pyobj) (after : list pyobj) :
  snd (pseudoMC_choose Poly parameter_name st) = Return chosen ->
  cp_J (fst chosen) = Return joint ->
  sample cp joint (mc_samples (fst st)) "M" = Return samples ->
  T_iter samples = before ++ s :: after ->
  Forall (fun x => exists solve,
                     snd (pseudoMC_step sim model x (snd chosen) feature)
                     = Return (Some solve)) before ->
  snd (pseudoMC_step sim model s (snd chosen) feature) = Return None ->
  exists st',
    pseudoMC Poly cp sim model parameter_name feature st = (st', Return (PyInt (-1)))
    /\ distribution (fst st') = Some joint
    /\ (t (fst st'), E (fst st'), Var (fst st')) = (t (fst st), E (fst st), Var (fst st))
    /\ List.length (snd st') <= List.length (snd st) + List.length before + 1.
Proof.
  intros Hc HJ Hn HT Hbefore Hs.
  destruct (pseudoMC_loop_first_minus_one sim model (snd chosen) feature s after Hs
              before Hbefore) as [Hr Hlen].
  unfold pseudoMC. cbv [seq_m lift assign get_self ret raise pseudoMC_evaluate].
  pose proof (pseudoMC_choose_state Poly parameter_name st) as Hst.
  destruct (pseudoMC_choose Poly parameter_name st) as [st1 r1].
  cbn [fst snd] in Hc, Hst. subst st1 r1.
  rewrite HJ. cbn [fst snd mc_samples set_distribution]. rewrite Hn, HT.
  destruct (pseudoMC_loop sim model (before ++ s :: after) (snd chosen) feature)
    as [sent r]. cbn [fst snd] in Hr, Hlen. subst r.
  eexists. split; [reflexivity|]. cbn [fst snd]. repeat split.
  rewrite length_app. lia.
Qed.

Lemma pseudoMC_stops_at_first_failed_run_witness :
  exists st',
    pseudoMC _ Examples.toy_chaospy Examples.steady (Examples.failing_model 1) None None
      (Examples.estimation Examples.mismatched 1, [])
    = (st', Return (PyInt (-1)))
    /\ distribution (fst st') = Some (J [Uniform 0 1; Uniform 0 2])
    /\ (t (fst st'), E (fst st'), Var (fst st'))
       = (t (fst (Examples.estimation Examples.mismatched 1, @nil (dict pyobj))),
          E (fst (Examples.estimation Examples.mismatched 1, @nil (dict pyobj))),
          Var (fst (Examples.estimation Examples.mismatched 1, @nil (dict pyobj))))
    /\ List.length (snd st')
       <= List.length (snd (Examples.estimation Examples.mismatched 1, @nil (dict pyobj)))
          + List.length [PyArray [0; 0]%Q] + 1.
Proof.
  apply (pseudoMC_stops_at_first_failed_run _ Examples.toy_chaospy Examples.steady
           (Examples.failing_model 1) None None
           (Examples.estimation Examples.mismatched 1, [])
           ([PyDist (Uniform 0 1); PyDist (Uniform 0 2)], ["a"; "b"]%string)
           (J [Uniform 0 1; Uniform 0 2])
           (Nodes2 [Examples.ramp 10; Examples.ramp 10])
           [PyArray [0; 0]%Q] (PyArray [1; 1]%Q)
           (map (fun i => PyArray [inject_Z (Z.of_nat i); inject_Z (Z.of_nat i)])
                (seq 2 8))).
  - vm_compute. reflexivity.
  - vm_compute. reflexivity.
  - vm_compute. reflexivity.
  - vm_compute. reflexivity.
  - repeat constructor. eexists. vm_compute. reflexivity.
  - vm_compute. reflexivity.
Defined.

Lemma sum_list_nonneg (l : list Q) :
  Forall (fun x => (0 <= x)%Q) l -> (0 <= sum_list l)%Q.
Proof.
  induction 1 as [|x l Hx _ IH]; simpl.
  - apply Qle_refl.
  - rewrite <- (Qplus_0_r 0). apply Qplus_le_compat; assumption.
Qed.

Lemma square_nonneg (q : Q) : (0 <= q ^ 2)%Q.
Proof.
  destruct q as [n d]. unfold Qle. simpl. nia.
Qed.

Lemma mc_variance_nonneg (rows : list ndarray) (mean : ndarray) (mc_samples : nat) :
  Forall (fun v => (0 <= v)%Q) (mc_variance rows mean mc_samples).
Proof.
  unfold mc_variance, sum_axis0. apply Forall_forall. intros v Hv.
  apply in_map_iff in Hv as (x & <- & Hx).
  apply in_map_iff in Hx as (j & <- & _).
  apply Qmult_le_0_compat.
  - apply sum_list_nonneg. apply Forall_forall. intros y Hy.
    apply in_map_iff in Hy as (r & <- & Hr).
    apply in_map_iff in Hr as (r0 & <- & _).
    destruct (nth_in_or_default j (map (fun xe : Q * Q => ((fst xe - snd xe) ^ 2)%Q)
                                      (combine r0 mean)) 0%Q) as [Hin|Hdef].
    + apply in_map_iff in Hin as (xe & <- & _). apply square_nonneg.
    + rewrite Hdef. apply Qle_refl.
  - apply Qinv_le_0_compat. unfold Qle. simpl. lia.
Qed.

(** X19. When [pseudoMC] returns [None], it has assigned the reference
    grid [t], a mean [E] and a variance [Var] with one entry per point of
    the grid, and no entry of the variance is negative (the values are
    taken as exact rationals here, not as floats). *)
Theorem pseudoMC_assigns_mean_and_variance (Poly : Type) (cp : Chaospy Poly)
  (sim : Simulator) (model : Model) (parameter_name : option string)
  (feature : option (ndarray -> ndarray)) (st st' : state Poly) :
  pseudoMC Poly cp sim model parameter_name feature st = (st', Return PyNone) ->
  exists grid mean variance,
    t (fst st') = Some grid
    /\ E (fst st') = Some mean
    /\ Var (fst st') = Some variance
    /\ List.length mean = List.length grid
    /\ List.length variance = List.length grid
    /\ Forall (fun v => (0 <= v)%Q) variance.
Proof.
  unfold pseudoMC. cbv [seq_m lift assign get_self ret raise pseudoMC_evaluate].
  destruct (pseudoMC_choose Poly parameter_name st) as [st1 [chosen|e]];
    [|discriminate].
  destruct (cp_J (fst chosen)) as [joint|e]; [|discriminate].
  cbn [fst snd].
  destruct (sample cp joint _ _) as [samples|e]; [|discriminate].
  destruct (pseudoMC_loop sim model (T_iter samples) (snd chosen) feature)
    as [sent [[solves|]|e]] eqn:Hloop; try discriminate.
  destruct (T_iter samples) as [|n0 ns] eqn:HT; [discriminate|].
  destruct (align sim solves) as [[grid aligned]|e] eqn:Ha; [|discriminate].
  cbn [fst snd]. intros H. injection H as <-.
  apply pseudoMC_loop_Some in Hloop. apply align_lengths in Ha as [Hlen Hall].
  destruct aligned as [|row rows]; [simpl in *; lia|].
  assert (Hrow : List.length row = List.length grid) by now inversion Hall.
  eexists grid, _, _. cbn [fst t E Var set_Var set_E set_t].
  repeat split.
  - unfold mc_mean, sum_axis0, ncols.
    rewrite !length_map, length_seq. exact Hrow.
  - unfold mc_variance, sum_axis0, ncols.
    rewrite !length_map, length_seq. cbn [map hd].
    rewrite length_map, length_combine.
    unfold mc_mean, sum_axis0, ncols.
    rewrite !length_map, length_seq. cbn [hd]. lia.
  - apply mc_variance_nonneg.
Qed.

Lemma pseudoMC_assigns_mean_and_variance_witness :
  exists grid mean variance,
    t (fst (fst (pseudoMC _ Examples.toy_chaospy Examples.steady Examples.bench_model
                   None None (Examples.estimation Examples.mismatched 1, []))))
    = Some grid
    /\ E (fst (fst (pseudoMC _ Examples.toy_chaospy Examples.steady Examples.bench_model
                      None None (Examples.estimation Examples.mismatched 1, []))))
       = Some mean
    /\ Var (fst (fst (pseudoMC _ Examples.toy_chaospy Examples.steady Examples.bench_model
                        None None (Examples.estimation Examples.mismatched 1, []))))
       = Some variance
    /\ List.length mean = List.length grid
    /\ List.length variance = List.length grid
    /\ Forall (fun v => (0 <= v)%Q) variance.
Proof.
  apply (pseudoMC_assigns_mean_and_variance _ Examples.toy_chaospy Examples.steady
           Examples.bench_model None None
           (Examples.estimation Examples.mismatched 1, [])).
  vm_compute. reflexivity.
Defined.

End MonteCarloRun.

(** ** Names as keys, and the two listings of parameters.py *)

Section Listings.
Import parameters.
Local Open Scope nat_scope.

Lemma setDistribution_name (p : Parameter') (distribution : distribution_arg) :
  name (fst (setDistribution p distribution)) = name p.
Proof.
  unfold setDistribution. destruct distribution as [|d|f|o]; try reflexivity.
  destruct (f (value p)) as [o|e]; [|reflexivity].
  destruct (negb (is_Dist o)); reflexivity.
Qed.

(** X20. Every parameter is stored under its own name: this holds after
    [Parameters(parameterlist)] and is kept by
    [Parameters.setDistribution], whether that call returns or raises. *)
Theorem parameters_are_keyed_by_name :
  (forall parameterlist ps,
     Parameters_init parameterlist = Return ps -> keyed_by_name ps)
  /\ (forall self parameter distribution,
        keyed_by_name self ->
        keyed_by_name (fst (Parameters_setDistribution self parameter distribution))).
Proof.
  split.
  - intros l ps H key p Hget. unfold Parameters_init in H.
    apply bind_Return_inv in H as (d & Hd & H). injection H as <-.
    cbn [parameters] in Hget.
    rewrite (init_loop_lookup key _ _ _ Hd) in Hget.
    destruct (find _ _) as [q|] eqn:Hfind; [|discriminate].
    injection Hget as <-. apply find_some in Hfind as [_ Hq].
    apply String.eqb_eq. exact Hq.
  - intros self parameter distribution Hkeyed key p.
    unfold Parameters_setDistribution.
    destruct (dict_getitem (parameters self) parameter) as [q|] eqn:Hq;
      [|apply Hkeyed].
    pose proof (setDistribution_name q distribution) as Hname.
    destruct (setDistribution q distribution) as [q' r]. cbn [fst parameters] in *.
    rewrite dict_getitem_setitem.
    destruct (String.eqb parameter key) eqn:Hk.
    + intros H. injection H as <-. apply String.eqb_eq in Hk. subst key.
      rewrite Hname. apply Hkeyed. exact Hq.
    + apply Hkeyed.
Qed.

Lemma parameters_are_keyed_by_name_witness :
  keyed_by_name (mkParameters
                   [("a", mkParameter "a" (PyInt 1) (PyDist (Uniform 0 1)));
                    ("b", mkParameter "b" (PyInt 2) (PyDist (Uniform 0 2)))] [] PyNone)
  /\ keyed_by_name
       (fst (Parameters_setDistribution
               (mkParameters
                  [("a", mkParameter "a" (PyInt 1) (PyDist (Uniform 0 1)));
                   ("b", mkParameter "b" (PyInt 2) (PyDist (Uniform 0 2)))] [] PyNone)
               "b" ArgNone)).
Proof.
  destruct parameters_are_keyed_by_name as [Hinit Hset].
  assert (H : keyed_by_name
                (mkParameters
                   [("a", mkParameter "a" (PyInt 1) (PyDist (Uniform 0 1)));
                    ("b", mkParameter "b" (PyInt 2) (PyDist (Uniform 0 2)))] [] PyNone)).
  { apply (Hinit [ParameterRow "a" (PyInt 1) (ArgDist (Uniform 0 1));
                  ParameterRow "b" (PyInt 2) (ArgDist (Uniform 0 2))]).
    reflexivity. }
  split; [exact H | apply Hset; exact H].
Defined.

Lemma collect_filter (f : Parameter' -> bool) (item : string) :
  forall (ps : list Parameter') (l : list pyobj),
    collect ps item = Return l ->
    List.length l = List.length ps
    /\ collect (filter f ps) item
       = Return (map snd (filter (fun pv => f (fst pv)) (combine ps l))).
Proof.
  induction ps as [|p rest IH]; intros l H; simpl in H.
  - injection H as <-. auto.
  - apply bind_Return_inv in H as (v & Hv & H).
    apply bind_Return_inv in H as (vs & Hvs & H). injection H as <-.
    destruct (IH _ Hvs) as [Hlen Hfil]. split; [simpl; lia|].
    simpl. destruct (f p); simpl; [rewrite Hv, Hfil|]; auto.
Qed.

(** X21. For an attribute name that is not the name of a parameter,
    [get] lists that attribute for every parameter, and [getUncertain]
    returns the same listing restricted to the parameters that have a
    distribution, in the same order. *)
Theorem getUncertain_is_get_restricted (self : Parameters') (item : string)
  (l : list pyobj) :
  get self item = Return (GetList l) ->
  List.length l = List.length (dict_values (parameters self))
  /\ getUncertain self item
     = Return (map snd
                 (filter (fun pv => negb (is_None (parameter_space (fst pv))))
                         (combine (dict_values (parameters self)) l))).
Proof.
  unfold get. destruct (dict_getitem (parameters self) item); [discriminate|].
  intros H. apply bind_Return_inv in H as (l' & Hl & H). injection H as <-.
  unfold getUncertain, uncertain_in_dict_order.
  apply (collect_filter (fun parameter => negb (is_None (parameter_space parameter)))).
  exact Hl.
Qed.

Lemma getUncertain_is_get_restricted_witness :
  List.length [PyInt 1; PyInt 5]
  = List.length
      (dict_values
         (parameters
            (mkParameters
               [("a", mkParameter "a" (PyInt 1) (PyDist (Uniform 0 1)));
                ("cap", mkParameter "cap" (PyInt 5) PyNone)] [] PyNone)))
  /\ getUncertain
       (mkParameters
          [("a", mkParameter "a" (PyInt 1) (PyDist (Uniform 0 1)));
           ("cap", mkParameter "cap" (PyInt 5) PyNone)] [] PyNone) "value"
     = Return (map snd
                 (filter (fun pv => negb (is_None (parameter_space (fst pv))))
                         (combine
                            (dict_values
                               (parameters
                                  (mkParameters
                                     [("a", mkParameter "a" (PyInt 1) (PyDist (Uniform 0 1)));
                                      ("cap", mkParameter "cap" (PyInt 5) PyNone)]
                                     [] PyNone)))
                            [PyInt 1; PyInt 5]))).
Proof.
  apply (getUncertain_is_get_restricted
           (mkParameters
              [("a", mkParameter "a" (PyInt 1) (PyDist (Uniform 0 1)));
               ("cap", mkParameter "cap" (PyInt 5) PyNone)] [] PyNone)
           "value" [PyInt 1; PyInt 5]).
  vm_compute. reflexivity.
Defined.

End Listings.
